(** * VBMS backend: affiliate commission lifecycle and route contracts

    A shallow embedding of the parts of the VBMS backend that the
    specification makes claims about:

    - [models/Affiliate.js]: the embedded commission list, the running
      statistics, the virtuals [calculatedConversionRate] and
      [pendingPayout], the instance methods [addReferral],
      [recordConversion], [approveCommission] and [payCommission], and the
      [pre('save')] hook every one of them runs through [save];
    - the affiliate routes (approve / pay / create / list);
    - the admin customer routes (list, status update);
    - the user routes (register, create-user) and the file list route.

    Conventions of the embedding.

    - In the modules [Affiliate] and [Lifecycle] a JavaScript [Number] is
      an exact rational ([Q]); [+], [-], [*] and [/] are the exact
      operations and [===] on numbers is [Qeq_bool].  This is the reading of
      the counters in which no operation rounds.  The module [Binary64]
      embeds the same commission arithmetic on IEEE-754 binary64 numbers, as
      the program runs it; what is claimed of sums over a whole history is
      stated there.
    - A [Date] is a number of milliseconds ([Z]); [new Date()] reads the
      clock of the environment record passed to each call.
    - An [ObjectId] is a string.  Fresh identifiers, random strings and the
      clock are inputs ([Env]).
    - Strings are 8-bit ASCII strings; [toLowerCase], [toUpperCase], [trim]
      and the whitespace class act on ASCII.
    - A collection is a finite map from [_id] to document.  The save of a
      new document runs the validators of its schema and meets the unique
      index on [email]; Mongoose applies the setters of a field
      ([lowercase], [trim]) to the document and to the value of a query
      filter on that field.  Whether the database then accepts a write is an
      input of the handler that performs it.
    - A field that may be [undefined] is an [option]. *)

From Stdlib Require Import ZArith QArith Qround Lia Bool List.
From Stdlib Require Import Ascii String DecimalString.
From Stdlib Require Floats.
From stdpp Require Import base option list gmap strings sorting.

Close Scope Q_scope.
Local Open Scope string_scope.
Local Open Scope list_scope.

Abbreviation ObjectId := string (only parsing).
Abbreviation Date := Z (only parsing).
Abbreviation Number := Q (only parsing).

(** ** The environment of a call: clock, fresh ids, random strings *)

Record Env := {
  now : Date;                 (* new Date() / Date.now() *)
  newObjectId : ObjectId;     (* the _id Mongoose gives a pushed subdocument or a new document *)
  randomCode1 : string;       (* Math.random().toString(36).substr(2, 4).toUpperCase(), first use *)
  randomCode2 : string        (* the same expression, second use *)
}.

(** ** JavaScript string helpers (ASCII) *)

Module JsString.

Definition is_lower_letter (c : ascii) : bool :=
  (97 <=? nat_of_ascii c)%nat && (nat_of_ascii c <=? 122)%nat.

Definition is_upper_letter (c : ascii) : bool :=
  (65 <=? nat_of_ascii c)%nat && (nat_of_ascii c <=? 90)%nat.

Definition upper_char (c : ascii) : ascii :=
  if is_lower_letter c then ascii_of_nat (nat_of_ascii c - 32) else c.

Definition lower_char (c : ascii) : ascii :=
  if is_upper_letter c then ascii_of_nat (nat_of_ascii c + 32) else c.

(* the ASCII members of the regular-expression class \s *)
Definition is_space (c : ascii) : bool :=
  let n := nat_of_ascii c in
  (n =? 32)%nat || ((9 <=? n)%nat && (n <=? 13)%nat).

Fixpoint map_chars (f : ascii -> ascii) (s : string) : string :=
  match s with
  | EmptyString => EmptyString
  | String c s' => String (f c) (map_chars f s')
  end.

Definition toUpperCase : string -> string := map_chars upper_char.
Definition toLowerCase : string -> string := map_chars lower_char.

(* s.replace(/\s+/g, '') *)
Fixpoint remove_spaces (s : string) : string :=
  match s with
  | EmptyString => EmptyString
  | String c s' =>
      if is_space c then remove_spaces s' else String c (remove_spaces s')
  end.

(* s.substr(0, n) *)
Fixpoint prefix (n : nat) (s : string) : string :=
  match n, s with
  | O, _ => EmptyString
  | S _, EmptyString => EmptyString
  | S n', String c s' => String c (prefix n' s')
  end.

Fixpoint trim_start (s : string) : string :=
  match s with
  | EmptyString => EmptyString
  | String c s' => if is_space c then trim_start s' else s
  end.

(* the string without its trailing white space *)
Fixpoint trim_end (s : string) : string :=
  match s with
  | EmptyString => EmptyString
  | String c s' =>
      match trim_end s' with
      | EmptyString => if is_space c then EmptyString else String c EmptyString
      | t => String c t
      end
  end.

Definition trim (s : string) : string := trim_end (trim_start s).

(* `${n}` for an integer n *)
Definition of_Z (z : Z) : string := NilZero.string_of_int (Z.to_int z).

(* !s : a string is falsy exactly when it is empty (an absent string field
   is represented by the empty string) *)
Definition falsy (s : string) : bool :=
  match s with EmptyString => true | _ => false end.

End JsString.

(** ** Mongoose document arrays: lookup of a subdocument by [_id]

    [arr.id(x)] returns the first subdocument whose [_id] is [x] (or
    [null]); the caller then mutates that subdocument in place. *)

Class Subdocument (A : Type) := subdoc_id : A -> ObjectId.

Module DocumentArray.
Section DocumentArray.
Context {A : Type} `{Subdocument A}.

Fixpoint id (x : ObjectId) (arr : list A) : option A :=
  match arr with
  | [] => None
  | d :: arr' => if decide (subdoc_id d = x) then Some d else id x arr'
  end.

(* the array after the subdocument returned by [id x] was mutated by [f] *)
Fixpoint modify (x : ObjectId) (f : A -> A) (arr : list A) : list A :=
  match arr with
  | [] => []
  | d :: arr' =>
      if decide (subdoc_id d = x) then f d :: arr' else d :: modify x f arr'
  end.

End DocumentArray.
End DocumentArray.

(** ** [models/Affiliate.js] *)

Module Affiliate.

(* commissions[].status: enum ['pending', 'approved', 'paid', 'cancelled'] *)
Inductive CommissionStatus := Pending | Approved | Paid | Cancelled.

(* referrals[].status: enum ['signup', 'converted', 'churned'] *)
Inductive ReferralStatus := Signup | Converted | Churned.

#[export] Instance CommissionStatus_eq_dec : EqDecision CommissionStatus.
Proof. solve_decision. Defined.

#[export] Instance ReferralStatus_eq_dec : EqDecision ReferralStatus.
Proof. solve_decision. Defined.

(* stats: every counter is a Number with default 0 *)
Record Stats := {
  totalReferrals : Number;
  successfulReferrals : Number;
  totalCommissionEarned : Number;
  totalCommissionPaid : Number;
  pendingCommission : Number;
  conversionRate : Number;
  averageOrderValue : Number;
  lifetimeValue : Number
}.

Record Referral := {
  r_id : ObjectId;
  r_customerId : option ObjectId;
  customerEmail : option string;
  signupDate : Date;
  firstPurchaseDate : option Date;
  totalSpent : Number;
  commissionEarned : Number;
  r_status : ReferralStatus
}.

Record Commission := {
  c_id : ObjectId;
  orderId : option string;
  c_customerId : option ObjectId;
  orderAmount : Number;
  commissionAmount : Number;
  c_commissionRate : Number;
  c_status : CommissionStatus;
  approvedBy : option ObjectId;
  approvedAt : option Date;
  paidAt : option Date;
  paymentMethod : option string;
  paymentReference : option string;
  createdAt : Date
}.

(* The document.  The groups customCommissionRates, contactInfo,
   paymentInfo, marketingAssets, onboarding and settings, which no function
   embedded here reads or writes, are left out, and so are the createdAt and
   updatedAt fields that the timestamps option of the schema maintains. *)
Record Affiliate := {
  _id : ObjectId;
  name : string;
  email : string;
  affiliateId : string;
  referralCode : string;
  status : string;
  tier : string;
  commissionRate : Number;
  stats : Stats;
  referrals : list Referral;
  commissions : list Commission;
  adminNotes : option string;
  tags : list string;
  lastActivityAt : option Date
}.

(* the enumerations of the schema *)
Definition status_enum : list string := ["active"; "inactive"; "suspended"; "pending"].
Definition tier_enum : list string := ["bronze"; "silver"; "gold"; "platinum"].

(* the validators of the schema on the fields kept here: name, email,
   affiliateId and referralCode are required, status and tier are
   enumerations, commissionRate has min 0 and max 1 *)
Definition validates (this : Affiliate) : bool :=
  negb (JsString.falsy (name this)) && negb (JsString.falsy (email this))
  && negb (JsString.falsy (affiliateId this))
  && negb (JsString.falsy (referralCode this))
  && existsb (String.eqb (status this)) status_enum
  && existsb (String.eqb (tier this)) tier_enum
  && Qle_bool 0 (commissionRate this) && Qle_bool (commissionRate this) 1.

(* email: { lowercase: true, trim: true }: the setters Mongoose applies to
   the field of a document and to the value of a query filter *)
Definition cast_email (e : string) : string := JsString.trim (JsString.toLowerCase e).

#[export] Instance Referral_subdoc : Subdocument Referral := r_id.
#[export] Instance Commission_subdoc : Subdocument Commission := c_id.

(* arguments of the methods *)
Record CustomerData := { cd_customerId : option ObjectId; cd_email : option string }.
Record OrderData := { od_orderId : option string; amount : Number }.
Record PaymentData := { method : option string; reference : option string }.

Definition set_stats (s : Stats) (this : Affiliate) : Affiliate :=
  {| _id := _id this; name := name this; email := email this;
     affiliateId := affiliateId this; referralCode := referralCode this;
     status := status this; tier := tier this;
     commissionRate := commissionRate this; stats := s;
     referrals := referrals this; commissions := commissions this;
     adminNotes := adminNotes this; tags := tags this;
     lastActivityAt := lastActivityAt this |}.

Definition set_referrals (rs : list Referral) (this : Affiliate) : Affiliate :=
  {| _id := _id this; name := name this; email := email this;
     affiliateId := affiliateId this; referralCode := referralCode this;
     status := status this; tier := tier this;
     commissionRate := commissionRate this; stats := stats this;
     referrals := rs; commissions := commissions this;
     adminNotes := adminNotes this; tags := tags this;
     lastActivityAt := lastActivityAt this |}.

Definition set_commissions (cs : list Commission) (this : Affiliate) : Affiliate :=
  {| _id := _id this; name := name this; email := email this;
     affiliateId := affiliateId this; referralCode := referralCode this;
     status := status this; tier := tier this;
     commissionRate := commissionRate this; stats := stats this;
     referrals := referrals this; commissions := cs;
     adminNotes := adminNotes this; tags := tags this;
     lastActivityAt := lastActivityAt this |}.

(** *** Virtuals *)

(* AffiliateSchema.virtual('calculatedConversionRate') *)
Definition calculatedConversionRate (this : Affiliate) : Number :=
  if Qeq_bool (totalReferrals (stats this)) 0 then 0%Q
  else ((successfulReferrals (stats this) / totalReferrals (stats this)) * 100)%Q.

(* AffiliateSchema.virtual('pendingPayout') *)
Definition pendingPayout (this : Affiliate) : Number :=
  (totalCommissionEarned (stats this) - totalCommissionPaid (stats this))%Q.

(** *** The pre('save') hook and [save] *)

Definition pre_save (env : Env) (this : Affiliate) : Affiliate :=
  {| _id := _id this; name := name this; email := email this;
     (* Generate affiliate ID if not exists *)
     affiliateId :=
       if JsString.falsy (affiliateId this)
       then "AFF" +:+ JsString.of_Z (now env) +:+ randomCode1 env
       else affiliateId this;
     (* Generate referral code if not exists *)
     referralCode :=
       if JsString.falsy (referralCode this)
       then
         let nameCode :=
           JsString.toUpperCase
             (JsString.prefix 4 (JsString.remove_spaces (name this))) in
         nameCode +:+ randomCode2 env
       else referralCode this;
     status := status this; tier := tier this;
     commissionRate := commissionRate this; stats := stats this;
     referrals := referrals this; commissions := commissions this;
     adminNotes := adminNotes this; tags := tags this;
     (* Update activity timestamp *)
     lastActivityAt := Some (now env) |}.

(* this.save(): the document as it is written, after the hook.  The
   validators run before the hook, so a document that is written had its
   affiliateId and referralCode already and the hook only sets
   lastActivityAt; for a document without them [validates] is false and the
   routes that create documents do not reach this function. *)
Definition save (env : Env) (this : Affiliate) : Affiliate := pre_save env this.

(** *** Methods *)

Definition addReferral (this : Affiliate) (customerData : CustomerData)
    (env : Env) : Affiliate :=
  let this1 :=
    set_referrals
      (referrals this ++
         [ {| r_id := newObjectId env;
              r_customerId := cd_customerId customerData;
              customerEmail := cd_email customerData;
              signupDate := now env;
              firstPurchaseDate := None;
              totalSpent := 0%Q;
              commissionEarned := 0%Q;
              r_status := Signup |} ])
      this in
  let s := stats this1 in
  let this2 :=
    set_stats
      {| totalReferrals := (totalReferrals s + 1)%Q;
         successfulReferrals := successfulReferrals s;
         totalCommissionEarned := totalCommissionEarned s;
         totalCommissionPaid := totalCommissionPaid s;
         pendingCommission := pendingCommission s;
         conversionRate := conversionRate s;
         averageOrderValue := averageOrderValue s;
         lifetimeValue := lifetimeValue s |}
      this1 in
  save env this2.

(* the mutation of the referral found by referrals.id(referralId) *)
Definition convert_referral (orderData : OrderData) (commissionAmount : Number)
    (env : Env) (referral : Referral) : Referral :=
  {| r_id := r_id referral;
     r_customerId := r_customerId referral;
     customerEmail := customerEmail referral;
     signupDate := signupDate referral;
     firstPurchaseDate := Some (now env);
     totalSpent := amount orderData;
     commissionEarned := commissionAmount;
     r_status := Converted |}.

(* the record pushed onto this.commissions *)
Definition new_commission (this : Affiliate) (referral : Referral)
    (orderData : OrderData) (commissionAmount : Number) (env : Env) : Commission :=
  {| c_id := newObjectId env;
     orderId := od_orderId orderData;
     c_customerId := r_customerId referral;
     orderAmount := amount orderData;
     commissionAmount := commissionAmount;
     c_commissionRate := commissionRate this;
     c_status := Pending;
     approvedBy := None; approvedAt := None; paidAt := None;
     paymentMethod := None; paymentReference := None;
     createdAt := now env |}.

Definition recordConversion (this : Affiliate) (referralId : ObjectId)
    (orderData : OrderData) (env : Env) : Affiliate :=
  let this' :=
    match DocumentArray.id referralId (referrals this) with
    | Some referral =>
        let commissionAmount := (amount orderData * commissionRate this)%Q in
        let this1 :=
          set_referrals
            (DocumentArray.modify referralId
               (convert_referral orderData commissionAmount env) (referrals this))
            this in
        (* Add to commission history *)
        let this2 :=
          set_commissions
            (commissions this1 ++
               [new_commission this1 referral orderData commissionAmount env])
            this1 in
        (* Update stats *)
        let s := stats this2 in
        let this3 :=
          set_stats
            {| totalReferrals := totalReferrals s;
               successfulReferrals := (successfulReferrals s + 1)%Q;
               totalCommissionEarned := (totalCommissionEarned s + commissionAmount)%Q;
               totalCommissionPaid := totalCommissionPaid s;
               pendingCommission := (pendingCommission s + commissionAmount)%Q;
               conversionRate := conversionRate s;
               averageOrderValue := averageOrderValue s;
               lifetimeValue := lifetimeValue s |}
            this2 in
        let s3 := stats this3 in
        set_stats
          {| totalReferrals := totalReferrals s3;
             successfulReferrals := successfulReferrals s3;
             totalCommissionEarned := totalCommissionEarned s3;
             totalCommissionPaid := totalCommissionPaid s3;
             pendingCommission := pendingCommission s3;
             conversionRate := calculatedConversionRate this3;
             averageOrderValue := averageOrderValue s3;
             lifetimeValue := lifetimeValue s3 |}
          this3
    | None => this
    end in
  save env this'.

(* the mutation of the commission inside approveCommission's guard *)
Definition approve_fields (adminId : ObjectId) (env : Env) (commission : Commission)
    : Commission :=
  {| c_id := c_id commission; orderId := orderId commission;
     c_customerId := c_customerId commission;
     orderAmount := orderAmount commission;
     commissionAmount := commissionAmount commission;
     c_commissionRate := c_commissionRate commission;
     c_status := Approved;
     approvedBy := Some adminId;
     approvedAt := Some (now env);
     paidAt := paidAt commission;
     paymentMethod := paymentMethod commission;
     paymentReference := paymentReference commission;
     createdAt := createdAt commission |}.

Definition approveCommission (this : Affiliate) (commissionId : ObjectId)
    (adminId : ObjectId) (env : Env) : Affiliate :=
  let this' :=
    match DocumentArray.id commissionId (commissions this) with
    | Some commission =>
        if decide (c_status commission = Pending)
        then set_commissions
               (DocumentArray.modify commissionId (approve_fields adminId env)
                  (commissions this))
               this
        else this
    | None => this
    end in
  save env this'.

(* the mutation of the commission inside payCommission's guard *)
Definition pay_fields (paymentData : PaymentData) (env : Env) (commission : Commission)
    : Commission :=
  {| c_id := c_id commission; orderId := orderId commission;
     c_customerId := c_customerId commission;
     orderAmount := orderAmount commission;
     commissionAmount := commissionAmount commission;
     c_commissionRate := c_commissionRate commission;
     c_status := Paid;
     approvedBy := approvedBy commission;
     approvedAt := approvedAt commission;
     paidAt := Some (now env);
     paymentMethod := method paymentData;
     paymentReference := reference paymentData;
     createdAt := createdAt commission |}.

Definition payCommission (this : Affiliate) (commissionId : ObjectId)
    (paymentData : PaymentData) (env : Env) : Affiliate :=
  let this' :=
    match DocumentArray.id commissionId (commissions this) with
    | Some commission =>
        if decide (c_status commission = Approved)
        then
          let this1 :=
            set_commissions
              (DocumentArray.modify commissionId (pay_fields paymentData env)
                 (commissions this))
              this in
          (* Update stats *)
          let s := stats this1 in
          set_stats
            {| totalReferrals := totalReferrals s;
               successfulReferrals := successfulReferrals s;
               totalCommissionEarned := totalCommissionEarned s;
               totalCommissionPaid :=
                 (totalCommissionPaid s + commissionAmount commission)%Q;
               pendingCommission :=
                 (pendingCommission s - commissionAmount commission)%Q;
               conversionRate := conversionRate s;
               averageOrderValue := averageOrderValue s;
               lifetimeValue := lifetimeValue s |}
            this1
        else this
    | None => this
    end in
  save env this'.

End Affiliate.

(** ** Collections and queries

    Mongoose and the database are not part of the repository; this is the
    part of their documented behaviour that the routes rely on. *)

Module Mongo.

(* a rejected promise carries the error message; an awaited database write
   either resolves or is rejected *)
Inductive Outcome := Resolved | Rejected (error : string).

(* await doc.save() for a new document: the validators of the schema run
   before every pre('save') hook and reject the save of a document that
   fails one; the insert is rejected when a unique index already holds the
   value; otherwise the database answers.  [message] is err.message of the
   rejection. *)
Definition save_new (valid duplicate : bool) (message : string) (write : Outcome)
    : Outcome :=
  if negb valid then Rejected message
  else if duplicate then Rejected message
  else write.

Section Collection.
Context {A : Type}.

(* the documents of a collection *)
Definition documents (c : gmap ObjectId A) : list A := (map_to_list c).*2.

Definition findById (x : ObjectId) (c : gmap ObjectId A) : option A := c !! x.

(* some document of the collection has the property *)
Definition some_document (P : A -> Prop) (c : gmap ObjectId A) : Prop :=
  exists k d, c !! k = Some d /\ P d.

(* Model.findOne(filter): some document the filter matches *)
Definition findOne (matches : A -> bool) (c : gmap ObjectId A) : option A :=
  List.find matches (documents c).

(* Model.countDocuments(filter) *)
Definition countDocuments (matches : A -> bool) (c : gmap ObjectId A) : Z :=
  Z.of_nat (length (List.filter matches (documents c))).

(* Model.findByIdAndUpdate(id, update, { new: true }): the updated document
   (or null) and the collection after the update *)
Definition findByIdAndUpdate (x : ObjectId) (update : A -> A)
    (c : gmap ObjectId A) : option A * gmap ObjectId A :=
  match c !! x with
  | Some d => (Some (update d), <[x := update d]> c)
  | None => (None, c)
  end.

(* a query under construction: Model.find(filter) followed by chained
   .sort / .skip / .limit, in any order; nothing runs before the await *)
Record Query := {
  q_matches : A -> bool;
  q_sort : list A -> list A;
  q_skip : Z;
  q_limit : Z               (* 0: no limit *)
}.

Definition find (matches : A -> bool) : Query :=
  {| q_matches := matches; q_sort := fun l => l; q_skip := 0; q_limit := 0 |}.

Definition sort (order : list A -> list A) (q : Query) : Query :=
  {| q_matches := q_matches q; q_sort := order;
     q_skip := q_skip q; q_limit := q_limit q |}.

Definition skip (n : Z) (q : Query) : Query :=
  {| q_matches := q_matches q; q_sort := q_sort q;
     q_skip := n; q_limit := q_limit q |}.

Definition limit (n : Z) (q : Query) : Query :=
  {| q_matches := q_matches q; q_sort := q_sort q;
     q_skip := q_skip q; q_limit := n |}.

(* the sorted result set of a query, before skip and limit *)
Definition result_set (q : Query) (c : gmap ObjectId A) : list A :=
  q_sort q (List.filter (q_matches q) (documents c)).

(* the server's ordering puts the documents [l] in the order [before]: it
   answers with the same documents, each one before those that follow *)
Definition sorts (before : A -> A -> Prop) (order : list A -> list A) (l : list A)
    : Prop :=
  order l ≡ₚ l /\ StronglySorted before (order l).

(* sort({ [field]: direction }): 1 is ascending and -1 descending in the
   order [precedes] of the values of the field *)
Definition in_order (precedes : string -> A -> A -> Prop) (field : string)
    (direction : Z) (a b : A) : Prop :=
  if (direction =? 1)%Z then precedes field a b else precedes field b a.

(* sort({ createdAt: -1 }) *)
Definition newest_first_by (createdAt : A -> Z) (a b : A) : Prop :=
  (createdAt b <= createdAt a)%Z.

(* await query: the server sorts, skips, then limits.  A negative skip is
   rejected; limit 0 means no limit and a negative limit counts as its
   absolute value. *)
Definition exec (q : Query) (c : gmap ObjectId A) : string + list A :=
  if (q_skip q <? 0)%Z then inl "skip value must be non-negative"
  else
    let rest := drop (Z.to_nat (q_skip q)) (result_set q c) in
    inr (if (q_limit q =? 0)%Z then rest
         else take (Z.to_nat (Z.abs (q_limit q))) rest).

End Collection.

Arguments Query : clear implicits.

End Mongo.

(* the ceiling of the quotient of two integers, for a divisor other than 0 *)
Definition Math_ceil_div (a b : Z) : Z := Qceiling (inject_Z a / inject_Z b).

(* a Number that came out of a division of integers *)
Inductive Quotient := Finite (n : Z) | Infinity | NegativeInfinity | NaN.

(* Math.ceil(a / b): a division by 0 gives an infinity, or NaN for 0 / 0,
   and Math.ceil leaves both as they are *)
Definition Math_ceil (a b : Z) : Quotient :=
  if (b =? 0)%Z then
    if (a =? 0)%Z then NaN else if (0 <? a)%Z then Infinity else NegativeInfinity
  else Finite (Math_ceil_div a b).

(** ** HTTP responses *)

Record Response (B : Type) := { http_status : nat; body : B }.
Arguments http_status {B} _.
Arguments body {B} _.

(* res.json(b) without an explicit status is a 200 *)
Definition json {B} (b : B) : Response B := {| http_status := 200; body := b |}.
Definition status_json {B} (code : nat) (b : B) : Response B :=
  {| http_status := code; body := b |}.

(** ** The affiliate routes *)

Module AffiliateRoutes.
Import Affiliate.

(* the { success, message, data, error } envelope of this route family *)
Record Envelope (D : Type) := {
  success : bool;
  message : option string;
  data : option D;
  error : option string
}.
Arguments success {D} _.
Arguments message {D} _.
Arguments data {D} _.
Arguments error {D} _.

Definition not_found {D} : Response (Envelope D) :=
  status_json 404
    {| success := false; message := Some "Affiliate not found";
       data := None; error := None |}.

(* POST /:id/commissions/:commissionId/approve; the handler body, after the
   authentication middleware has set req.user *)
Definition approve_route (db : gmap ObjectId Affiliate) (id commissionId : ObjectId)
    (req_user_id : ObjectId) (env : Env) (write : Mongo.Outcome)
    : Response (Envelope unit) * gmap ObjectId Affiliate :=
  match Mongo.findById id db with
  | None => (not_found, db)
  | Some affiliate =>
      match write with
      | Mongo.Resolved =>
          (json {| success := true;
                   message := Some "Commission approved successfully";
                   data := None; error := None |},
           <[id := approveCommission affiliate commissionId req_user_id env]> db)
      | Mongo.Rejected e =>
          (status_json 500
             {| success := false; message := Some "Error approving commission";
                data := None; error := Some e |},
           db)
      end
  end.

(* POST /:id/commissions/:commissionId/pay *)
Definition pay_route (db : gmap ObjectId Affiliate) (id commissionId : ObjectId)
    (paymentMethod paymentReference : option string) (env : Env)
    (write : Mongo.Outcome)
    : Response (Envelope unit) * gmap ObjectId Affiliate :=
  match Mongo.findById id db with
  | None => (not_found, db)
  | Some affiliate =>
      match write with
      | Mongo.Resolved =>
          (json {| success := true;
                   message := Some "Commission paid successfully";
                   data := None; error := None |},
           <[id := payCommission affiliate commissionId
                     {| method := paymentMethod; reference := paymentReference |}
                     env]> db)
      | Mongo.Rejected e =>
          (status_json 500
             {| success := false; message := Some "Error processing payment";
                data := None; error := Some e |},
           db)
      end
  end.

(* the body of POST / *)
Record CreateBody := {
  cb_name : string;
  cb_email : string;
  cb_tier : option string;               (* tier = 'bronze' *)
  cb_commissionRate : option Number;     (* commissionRate = 0.15 *)
  cb_adminNotes : option string;
  cb_tags : list string
}.

(* new Affiliate({ ... }): schema setters (trim, lowercase) and defaults;
   the body gives neither affiliateId nor referralCode *)
Definition new_Affiliate (b : CreateBody) (env : Env) : Affiliate :=
  {| _id := newObjectId env;
     name := JsString.trim (cb_name b);
     email := cast_email (JsString.toLowerCase (cb_email b));
     affiliateId := ""; referralCode := "";
     status := "active";   (* Admin-created affiliates are active by default *)
     tier := default "bronze" (cb_tier b);
     commissionRate := default (15 # 100)%Q (cb_commissionRate b);
     stats := {| totalReferrals := 0%Q; successfulReferrals := 0%Q;
                 totalCommissionEarned := 0%Q; totalCommissionPaid := 0%Q;
                 pendingCommission := 0%Q; conversionRate := 0%Q;
                 averageOrderValue := 0%Q; lifetimeValue := 0%Q |};
     referrals := []; commissions := [];
     adminNotes := cb_adminNotes b; tags := cb_tags b;
     lastActivityAt := None |}.

(* email: { unique: true } *)
Definition email_taken (db : gmap ObjectId Affiliate) (this : Affiliate) : bool :=
  bool_decide (is_Some (Mongo.findOne (fun a => String.eqb (email a) (email this)) db)).

Section Create.
(* err.message of a save that a validator or the unique index rejects *)
Variable save_error : Affiliate -> string.

(* POST / (create affiliate) *)
Definition create_route (db : gmap ObjectId Affiliate) (b : CreateBody) (env : Env)
    (write : Mongo.Outcome)
    : Response (Envelope Affiliate) * gmap ObjectId Affiliate :=
  (* Check if affiliate already exists *)
  match Mongo.findOne
          (fun a => String.eqb (email a)
                      (cast_email (JsString.toLowerCase (cb_email b)))) db with
  | Some existingAffiliate =>
      (status_json 409
         {| success := false;
            message := Some "Affiliate with this email already exists";
            data := None; error := None |},
       db)
  | None =>
      let affiliate := new_Affiliate b env in
      match Mongo.save_new (validates affiliate) (email_taken db affiliate)
              (save_error affiliate) write with
      | Mongo.Resolved =>
          let saved := save env affiliate in
          (status_json 201
             {| success := true; message := Some "Affiliate created successfully";
                data := Some saved; error := None |},
           <[_id saved := saved]> db)
      | Mongo.Rejected e =>
          (status_json 500
             {| success := false; message := Some "Error creating affiliate";
                data := None; error := Some e |},
           db)
      end
  end.
End Create.

(* the query string of GET /; a numeral is given by its value *)
Record ListQuery := {
  lq_page : option Z;          (* page = 1 *)
  lq_limit : option Z;         (* limit = 50 *)
  lq_status : option string;
  lq_tier : option string;
  lq_search : option string;
  lq_sortBy : option string;   (* sortBy = 'createdAt' *)
  lq_sortOrder : option string (* sortOrder = 'desc' *)
}.

Record Pagination := {
  currentPage : Z;
  totalPages : Quotient;
  totalItems : Z;
  itemsPerPage : Z
}.

Record ListData := { affiliates : list Affiliate; pagination : Pagination }.

(* if (x): a string from the query is truthy when present and not empty *)
Definition given (x : option string) : option string :=
  match x with
  | Some s => if JsString.falsy s then None else Some s
  | None => None
  end.

Section List.
(* { $regex: search, $options: 'i' } and the ordering the database applies
   for sort({ [sortBy]: direction }) are the database's *)
Variable regex_i : string -> string -> bool.
Variable order_by : string -> Z -> list Affiliate -> list Affiliate.

(* Build filter *)
Definition list_filter (q : ListQuery) (a : Affiliate) : bool :=
  match given (lq_status q) with
  | Some s => String.eqb (status a) s | None => true end
  && match given (lq_tier q) with
     | Some t => String.eqb (tier a) t | None => true end
  && match given (lq_search q) with
     | Some s => regex_i s (name a) || regex_i s (email a)
                 || regex_i s (referralCode a)
     | None => true end.

(* Affiliate.find(filter).sort(sort) *)
Definition list_sorted (q : ListQuery) : Mongo.Query Affiliate :=
  let sortBy := default "createdAt" (lq_sortBy q) in
  let sortOrder := default "desc" (lq_sortOrder q) in
  (* Build sort *)
  let direction := if String.eqb sortOrder "desc" then (-1)%Z else 1%Z in
  Mongo.sort (order_by sortBy direction) (Mongo.find (list_filter q)).

(* GET / (affiliates list); the summary statistics of the response are
   not part of the embedding *)
Definition list_route (db : gmap ObjectId Affiliate) (q : ListQuery)
    : Response (Envelope ListData) :=
  let page := default 1%Z (lq_page q) in
  let limit := default 50%Z (lq_limit q) in
  match Mongo.exec
          (Mongo.skip ((page - 1) * limit)
             (Mongo.limit (limit * 1) (list_sorted q))) db with
  | inr affiliates =>
      let total := Mongo.countDocuments (list_filter q) db in
      json {| success := true; message := None;
              data := Some {| affiliates := affiliates;
                              pagination :=
                                {| currentPage := page;
                                   totalPages := Math_ceil total limit;
                                   totalItems := total;
                                   itemsPerPage := limit |} |};
              error := None |}
  | inl e =>
      status_json 500
        {| success := false; message := Some "Error fetching affiliates";
           data := None; error := Some e |}
  end.
End List.

End AffiliateRoutes.

(** ** The User model *)

Module User.

Record User := {
  _id : ObjectId;
  name : string;
  email : string;
  password : string;
  role : string;
  position : string;
  status : string;
  business : option ObjectId;
  adminPermissions : gmap string bool;
  createdAt : Date
}.

(* the enumerations of the schema *)
Definition role_enum : list string :=
  ["main_admin"; "admin"; "support"; "customer"; "client"].
Definition status_enum : list string :=
  ["active"; "inactive"; "suspended"; "pending"].

(* email: { lowercase: true }: the setter Mongoose applies to the field of a
   document and to the value of a query filter *)
Definition cast_email (e : string) : string := JsString.toLowerCase e.

Definition set_status (s : string) (u : User) : User :=
  {| _id := _id u; name := name u; email := email u; password := password u;
     role := role u; position := position u; status := s;
     business := business u; adminPermissions := adminPermissions u;
     createdAt := createdAt u |}.

Definition set_password (p : string) (u : User) : User :=
  {| _id := _id u; name := name u; email := email u; password := p;
     role := role u; position := position u; status := status u;
     business := business u; adminPermissions := adminPermissions u;
     createdAt := createdAt u |}.

(* the document without its password: .select('-password') and
   delete userResponse.password *)
Record PublicUser := {
  p_id : ObjectId;
  p_name : string;
  p_email : string;
  p_role : string;
  p_position : string;
  p_status : string;
  p_business : option ObjectId;
  p_adminPermissions : gmap string bool;
  p_createdAt : Date
}.

Definition without_password (u : User) : PublicUser :=
  {| p_id := _id u; p_name := name u; p_email := email u; p_role := role u;
     p_position := position u; p_status := status u; p_business := business u;
     p_adminPermissions := adminPermissions u; p_createdAt := createdAt u |}.

(* Array.prototype.includes on a list of strings *)
Definition includes (l : list string) (s : string) : bool :=
  existsb (String.eqb s) l.

(* x || d for a string that may be undefined *)
Definition or_else (x : option string) (d : string) : string :=
  match x with
  | Some s => if JsString.falsy s then d else s
  | None => d
  end.

(* !x for a string that may be undefined *)
Definition missing (x : option string) : bool :=
  match x with Some s => JsString.falsy s | None => true end.

(* the validators of the schema: name, email and password are required,
   role and status are enumerations *)
Definition validates (u : User) : bool :=
  negb (JsString.falsy (name u)) && negb (JsString.falsy (email u))
  && negb (JsString.falsy (password u))
  && includes role_enum (role u) && includes status_enum (status u).

(* email: { unique: true } *)
Definition email_taken (db : gmap ObjectId User) (u : User) : bool :=
  bool_decide (is_Some (Mongo.findOne (fun d => String.eqb (email d) (email u)) db)).

Section Externals.
(* bcrypt.hash with the salt it draws, and jwt.sign over { id, email, role } *)
Variable bcrypt_hash : string -> string.
Variable jwt_sign : ObjectId -> string -> string -> string.
(* err.message of a save that a validator or the unique index rejects *)
Variable save_error : User -> string.

(* UserSchema.pre('save') for a new document: the password is hashed *)
Definition pre_save (u : User) : User := set_password (bcrypt_hash (password u)) u.

(* await newUser.save() *)
Definition insert (db : gmap ObjectId User) (u : User) (write : Mongo.Outcome)
    : Mongo.Outcome :=
  Mongo.save_new (validates u) (email_taken db u) (save_error u) write.

(** *** POST /register *)

Record RegisterBody := {
  rb_name : string;
  rb_email : string;
  rb_password : string;
  rb_business : option ObjectId;
  rb_position : option string;
  rb_role : option string
}.

Record Session := {
  s_name : string; s_email : string; s_role : string; s_status : string;
  s_business : option ObjectId; s_position : string
}.

Inductive AuthBody :=
| Message (message : string)
| Failure (message error : string)
| Token (token : string) (user : Session).

Definition register (db : gmap ObjectId User) (b : RegisterBody) (env : Env)
    (write : Mongo.Outcome) : Response AuthBody * gmap ObjectId User :=
  match Mongo.findOne
          (fun u => String.eqb (email u) (cast_email (rb_email b))) db with
  | Some exists_ => (status_json 409 (Message "Email already exists"), db)
  | None =>
      let newUser :=
        {| _id := newObjectId env;
           name := rb_name b;
           email := cast_email (rb_email b);
           password := rb_password b;
           role := or_else (rb_role b) "Client";
           position := or_else (rb_position b) "Member";
           status := "Active";
           business := rb_business b;
           adminPermissions := ∅;
           createdAt := now env |} in
      match insert db newUser write with
      | Mongo.Resolved =>
          let saved := pre_save newUser in
          (status_json 201
             (Token (jwt_sign (_id saved) (email saved) (role saved))
                {| s_name := name saved; s_email := email saved;
                   s_role := role saved; s_status := status saved;
                   s_business := business saved;
                   s_position := position saved |}),
           <[_id saved := saved]> db)
      | Mongo.Rejected e =>
          (status_json 500 (Failure "Registration failed" e), db)
      end
  end.

(** *** POST /create-user *)

Record CreateUserBody := {
  cu_name : option string;
  cu_email : option string;
  cu_password : option string;
  cu_role : option string;
  cu_adminPermissions : option (gmap string bool);
  cu_status : option string          (* status = 'active' *)
}.

Inductive CreateUserReply :=
| Refused (message : string)
| Errored (message error : string)
| Created (message : string) (user : PublicUser).

Definition create_user (db : gmap ObjectId User) (req_user_id : ObjectId)
    (b : CreateUserBody) (env : Env) (write : Mongo.Outcome)
    : Response CreateUserReply * gmap ObjectId User :=
  (* Check if the requesting user is a main admin *)
  match Mongo.findById req_user_id db with
  | None =>
      (status_json 403
         (Refused "Only main administrators can create new users."), db)
  | Some requestingUser =>
      if negb (String.eqb (role requestingUser) "main_admin") then
        (status_json 403
           (Refused "Only main administrators can create new users."), db)
      else if missing (cu_name b) || missing (cu_email b)
              || missing (cu_password b) || missing (cu_role b) then
        (status_json 400
           (Refused "Name, email, password, and role are required."), db)
      else
        let name_ := default "" (cu_name b) in
        let email_ := default "" (cu_email b) in
        let password_ := default "" (cu_password b) in
        let role_ := default "" (cu_role b) in
        (* Validate role *)
        let validRoles := ["admin"; "main_admin"; "support"; "customer"; "client"] in
        if negb (includes validRoles (JsString.toLowerCase role_)) then
          (status_json 400 (Refused "Invalid role specified."), db)
        else
          (* Check if user already exists *)
          match Mongo.findOne
                  (fun u => String.eqb (email u)
                              (cast_email (JsString.toLowerCase email_)))
                  db with
          | Some existingUser =>
              (status_json 409
                 (Refused "A user with this email already exists."), db)
          | None =>
              let lrole := JsString.toLowerCase role_ in
              let newUser :=
                {| _id := newObjectId env;
                   name := JsString.trim name_;
                   email := cast_email (JsString.trim (JsString.toLowerCase email_));
                   password := password_;
                   role := lrole;
                   position := "Member";
                   status := or_else (cu_status b) "active";
                   business := None;
                   adminPermissions :=
                     match cu_adminPermissions b with
                     | Some perms =>
                         if String.eqb lrole "admin" || String.eqb lrole "support"
                         then perms else ∅
                     | None => ∅
                     end;
                   createdAt := now env |} in
              match insert db newUser write with
              | Mongo.Resolved =>
                  let saved := pre_save newUser in
                  (status_json 201
                     (Created "User created successfully." (without_password saved)),
                   <[_id saved := saved]> db)
              | Mongo.Rejected e =>
                  (status_json 500 (Errored "Error creating user." e), db)
              end
          end
  end.
End Externals.

End User.

(** ** The admin customer routes *)

Module AdminRoutes.
Import User.

Inductive AdminBody :=
| Error (error : string)
| CustomerList (customers : list PublicUser) (currentPage : Z)
    (totalPages : Quotient) (totalCustomers : Z)
| CustomerUpdated (customer : option PublicUser) (message : string).

Record CustomersQuery := {
  cq_page : option Z;         (* page = 1 *)
  cq_limit : option Z;        (* limit = 20 *)
  cq_search : option string;
  cq_status : option string
}.

Section Customers.
Variable regex_i : string -> string -> bool.
(* the order of sort({ createdAt: -1 }) *)
Variable newest_first : list User -> list User.

Definition customers_filter (q : CustomersQuery) (u : User) : bool :=
  String.eqb (role u) "customer"
  && match AffiliateRoutes.given (cq_search q) with
     | Some s => regex_i s (name u) || regex_i s (email u)
     | None => true end
  && match AffiliateRoutes.given (cq_status q) with
     | Some s => String.eqb (status u) s
     | None => true end.

(* User.find(query).sort({ createdAt: -1 }) *)
Definition customers_sorted (q : CustomersQuery) : Mongo.Query User :=
  Mongo.sort newest_first (Mongo.find (customers_filter q)).

(* GET /customers; the populated business and subscription are not part
   of the embedding *)
Definition customers_route (db : gmap ObjectId User) (q : CustomersQuery)
    : Response AdminBody :=
  let page := default 1%Z (cq_page q) in
  let limit := default 20%Z (cq_limit q) in
  match Mongo.exec
          (Mongo.skip ((page - 1) * limit)
             (Mongo.limit (limit * 1) (customers_sorted q))) db with
  | inr customers =>
      let total := Mongo.countDocuments (customers_filter q) db in
      json (CustomerList (without_password <$> customers) page
              (Math_ceil total limit) total)
  | inl e => status_json 500 (Error "Failed to fetch customers")
  end.
End Customers.

(* PUT /customers/:id/status *)
Definition status_route (db : gmap ObjectId User) (id : ObjectId)
    (status : option string) : Response AdminBody * gmap ObjectId User :=
  match status with
  | Some s =>
      if negb (includes ["active"; "inactive"; "suspended"] s) then
        (status_json 400 (Error "Invalid status"), db)
      else
        let '(customer, db') := Mongo.findByIdAndUpdate id (set_status s) db in
        (json (CustomerUpdated (without_password <$> customer)
                 ("Customer status updated to " +:+ s)),
         db')
  | None => (status_json 400 (Error "Invalid status"), db)
  end.

End AdminRoutes.

(** ** The file list route of the settings routes *)

Module SettingsRoutes.

(* the File model itself is not among the sources: a file document is any
   type with an owner and a category *)
Section Files.
Context {File : Type}.
Variable userId : File -> ObjectId.
Variable category : File -> string.
(* the order of sort({ createdAt: -1 }) *)
Variable newest_first : list File -> list File.

Record FilesPagination := { current : Z; pages : Quotient; total : Z; limit : Z }.

Inductive FilesBody :=
| FilesError (error : string)
| FileList (files : list File) (pagination : FilesPagination) (category : string).

(* parseInt(x) || d: an absent parameter and the numeral 0 both give d *)
Definition parseInt_or (x : option Z) (d : Z) : Z :=
  match x with
  | Some n => if (n =? 0)%Z then d else n
  | None => d
  end.

Definition files_filter (req_user_id : ObjectId) (cat : option string)
    (f : File) : bool :=
  String.eqb (userId f) req_user_id
  && match cat with
     | Some c => if String.eqb c "all" then true else String.eqb (category f) c
     | None => true
     end.

(* File.find(query).sort({ createdAt: -1 }) *)
Definition files_sorted (req_user_id : ObjectId) (cat : option string)
    : Mongo.Query File :=
  Mongo.sort newest_first (Mongo.find (files_filter req_user_id cat)).

(* GET /files/:category? *)
Definition files_route (db : gmap ObjectId File) (req_user_id : ObjectId)
    (param_category : option string) (query_limit query_page : option Z)
    : Response FilesBody :=
  let category_ := AffiliateRoutes.given param_category in
  let limit_ := parseInt_or query_limit 50 in
  let page := parseInt_or query_page 1 in
  let skip := ((page - 1) * limit_)%Z in
  match Mongo.exec
          (Mongo.limit limit_
             (Mongo.skip skip (files_sorted req_user_id category_))) db with
  | inr files =>
      let total_ := Mongo.countDocuments (files_filter req_user_id category_) db in
      json (FileList files
              {| current := page; pages := Math_ceil total_ limit_;
                 total := total_; limit := limit_ |}
              (default "all" category_))
  | inl e => status_json 500 (FilesError "Failed to list files")
  end.
End Files.

End SettingsRoutes.

(** ** Sequences of method calls on one affiliate document *)

Module Lifecycle.
Import Affiliate.

Inductive Call :=
| AddReferral (customerData : CustomerData)
| RecordConversion (referralId : ObjectId) (orderData : OrderData)
| ApproveCommission (commissionId : ObjectId) (adminId : ObjectId)
| PayCommission (commissionId : ObjectId) (paymentData : PaymentData).

(* one call, in the environment it runs in *)
Definition step (this : Affiliate) (c : Call * Env) : Affiliate :=
  match c with
  | (AddReferral customerData, env) => addReferral this customerData env
  | (RecordConversion referralId orderData, env) =>
      recordConversion this referralId orderData env
  | (ApproveCommission commissionId adminId, env) =>
      approveCommission this commissionId adminId env
  | (PayCommission commissionId paymentData, env) =>
      payCommission this commissionId paymentData env
  end.

Definition run (this : Affiliate) (calls : list (Call * Env)) : Affiliate :=
  fold_left step calls this.

Definition zero_stats : Stats :=
  {| totalReferrals := 0%Q; successfulReferrals := 0%Q;
     totalCommissionEarned := 0%Q; totalCommissionPaid := 0%Q;
     pendingCommission := 0%Q; conversionRate := 0%Q;
     averageOrderValue := 0%Q; lifetimeValue := 0%Q |}.

(* payCommission has nothing to move for this commission *)
Definition not_approved (commissionId : ObjectId) (this : Affiliate) : Prop :=
  match DocumentArray.id commissionId (commissions this) with
  | Some c => c_status c <> Approved
  | None => True
  end.

Definition not_pending (commissionId : ObjectId) (this : Affiliate) : Prop :=
  match DocumentArray.id commissionId (commissions this) with
  | Some c => c_status c <> Pending
  | None => True
  end.

(* repeated payCommission calls for one commission *)
Definition pay_again (commissionId : ObjectId) (this : Affiliate)
    (c : PaymentData * Env) : Affiliate :=
  payCommission this commissionId (fst c) (snd c).

Definition approve_again (commissionId : ObjectId) (this : Affiliate)
    (c : ObjectId * Env) : Affiliate :=
  approveCommission this commissionId (fst c) (snd c).

End Lifecycle.

(** ** Sample data *)

Module Examples.
Import Affiliate Lifecycle.

Definition env_at (t : Z) (fresh_id : string) : Env :=
  {| now := t; newObjectId := fresh_id; randomCode1 := "X7Q2"; randomCode2 := "K9ZD" |}.

(* an affiliate as POST / leaves it, after its first save *)
Definition ada : Affiliate :=
  {| _id := "a1"; name := "Ada Byron"; email := "ada@example.org";
     affiliateId := "AFF1000X7Q2"; referralCode := "ADABK9ZD";
     status := "active"; tier := "bronze"; commissionRate := (15 # 100)%Q;
     stats := zero_stats; referrals := []; commissions := [];
     adminNotes := None; tags := []; lastActivityAt := Some 1000%Z |}.

Definition order1 : OrderData := {| od_orderId := Some "o1"; amount := 200%Q |}.
Definition order2 : OrderData := {| od_orderId := Some "o2"; amount := 80%Q |}.
Definition by_paypal : PaymentData :=
  {| method := Some "paypal"; reference := Some "PAY-1" |}.


Definition signup : Call * Env :=
  (AddReferral {| cd_customerId := Some "u1"; cd_email := Some "bob@example.org" |},
   env_at 2000 "r1").

(* one referral signed up, one order converted: commission c1 is pending *)
Definition ada_pending : Affiliate :=
  run ada [signup; (RecordConversion "r1" order1, env_at 3000 "c1")].

(* ... and approved by admin u0 *)
Definition ada_approved : Affiliate :=
  run ada_pending [(ApproveCommission "c1" "u0", env_at 4000 "-")].

Definition history : list (Call * Env) :=
  [ signup;
    (RecordConversion "r1" order1, env_at 3000 "c1");
    (RecordConversion "r1" order2, env_at 3500 "c2");
    (ApproveCommission "c1" "u0", env_at 4000 "-");
    (PayCommission "c2" by_paypal, env_at 4500 "-");
    (PayCommission "c1" by_paypal, env_at 5000 "-");
    (PayCommission "c1" by_paypal, env_at 5500 "-") ].

(* users: a main administrator and a customer *)
Definition root : User.User :=
  {| User._id := "u0"; User.name := "Root"; User.email := "root@example.org";
     User.password := "$2b$10$h0"; User.role := "main_admin";
     User.position := "Member"; User.status := "active";
     User.business := None; User.adminPermissions := ∅;
     User.createdAt := 10%Z |}.

Definition carol : User.User :=
  {| User._id := "u1"; User.name := "Carol"; User.email := "carol@example.org";
     User.password := "$2b$10$h1"; User.role := "customer";
     User.position := "Member"; User.status := "active";
     User.business := None; User.adminPermissions := ∅;
     User.createdAt := 20%Z |}.

Definition users : gmap ObjectId User.User := {[ "u0" := root; "u1" := carol ]}.




(* a registration for an address nobody has *)
Definition register_new : User.RegisterBody :=
  {| User.rb_name := "Eve"; User.rb_email := "Eve@example.org";
     User.rb_password := "s3cret"; User.rb_business := None;
     User.rb_position := None; User.rb_role := None |}.


Definition affiliates : gmap ObjectId Affiliate := {[ "a1" := ada_pending ]}.

(* stand-ins for bcrypt, jwt, the regular-expression match and the
   database's ordering *)
Definition refusal {A} (document : A) : string := "rejected".
Definition hash (p : string) : string := "$2b$10$" +:+ p.
Definition sign (id email role : string) : string := id +:+ "." +:+ role.
Definition contains_i (pattern subject : string) : bool := true.
Definition as_stored {A} (l : list A) : list A := l.

(* file documents: owner and category *)
Definition files : gmap ObjectId (string * string) :=
  {[ "f1" := ("u1", "images"); "f2" := ("u1", "documents"); "f3" := ("u0", "images") ]}.

Definition page2 : AffiliateRoutes.ListQuery :=
  {| AffiliateRoutes.lq_page := Some 2%Z; AffiliateRoutes.lq_limit := Some 10%Z;
     AffiliateRoutes.lq_status := None; AffiliateRoutes.lq_tier := None;
     AffiliateRoutes.lq_search := None; AffiliateRoutes.lq_sortBy := None;
     AffiliateRoutes.lq_sortOrder := None |}.

Definition customers_page2 : AdminRoutes.CustomersQuery :=
  {| AdminRoutes.cq_page := Some 2%Z; AdminRoutes.cq_limit := Some 10%Z;
     AdminRoutes.cq_search := None; AdminRoutes.cq_status := None |}.

(* ?limit=0 *)
Definition limit0 : AffiliateRoutes.ListQuery :=
  {| AffiliateRoutes.lq_page := None; AffiliateRoutes.lq_limit := Some 0%Z;
     AffiliateRoutes.lq_status := None; AffiliateRoutes.lq_tier := None;
     AffiliateRoutes.lq_search := None; AffiliateRoutes.lq_sortBy := None;
     AffiliateRoutes.lq_sortOrder := None |}.

(* the time a file was created, and an order of field values *)
Definition file_time (f : string * string) : Z :=
  if String.eqb (snd f) "images" then 2%Z else 1%Z.
Definition by_name (field : string) (a b : Affiliate) : Prop :=
  String.leb (name a) (name b) = true.

End Examples.

(** ** [models/Affiliate.js] on binary64 numbers

    The records and methods of [Affiliate] once more, with every Number an
    IEEE-754 binary64 float and [+], [-], [*], [/] and [===] the operations
    of the processor, which round to the nearest float.  Only the types of
    the numeric fields and the arithmetic differ from [Affiliate]. *)

Module Binary64.
Import PrimFloat.
#[local] Set Warnings "-inexact-float".
Local Close Scope float_scope.

#[export] Existing Instance Affiliate.CommissionStatus_eq_dec.

(* stats: every counter is a float with default 0 *)
Record Stats := {
  totalReferrals : float;
  successfulReferrals : float;
  totalCommissionEarned : float;
  totalCommissionPaid : float;
  pendingCommission : float;
  conversionRate : float;
  averageOrderValue : float;
  lifetimeValue : float
}.

Record Referral := {
  r_id : ObjectId;
  r_customerId : option ObjectId;
  customerEmail : option string;
  signupDate : Date;
  firstPurchaseDate : option Date;
  totalSpent : float;
  commissionEarned : float;
  r_status : Affiliate.ReferralStatus
}.

Record Commission := {
  c_id : ObjectId;
  orderId : option string;
  c_customerId : option ObjectId;
  orderAmount : float;
  commissionAmount : float;
  c_commissionRate : float;
  c_status : Affiliate.CommissionStatus;
  approvedBy : option ObjectId;
  approvedAt : option Date;
  paidAt : option Date;
  paymentMethod : option string;
  paymentReference : option string;
  createdAt : Date
}.

(* the document, with the fields of [Affiliate.Affiliate] *)
Record Affiliate := {
  _id : ObjectId;
  name : string;
  email : string;
  affiliateId : string;
  referralCode : string;
  status : string;
  tier : string;
  commissionRate : float;
  stats : Stats;
  referrals : list Referral;
  commissions : list Commission;
  adminNotes : option string;
  tags : list string;
  lastActivityAt : option Date
}.

#[export] Instance Referral_subdoc : Subdocument Referral := r_id.
#[export] Instance Commission_subdoc : Subdocument Commission := c_id.

(* orderData *)
Record OrderData := { od_orderId : option string; amount : float }.

Definition set_stats (s : Stats) (this : Affiliate) : Affiliate :=
  {| _id := _id this; name := name this; email := email this;
     affiliateId := affiliateId this; referralCode := referralCode this;
     status := status this; tier := tier this;
     commissionRate := commissionRate this; stats := s;
     referrals := referrals this; commissions := commissions this;
     adminNotes := adminNotes this; tags := tags this;
     lastActivityAt := lastActivityAt this |}.

Definition set_referrals (rs : list Referral) (this : Affiliate) : Affiliate :=
  {| _id := _id this; name := name this; email := email this;
     affiliateId := affiliateId this; referralCode := referralCode this;
     status := status this; tier := tier this;
     commissionRate := commissionRate this; stats := stats this;
     referrals := rs; commissions := commissions this;
     adminNotes := adminNotes this; tags := tags this;
     lastActivityAt := lastActivityAt this |}.

Definition set_commissions (cs : list Commission) (this : Affiliate) : Affiliate :=
  {| _id := _id this; name := name this; email := email this;
     affiliateId := affiliateId this; referralCode := referralCode this;
     status := status this; tier := tier this;
     commissionRate := commissionRate this; stats := stats this;
     referrals := referrals this; commissions := cs;
     adminNotes := adminNotes this; tags := tags this;
     lastActivityAt := lastActivityAt this |}.

(** *** Virtuals *)

(* AffiliateSchema.virtual('calculatedConversionRate') *)
Definition calculatedConversionRate (this : Affiliate) : float :=
  if PrimFloat.eqb (totalReferrals (stats this)) 0 then 0%float
  else ((successfulReferrals (stats this) / totalReferrals (stats this)) * 100)%float.

(* AffiliateSchema.virtual('pendingPayout') *)
Definition pendingPayout (this : Affiliate) : float :=
  (totalCommissionEarned (stats this) - totalCommissionPaid (stats this))%float.

(** *** The pre('save') hook and [save] *)

Definition pre_save (env : Env) (this : Affiliate) : Affiliate :=
  {| _id := _id this; name := name this; email := email this;
     (* Generate affiliate ID if not exists *)
     affiliateId :=
       if JsString.falsy (affiliateId this)
       then "AFF" +:+ JsString.of_Z (now env) +:+ randomCode1 env
       else affiliateId this;
     (* Generate referral code if not exists *)
     referralCode :=
       if JsString.falsy (referralCode this)
       then
         let nameCode :=
           JsString.toUpperCase
             (JsString.prefix 4 (JsString.remove_spaces (name this))) in
         nameCode +:+ randomCode2 env
       else referralCode this;
     status := status this; tier := tier this;
     commissionRate := commissionRate this; stats := stats this;
     referrals := referrals this; commissions := commissions this;
     adminNotes := adminNotes this; tags := tags this;
     (* Update activity timestamp *)
     lastActivityAt := Some (now env) |}.

(* this.save(): the document as it is written, after the hook *)
Definition save (env : Env) (this : Affiliate) : Affiliate := pre_save env this.

(** *** Methods *)

Definition addReferral (this : Affiliate) (customerData : Affiliate.CustomerData)
    (env : Env) : Affiliate :=
  let this1 :=
    set_referrals
      (referrals this ++
         [ {| r_id := newObjectId env;
              r_customerId := Affiliate.cd_customerId customerData;
              customerEmail := Affiliate.cd_email customerData;
              signupDate := now env;
              firstPurchaseDate := None;
              totalSpent := 0%float;
              commissionEarned := 0%float;
              r_status := Affiliate.Signup |} ])
      this in
  let s := stats this1 in
  let this2 :=
    set_stats
      {| totalReferrals := (totalReferrals s + 1)%float;
         successfulReferrals := successfulReferrals s;
         totalCommissionEarned := totalCommissionEarned s;
         totalCommissionPaid := totalCommissionPaid s;
         pendingCommission := pendingCommission s;
         conversionRate := conversionRate s;
         averageOrderValue := averageOrderValue s;
         lifetimeValue := lifetimeValue s |}
      this1 in
  save env this2.

(* the mutation of the referral found by referrals.id(referralId) *)
Definition convert_referral (orderData : OrderData) (commissionAmount : float)
    (env : Env) (referral : Referral) : Referral :=
  {| r_id := r_id referral;
     r_customerId := r_customerId referral;
     customerEmail := customerEmail referral;
     signupDate := signupDate referral;
     firstPurchaseDate := Some (now env);
     totalSpent := amount orderData;
     commissionEarned := commissionAmount;
     r_status := Affiliate.Converted |}.

(* the record pushed onto this.commissions *)
Definition new_commission (this : Affiliate) (referral : Referral)
    (orderData : OrderData) (commissionAmount : float) (env : Env) : Commission :=
  {| c_id := newObjectId env;
     orderId := od_orderId orderData;
     c_customerId := r_customerId referral;
     orderAmount := amount orderData;
     commissionAmount := commissionAmount;
     c_commissionRate := commissionRate this;
     c_status := Affiliate.Pending;
     approvedBy := None; approvedAt := None; paidAt := None;
     paymentMethod := None; paymentReference := None;
     createdAt := now env |}.

Definition recordConversion (this : Affiliate) (referralId : ObjectId)
    (orderData : OrderData) (env : Env) : Affiliate :=
  let this' :=
    match DocumentArray.id referralId (referrals this) with
    | Some referral =>
        let commissionAmount := (amount orderData * commissionRate this)%float in
        let this1 :=
          set_referrals
            (DocumentArray.modify referralId
               (convert_referral orderData commissionAmount env) (referrals this))
            this in
        (* Add to commission history *)
        let this2 :=
          set_commissions
            (commissions this1 ++
               [new_commission this1 referral orderData commissionAmount env])
            this1 in
        (* Update stats *)
        let s := stats this2 in
        let this3 :=
          set_stats
            {| totalReferrals := totalReferrals s;
               successfulReferrals := (successfulReferrals s + 1)%float;
               totalCommissionEarned := (totalCommissionEarned s + commissionAmount)%float;
               totalCommissionPaid := totalCommissionPaid s;
               pendingCommission := (pendingCommission s + commissionAmount)%float;
               conversionRate := conversionRate s;
               averageOrderValue := averageOrderValue s;
               lifetimeValue := lifetimeValue s |}
            this2 in
        let s3 := stats this3 in
        set_stats
          {| totalReferrals := totalReferrals s3;
             successfulReferrals := successfulReferrals s3;
             totalCommissionEarned := totalCommissionEarned s3;
             totalCommissionPaid := totalCommissionPaid s3;
             pendingCommission := pendingCommission s3;
             conversionRate := calculatedConversionRate this3;
             averageOrderValue := averageOrderValue s3;
             lifetimeValue := lifetimeValue s3 |}
          this3
    | None => this
    end in
  save env this'.

(* the mutation of the commission inside approveCommission's guard *)
Definition approve_fields (adminId : ObjectId) (env : Env) (commission : Commission)
    : Commission :=
  {| c_id := c_id commission; orderId := orderId commission;
     c_customerId := c_customerId commission;
     orderAmount := orderAmount commission;
     commissionAmount := commissionAmount commission;
     c_commissionRate := c_commissionRate commission;
     c_status := Affiliate.Approved;
     approvedBy := Some adminId;
     approvedAt := Some (now env);
     paidAt := paidAt commission;
     paymentMethod := paymentMethod commission;
     paymentReference := paymentReference commission;
     createdAt := createdAt commission |}.

Definition approveCommission (this : Affiliate) (commissionId : ObjectId)
    (adminId : ObjectId) (env : Env) : Affiliate :=
  let this' :=
    match DocumentArray.id commissionId (commissions this) with
    | Some commission =>
        if decide (c_status commission = Affiliate.Pending)
        then set_commissions
               (DocumentArray.modify commissionId (approve_fields adminId env)
                  (commissions this))
               this
        else this
    | None => this
    end in
  save env this'.

(* the mutation of the commission inside payCommission's guard *)
Definition pay_fields (paymentData : Affiliate.PaymentData) (env : Env) (commission : Commission)
    : Commission :=
  {| c_id := c_id commission; orderId := orderId commission;
     c_customerId := c_customerId commission;
     orderAmount := orderAmount commission;
     commissionAmount := commissionAmount commission;
     c_commissionRate := c_commissionRate commission;
     c_status := Affiliate.Paid;
     approvedBy := approvedBy commission;
     approvedAt := approvedAt commission;
     paidAt := Some (now env);
     paymentMethod := Affiliate.method paymentData;
     paymentReference := Affiliate.reference paymentData;
     createdAt := createdAt commission |}.

Definition payCommission (this : Affiliate) (commissionId : ObjectId)
    (paymentData : Affiliate.PaymentData) (env : Env) : Affiliate :=
  let this' :=
    match DocumentArray.id commissionId (commissions this) with
    | Some commission =>
        if decide (c_status commission = Affiliate.Approved)
        then
          let this1 :=
            set_commissions
              (DocumentArray.modify commissionId (pay_fields paymentData env)
                 (commissions this))
              this in
          (* Update stats *)
          let s := stats this1 in
          set_stats
            {| totalReferrals := totalReferrals s;
               successfulReferrals := successfulReferrals s;
               totalCommissionEarned := totalCommissionEarned s;
               totalCommissionPaid :=
                 (totalCommissionPaid s + commissionAmount commission)%float;
               pendingCommission :=
                 (pendingCommission s - commissionAmount commission)%float;
               conversionRate := conversionRate s;
               averageOrderValue := averageOrderValue s;
               lifetimeValue := lifetimeValue s |}
            this1
        else this
    | None => this
    end in
  save env this'.


(** *** Sequences of method calls *)

Inductive Call :=
| AddReferral (customerData : Affiliate.CustomerData)
| RecordConversion (referralId : ObjectId) (orderData : OrderData)
| ApproveCommission (commissionId : ObjectId) (adminId : ObjectId)
| PayCommission (commissionId : ObjectId) (paymentData : Affiliate.PaymentData).

Definition step (this : Affiliate) (c : Call * Env) : Affiliate :=
  match c with
  | (AddReferral customerData, env) => addReferral this customerData env
  | (RecordConversion referralId orderData, env) =>
      recordConversion this referralId orderData env
  | (ApproveCommission commissionId adminId, env) =>
      approveCommission this commissionId adminId env
  | (PayCommission commissionId paymentData, env) =>
      payCommission this commissionId paymentData env
  end.

Definition run (this : Affiliate) (calls : list (Call * Env)) : Affiliate :=
  fold_left step calls this.

Definition zero_stats : Stats :=
  {| totalReferrals := 0%float; successfulReferrals := 0%float;
     totalCommissionEarned := 0%float; totalCommissionPaid := 0%float;
     pendingCommission := 0%float; conversionRate := 0%float;
     averageOrderValue := 0%float; lifetimeValue := 0%float |}.

(* a freshly created affiliate: schema defaults for the counters, no
   commission yet *)
Definition fresh (this : Affiliate) : Prop :=
  stats this = zero_stats /\ commissions this = [].

(** *** The numbers that floats stand for *)

(* a float that is a number: neither an infinity nor NaN *)
Definition is_number (x : float) : bool :=
  match FloatOps.Prim2SF x with
  | SpecFloat.S754_zero _ | SpecFloat.S754_finite _ _ _ => true
  | _ => false
  end.

(* the rational a float stands for: (-1)^s * m * 2^e *)
Definition value (x : float) : Q :=
  match FloatOps.Prim2SF x with
  | SpecFloat.S754_finite s m e =>
      ((if s then -1 else 1) * inject_Z (Z.pos m) * Qpower (2 # 1) e)%Q
  | _ => 0%Q
  end.

(* x + y and x - y are numbers and did not round *)
Definition exact_add (x y : float) : bool :=
  is_number (x + y)%float && Qeq_bool (value (x + y)%float) (value x + value y)%Q.
Definition exact_sub (x y : float) : bool :=
  is_number (x - y)%float && Qeq_bool (value (x - y)%float) (value x - value y)%Q.

(* the additions and subtractions one call performs on the commission
   counters do not round *)
Definition exact_step (this : Affiliate) (c : Call * Env) : bool :=
  match c with
  | (RecordConversion referralId orderData, _) =>
      match DocumentArray.id referralId (referrals this) with
      | Some _ =>
          let commissionAmount := (amount orderData * commissionRate this)%float in
          exact_add (totalCommissionEarned (stats this)) commissionAmount
          && exact_add (pendingCommission (stats this)) commissionAmount
      | None => true
      end
  | (PayCommission commissionId _, _) =>
      match DocumentArray.id commissionId (commissions this) with
      | Some commission =>
          if decide (c_status commission = Affiliate.Approved)
          then exact_add (totalCommissionPaid (stats this))
                 (commissionAmount commission)
               && exact_sub (pendingCommission (stats this))
                    (commissionAmount commission)
          else true
      | None => true
      end
  | _ => true
  end.

Fixpoint exact_run (this : Affiliate) (calls : list (Call * Env)) : bool :=
  match calls with
  | [] => true
  | c :: calls' => exact_step this c && exact_run (step this c) calls'
  end.

(* what a commission adds to the sum over the given statuses: the number
   its commissionAmount stands for, or nothing *)
Definition counts (statuses : list Affiliate.CommissionStatus) (c : Commission) : Q :=
  if bool_decide (c_status c ∈ statuses) then value (commissionAmount c) else 0%Q.

(* the sum of the commissionAmount of the commissions in one of the given
   statuses *)
Definition total_of (statuses : list Affiliate.CommissionStatus)
    (cs : list Commission) : Q :=
  fold_right (fun c acc => (counts statuses c + acc)%Q) 0%Q cs.

Definition open_statuses : list Affiliate.CommissionStatus :=
  [Affiliate.Pending; Affiliate.Approved].
Definition all_statuses : list Affiliate.CommissionStatus :=
  [Affiliate.Pending; Affiliate.Approved; Affiliate.Paid; Affiliate.Cancelled].

(* the counters agree with the commission list *)
Record consistent (this : Affiliate) : Prop := {
  earned_is_total :
    (value (totalCommissionEarned (stats this))
     == total_of all_statuses (commissions this))%Q;
  paid_is_paid :
    (value (totalCommissionPaid (stats this))
     == total_of [Affiliate.Paid] (commissions this))%Q;
  pending_is_open :
    (value (pendingCommission (stats this))
     == total_of open_statuses (commissions this))%Q;
  none_cancelled :
    Forall (fun c => c_status c <> Affiliate.Cancelled) (commissions this)
}.

(** *** Sample data *)

Definition env_at (t : Z) (fresh_id : string) : Env :=
  {| now := t; newObjectId := fresh_id; randomCode1 := "X7Q2"; randomCode2 := "K9ZD" |}.

(* an affiliate with the default commission rate *)
Definition ada : Affiliate :=
  {| _id := "a1"; name := "Ada Byron"; email := "ada@example.org";
     affiliateId := "AFF1000X7Q2"; referralCode := "ADABK9ZD";
     status := "active"; tier := "bronze"; commissionRate := 0.15%float;
     stats := zero_stats; referrals := []; commissions := [];
     adminNotes := None; tags := []; lastActivityAt := Some 1000%Z |}.

(* the same affiliate at a rate of one half *)
Definition half : Affiliate :=
  {| _id := "a1"; name := "Ada Byron"; email := "ada@example.org";
     affiliateId := "AFF1000X7Q2"; referralCode := "ADABK9ZD";
     status := "active"; tier := "bronze"; commissionRate := 0.5%float;
     stats := zero_stats; referrals := []; commissions := [];
     adminNotes := None; tags := []; lastActivityAt := Some 1000%Z |}.

Definition by_paypal : Affiliate.PaymentData :=
  {| Affiliate.method := Some "paypal"; Affiliate.reference := Some "PAY-1" |}.

(* a sign-up, orders of 1 and 2, the first commission approved and paid *)
Definition history : list (Call * Env) :=
  [ (AddReferral {| Affiliate.cd_customerId := Some "u1";
                    Affiliate.cd_email := Some "bob@example.org" |},
     env_at 2000 "r1");
    (RecordConversion "r1" {| od_orderId := Some "o1"; amount := 1%float |},
     env_at 3000 "c1");
    (RecordConversion "r1" {| od_orderId := Some "o2"; amount := 2%float |},
     env_at 3500 "c2");
    (ApproveCommission "c1" "u0", env_at 4000 "-");
    (PayCommission "c1" by_paypal, env_at 4500 "-") ].

(* a tenth as the rate, orders of 1 and 2, both commissions approved and
   paid *)
Definition tenth : Affiliate :=
  {| _id := "a1"; name := "Ada Byron"; email := "ada@example.org";
     affiliateId := "AFF1000X7Q2"; referralCode := "ADABK9ZD";
     status := "active"; tier := "bronze"; commissionRate := 0.1%float;
     stats := zero_stats; referrals := []; commissions := [];
     adminNotes := None; tags := []; lastActivityAt := Some 1000%Z |}.

Definition settled : list (Call * Env) :=
  [ (AddReferral {| Affiliate.cd_customerId := Some "u1";
                    Affiliate.cd_email := Some "bob@example.org" |},
     env_at 2000 "r1");
    (RecordConversion "r1" {| od_orderId := Some "o1"; amount := 1%float |},
     env_at 3000 "c1");
    (RecordConversion "r1" {| od_orderId := Some "o2"; amount := 2%float |},
     env_at 3500 "c2");
    (ApproveCommission "c1" "u0", env_at 4000 "-");
    (ApproveCommission "c2" "u0", env_at 4100 "-");
    (PayCommission "c1" by_paypal, env_at 4500 "-");
    (PayCommission "c2" by_paypal, env_at 4600 "-") ].

End Binary64.

(** ** The ledger of an affiliate: what the counters stand for *)

Module Ledger.
Import Affiliate.

(* a count as a Number *)
Definition count {A} (l : list A) : Number := inject_Z (Z.of_nat (length l)).

(* an affiliate that has seen no referral and no commission yet *)
Definition brand_new (this : Affiliate) : Prop :=
  stats this = Lifecycle.zero_stats /\ commissions this = [] /\ referrals this = [].

(* the counters agree with the embedded lists *)
Record consistent (this : Affiliate) : Prop := {
  referrals_counted : (totalReferrals (stats this) == count (referrals this))%Q;
  conversions_counted :
    (successfulReferrals (stats this) == count (commissions this))%Q
}.

(* the status of a commission only moves forward *)
Definition forward (s s' : CommissionStatus) : bool :=
  match s, s' with
  | Pending, (Pending | Approved | Paid) => true
  | Approved, (Approved | Paid) => true
  | Paid, Paid => true
  | Cancelled, Cancelled => true
  | _, _ => false
  end.

(* [c'] is a later state of the commission [c] *)
Record evolves (c c' : Commission) : Prop := {
  same_id : c_id c' = c_id c;
  same_order : orderId c' = orderId c /\ c_customerId c' = c_customerId c
               /\ orderAmount c' = orderAmount c;
  same_amount : commissionAmount c' = commissionAmount c;
  same_rate : c_commissionRate c' = c_commissionRate c;
  same_createdAt : createdAt c' = createdAt c;
  moves_forward : forward (c_status c) (c_status c') = true;
  approval_kept : c_status c <> Pending ->
                  approvedBy c' = approvedBy c /\ approvedAt c' = approvedAt c;
  final : c_status c = Paid \/ c_status c = Cancelled -> c' = c
}.

(* the fields of the document outside stats, referrals, commissions and
   lastActivityAt *)
Definition identity (this : Affiliate) :=
  (_id this, name this, email this, status this, tier this, commissionRate this,
   adminNotes this, tags this).

End Ledger.

(** ** The static methods of the Affiliate model *)

Module AffiliateStatics.
Import Affiliate.

Definition is_active (a : Affiliate) : bool := String.eqb (status a) "active".

(* { $gt: 0 } on a Number *)
Definition gt0 (x : Number) : bool := negb (Qle_bool x 0).

(* AffiliateSchema.statics.findByReferralCode *)
Definition findByReferralCode (db : gmap ObjectId Affiliate) (code : string)
    : option Affiliate :=
  Mongo.findOne
    (fun a => String.eqb (referralCode a) (JsString.toUpperCase code) && is_active a)
    db.

Section Sorted.
(* the orders of sort({ 'stats.totalCommissionEarned': -1 }) and of
   sort({ 'stats.pendingCommission': -1 }) *)
Variable most_earned_first : list Affiliate -> list Affiliate.
Variable most_pending_first : list Affiliate -> list Affiliate.

(* AffiliateSchema.statics.getTopPerformers, limit = 10 *)
Definition getTopPerformers (db : gmap ObjectId Affiliate) (limit : option Z)
    : string + list Affiliate :=
  Mongo.exec
    (Mongo.limit (default 10%Z limit)
       (Mongo.sort most_earned_first (Mongo.find is_active))) db.

(* AffiliateSchema.statics.getPendingPayouts *)
Definition getPendingPayouts (db : gmap ObjectId Affiliate) : string + list Affiliate :=
  Mongo.exec
    (Mongo.sort most_pending_first
       (Mongo.find (fun a => is_active a && gt0 (pendingCommission (stats a))))) db.
End Sorted.

(* an affiliate earns at least as much as the next one *)
Definition earns_at_least (a b : Affiliate) : Prop :=
  (totalCommissionEarned (stats b) <= totalCommissionEarned (stats a))%Q.

End AffiliateStatics.

(** ** The other affiliate routes *)

Module AffiliateAdmin.
Import Affiliate AffiliateRoutes.

(* DELETE /:id *)
Definition delete_route (db : gmap ObjectId Affiliate) (id : ObjectId)
    : Response (Envelope unit) * gmap ObjectId Affiliate :=
  match Mongo.findById id db with
  | None => (not_found, db)
  | Some affiliate =>
      (json {| success := true; message := Some "Affiliate deleted successfully";
               data := None; error := None |},
       delete id db)
  end.

Definition set_status (s : string) (this : Affiliate) : Affiliate :=
  {| _id := _id this; name := name this; email := email this;
     affiliateId := affiliateId this; referralCode := referralCode this;
     status := s; tier := tier this;
     commissionRate := commissionRate this; stats := stats this;
     referrals := referrals this; commissions := commissions this;
     adminNotes := adminNotes this; tags := tags this;
     lastActivityAt := lastActivityAt this |}.

Definition set_tier (t : string) (this : Affiliate) : Affiliate :=
  {| _id := _id this; name := name this; email := email this;
     affiliateId := affiliateId this; referralCode := referralCode this;
     status := status this; tier := t;
     commissionRate := commissionRate this; stats := stats this;
     referrals := referrals this; commissions := commissions this;
     adminNotes := adminNotes this; tags := tags this;
     lastActivityAt := lastActivityAt this |}.

Definition set_commissionRate (r : Number) (this : Affiliate) : Affiliate :=
  {| _id := _id this; name := name this; email := email this;
     affiliateId := affiliateId this; referralCode := referralCode this;
     status := status this; tier := tier this;
     commissionRate := r; stats := stats this;
     referrals := referrals this; commissions := commissions this;
     adminNotes := adminNotes this; tags := tags this;
     lastActivityAt := lastActivityAt this |}.

(* the result of Model.updateMany *)
Record UpdateResult := { modifiedCount : Z; matchedCount : Z }.

(* Model.updateMany(filter, { $set: ... }): every matching document is
   updated in place, without validation and without the save hooks; a
   document that already has the value counts as matched, not as modified *)
Definition updateMany {A} (matches : A -> bool) (update : A -> A)
    (has_value : A -> bool) (c : gmap ObjectId A) : UpdateResult * gmap ObjectId A :=
  ({| modifiedCount :=
        Mongo.countDocuments (fun d => matches d && negb (has_value d)) c;
      matchedCount := Mongo.countDocuments matches c |},
   (fun d => if matches d then update d else d) <$> c).

(* the body of POST /bulk-action: the action with the part of data it
   reads; a request for update_tier carries data.tier and one for
   update_commission carries data.commissionRate *)
Inductive BulkAction :=
| Activate
| Deactivate
| UpdateTier (tier : string)
| UpdateCommission (commissionRate : Number)
| OtherAction (action : string).

(* a stored affiliate with the updatedAt field that the timestamps option
   of the schema maintains *)
Record Stored := { document : Affiliate; updatedAt : Date }.

(* { _id: { $in: affiliateIds } } *)
Definition listed (affiliateIds : list ObjectId) (s : Stored) : bool :=
  bool_decide (_id (document s) ∈ affiliateIds).

(* under timestamps: true Mongoose sends { $set: { field: v, updatedAt: now } }
   for { $set: { field: v } } *)
Definition stamped (update : Affiliate -> Affiliate) (at_ : Date) (s : Stored)
    : Stored :=
  {| document := update (document s); updatedAt := at_ |}.

(* the update changes nothing in a document that has the value and was
   last updated at this very time *)
Definition has_both (has_value : Affiliate -> bool) (at_ : Date) (s : Stored) : bool :=
  has_value (document s) && (updatedAt s =? at_)%Z.

Definition bulk_update (action : BulkAction) (affiliateIds : list ObjectId)
    (env : Env) (db : gmap ObjectId Stored)
    : option (UpdateResult * gmap ObjectId Stored) :=
  match action with
  | Activate =>
      Some (updateMany (listed affiliateIds)
              (stamped (set_status "active") (now env))
              (has_both (fun a => String.eqb (status a) "active") (now env)) db)
  | Deactivate =>
      Some (updateMany (listed affiliateIds)
              (stamped (set_status "inactive") (now env))
              (has_both (fun a => String.eqb (status a) "inactive") (now env)) db)
  | UpdateTier t =>
      Some (updateMany (listed affiliateIds)
              (stamped (set_tier t) (now env))
              (has_both (fun a => String.eqb (tier a) t) (now env)) db)
  | UpdateCommission r =>
      Some (updateMany (listed affiliateIds)
              (stamped (set_commissionRate r) (now env))
              (has_both (fun a => Qeq_bool (commissionRate a) r) (now env)) db)
  | OtherAction _ => None
  end.

(* POST /bulk-action *)
Definition bulk_action_route (db : gmap ObjectId Stored) (action : BulkAction)
    (affiliateIds : list ObjectId) (env : Env)
    : Response (Envelope UpdateResult) * gmap ObjectId Stored :=
  match bulk_update action affiliateIds env db with
  | Some (result, db') =>
      (json {| success := true;
               message := Some "Bulk action completed successfully";
               data := Some result; error := None |},
       db')
  | None =>
      (status_json 400
         {| success := false; message := Some "Invalid bulk action";
            data := None; error := None |},
       db)
  end.

(* what a bulk action sets in one affiliate *)
Definition bulk_set (action : BulkAction) (a : Affiliate) : Affiliate :=
  match action with
  | Activate => set_status "active" a
  | Deactivate => set_status "inactive" a
  | UpdateTier t => set_tier t a
  | UpdateCommission r => set_commissionRate r a
  | OtherAction _ => a
  end.

(* what a bulk action does to one stored document *)
Definition bulk_apply (action : BulkAction) (ids : list ObjectId) (at_ : Date)
    (s : Stored) : Stored :=
  match action with
  | OtherAction _ => s
  | _ => if listed ids s then stamped (bulk_set action) at_ s else s
  end.

(* the collection holds every document under its own _id *)
Definition keyed (db : gmap ObjectId Affiliate) : Prop :=
  forall k a, db !! k = Some a -> _id a = k.

End AffiliateAdmin.

(** ** Logging in, and the legacy user creation of the admin routes *)

Module Auth.
Import User.

Record LoginBody := { lb_email : option string; lb_password : option string }.

Section Externals.
(* bcrypt.compare(candidate, hash) and jwt.sign over { id, email, role } *)
Variable bcrypt_compare : string -> string -> bool.
Variable jwt_sign : ObjectId -> string -> string -> string.

(* UserSchema.methods.comparePassword *)
Definition comparePassword (this : User) (candidatePassword : string) : bool :=
  bcrypt_compare candidatePassword (password this).

(* POST /login *)
Definition login (db : gmap ObjectId User) (b : LoginBody) : Response AuthBody :=
  if missing (lb_email b) || missing (lb_password b) then
    status_json 400 (Message "Email and password required")
  else
    let email_ := default "" (lb_email b) in
    let password_ := default "" (lb_password b) in
    match Mongo.findOne (fun u => String.eqb (email u) (cast_email email_)) db with
    | None => status_json 400 (Message "No user found")
    | Some user =>
        if negb (comparePassword user password_) then
          status_json 400 (Message "Wrong password")
        else
          json (Token (jwt_sign (_id user) (email user) (role user))
                  {| s_name := name user; s_email := email user;
                     s_role := role user; s_status := status user;
                     s_business := business user;
                     s_position := position user |})
    end.
End Externals.

Section Legacy.
Variable bcrypt_hash : string -> string.
(* err.message of a save that a validator or the unique index rejects *)
Variable save_error : User -> string.

Record LegacyBody := {
  lg_name : string;
  lg_email : string;
  lg_password : string;
  lg_role : option string
}.

Inductive LegacyReply :=
| LegacyMessage (message : string)
| LegacyFailed (message error : string)
| LegacyCreated (message : string) (name email : string) (role : option string).

(* POST /create-user of the admin routes (legacy); new User({ ... }) fills
   in the schema defaults *)
Definition legacy_create_user (db : gmap ObjectId User) (b : LegacyBody) (env : Env)
    (write : Mongo.Outcome) : Response LegacyReply * gmap ObjectId User :=
  match Mongo.findOne
          (fun u => String.eqb (email u) (cast_email (lg_email b))) db with
  | Some exists_ => (status_json 409 (LegacyMessage "Email already registered."), db)
  | None =>
      let newUser :=
        {| _id := newObjectId env;
           name := lg_name b;
           email := cast_email (lg_email b);
           password := lg_password b;
           role := default "client" (lg_role b);
           position := "Member";
           status := "active";
           business := None;
           adminPermissions := ∅;
           createdAt := now env |} in
      match insert save_error db newUser write with
      | Mongo.Resolved =>
          let saved := pre_save bcrypt_hash newUser in
          (status_json 201
             (LegacyCreated "User created" (lg_name b) (lg_email b) (lg_role b)),
           <[_id saved := saved]> db)
      | Mongo.Rejected e =>
          (status_json 500 (LegacyFailed "User creation failed" e), db)
      end
  end.
End Legacy.

(* the enumerations of the schema hold for a document *)
Definition conforms (u : User) : Prop :=
  role u ∈ role_enum /\ status u ∈ status_enum.

(* every stored email is in lower case *)
Definition lower_emails (db : gmap ObjectId User) : Prop :=
  forall k u, db !! k = Some u -> JsString.toLowerCase (email u) = email u.

Definition lower_affiliate_emails (db : gmap ObjectId Affiliate.Affiliate) : Prop :=
  forall k a, db !! k = Some a ->
              JsString.toLowerCase (Affiliate.email a) = Affiliate.email a.

End Auth.

(** ** What a list response carries *)

Module Listing.

Definition files_of {File} (r : Response (@SettingsRoutes.FilesBody File)) : list File :=
  match body r with
  | SettingsRoutes.FileList files _ _ => files
  | SettingsRoutes.FilesError _ => []
  end.

Definition customers_of (r : Response AdminRoutes.AdminBody) : list User.PublicUser :=
  match body r with
  | AdminRoutes.CustomerList customers _ _ _ => customers
  | _ => []
  end.

Definition affiliates_of
    (r : Response (AffiliateRoutes.Envelope AffiliateRoutes.ListData))
    : list Affiliate.Affiliate :=
  match AffiliateRoutes.data (body r) with
  | Some d => AffiliateRoutes.affiliates d
  | None => []
  end.

(* an ordering that answers with documents it was given *)
Definition selects {A} (order : list A -> list A) : Prop :=
  forall l x, x ∈ order l -> x ∈ l.

End Listing.

(** ** The settings routes

    The Settings model is not among the sources.  A settings document is
    modelled by the fields the routes read and write; what the schema gives
    a field the constructor is not handed is a parameter. *)

Module SettingsProfile.

Record Settings := {
  _id : ObjectId;
  userId : ObjectId;
  businessName : option string;
  businessEmail : option string;
  businessPhone : option string;
  businessAddress : option string;
  businessDescription : option string;
  logoUrl : option string;
  logoKey : option string;
  emailNotifications : option bool;
  smsNotifications : option bool;
  orderNotifications : option bool;
  marketingNotifications : option bool;
  uberEatsConnected : option bool;
  uberEatsStoreId : option string;
  doorDashConnected : option bool;
  grubhubConnected : option bool;
  cloverConnected : option bool
}.

(* a || b on strings that may be undefined *)
Definition or_string (a b : option string) : option string :=
  match a with
  | Some s => if JsString.falsy s then b else a
  | None => b
  end.

(* a !== undefined ? a : b *)
Definition if_defined {A} (a b : option A) : option A :=
  match a with Some _ => a | None => b end.

Record BusinessProfile := {
  bp_businessName : option string;
  bp_businessEmail : option string;
  bp_businessPhone : option string;
  bp_businessAddress : option string;
  bp_businessDescription : option string
}.

Record NotificationFlags := {
  nf_email : option bool;
  nf_sms : option bool;
  nf_order : option bool;
  nf_marketing : option bool
}.

Record IntegrationBody := {
  platform : option string;
  connected : option bool;
  storeId : option string
}.

Record IntegrationFlags := {
  if_uberEatsConnected : option bool;
  if_uberEatsStoreId : option string;
  if_doorDashConnected : option bool;
  if_grubhubConnected : option bool;
  if_cloverConnected : option bool
}.

Inductive SettingsBody :=
| SettingsError (error : string)
| Document (settings : Settings)
| Updated (message : string) (settings : Settings)
| Notifications (flags : NotificationFlags)
| Integrations (flags : IntegrationFlags).

Definition set_profile (n e p a d : option string) (s : Settings) : Settings :=
  {| _id := _id s; userId := userId s;
     businessName := n; businessEmail := e; businessPhone := p;
     businessAddress := a; businessDescription := d;
     logoUrl := logoUrl s; logoKey := logoKey s;
     emailNotifications := emailNotifications s;
     smsNotifications := smsNotifications s;
     orderNotifications := orderNotifications s;
     marketingNotifications := marketingNotifications s;
     uberEatsConnected := uberEatsConnected s;
     uberEatsStoreId := uberEatsStoreId s;
     doorDashConnected := doorDashConnected s;
     grubhubConnected := grubhubConnected s;
     cloverConnected := cloverConnected s |}.

Definition set_logoUrl (l : option string) (s : Settings) : Settings :=
  {| _id := _id s; userId := userId s;
     businessName := businessName s; businessEmail := businessEmail s;
     businessPhone := businessPhone s; businessAddress := businessAddress s;
     businessDescription := businessDescription s;
     logoUrl := l; logoKey := logoKey s;
     emailNotifications := emailNotifications s;
     smsNotifications := smsNotifications s;
     orderNotifications := orderNotifications s;
     marketingNotifications := marketingNotifications s;
     uberEatsConnected := uberEatsConnected s;
     uberEatsStoreId := uberEatsStoreId s;
     doorDashConnected := doorDashConnected s;
     grubhubConnected := grubhubConnected s;
     cloverConnected := cloverConnected s |}.

Definition set_notifications (f : NotificationFlags) (s : Settings) : Settings :=
  {| _id := _id s; userId := userId s;
     businessName := businessName s; businessEmail := businessEmail s;
     businessPhone := businessPhone s; businessAddress := businessAddress s;
     businessDescription := businessDescription s;
     logoUrl := logoUrl s; logoKey := logoKey s;
     emailNotifications := nf_email f;
     smsNotifications := nf_sms f;
     orderNotifications := nf_order f;
     marketingNotifications := nf_marketing f;
     uberEatsConnected := uberEatsConnected s;
     uberEatsStoreId := uberEatsStoreId s;
     doorDashConnected := doorDashConnected s;
     grubhubConnected := grubhubConnected s;
     cloverConnected := cloverConnected s |}.

Definition set_integrations (f : IntegrationFlags) (s : Settings) : Settings :=
  {| _id := _id s; userId := userId s;
     businessName := businessName s; businessEmail := businessEmail s;
     businessPhone := businessPhone s; businessAddress := businessAddress s;
     businessDescription := businessDescription s;
     logoUrl := logoUrl s; logoKey := logoKey s;
     emailNotifications := emailNotifications s;
     smsNotifications := smsNotifications s;
     orderNotifications := orderNotifications s;
     marketingNotifications := marketingNotifications s;
     uberEatsConnected := if_uberEatsConnected f;
     uberEatsStoreId := if_uberEatsStoreId f;
     doorDashConnected := if_doorDashConnected f;
     grubhubConnected := if_grubhubConnected f;
     cloverConnected := if_cloverConnected f |}.

Definition notifications_of (s : Settings) : NotificationFlags :=
  {| nf_email := emailNotifications s; nf_sms := smsNotifications s;
     nf_order := orderNotifications s; nf_marketing := marketingNotifications s |}.

Definition integrations_of (s : Settings) : IntegrationFlags :=
  {| if_uberEatsConnected := uberEatsConnected s;
     if_uberEatsStoreId := uberEatsStoreId s;
     if_doorDashConnected := doorDashConnected s;
     if_grubhubConnected := grubhubConnected s;
     if_cloverConnected := cloverConnected s |}.

Section Routes.
(* new Settings({ userId }): the document with the defaults of the schema *)
Variable new_Settings : ObjectId -> ObjectId -> Settings.

Definition by_user (req_user_id : ObjectId) (s : Settings) : bool :=
  String.eqb (userId s) req_user_id.

(* await settings.save() *)
Definition save (s : Settings) (db : gmap ObjectId Settings) : gmap ObjectId Settings :=
  <[_id s := s]> db.

(* GET /business-profile *)
Definition get_business_profile (db : gmap ObjectId Settings) (req_user_id : ObjectId)
    (env : Env) (write : Mongo.Outcome)
    : Response SettingsBody * gmap ObjectId Settings :=
  match Mongo.findOne (by_user req_user_id) db with
  | Some settings => (json (Document settings), db)
  | None =>
      (* Create default settings if none exist *)
      let settings :=
        set_logoUrl (Some "")
          (set_profile (Some "") (Some "") (Some "") (Some "") (Some "")
             (new_Settings (newObjectId env) req_user_id)) in
      match write with
      | Mongo.Resolved => (json (Document settings), save settings db)
      | Mongo.Rejected e =>
          (status_json 500 (SettingsError "Failed to fetch business profile"), db)
      end
  end.

(* PUT /business-profile *)
Definition put_business_profile (db : gmap ObjectId Settings) (req_user_id : ObjectId)
    (b : BusinessProfile) (env : Env) (write : Mongo.Outcome)
    : Response SettingsBody * gmap ObjectId Settings :=
  let settings :=
    match Mongo.findOne (by_user req_user_id) db with
    | None =>
        set_profile
          (or_string (bp_businessName b) (Some ""))
          (or_string (bp_businessEmail b) (Some ""))
          (or_string (bp_businessPhone b) (Some ""))
          (or_string (bp_businessAddress b) (Some ""))
          (or_string (bp_businessDescription b) (Some ""))
          (new_Settings (newObjectId env) req_user_id)
    | Some settings =>
        set_profile
          (or_string (bp_businessName b) (businessName settings))
          (or_string (bp_businessEmail b) (businessEmail settings))
          (or_string (bp_businessPhone b) (businessPhone settings))
          (or_string (bp_businessAddress b) (businessAddress settings))
          (or_string (bp_businessDescription b) (businessDescription settings))
          settings
    end in
  match write with
  | Mongo.Resolved =>
      (json (Updated "Business profile updated successfully" settings),
       save settings db)
  | Mongo.Rejected e =>
      (status_json 500 (SettingsError "Failed to update business profile"), db)
  end.

(* GET /notifications *)
Definition get_notifications (db : gmap ObjectId Settings) (req_user_id : ObjectId)
    (env : Env) (write : Mongo.Outcome)
    : Response SettingsBody * gmap ObjectId Settings :=
  match Mongo.findOne (by_user req_user_id) db with
  | Some settings => (json (Notifications (notifications_of settings)), db)
  | None =>
      let settings :=
        set_notifications
          {| nf_email := Some true; nf_sms := Some false;
             nf_order := Some true; nf_marketing := Some false |}
          (new_Settings (newObjectId env) req_user_id) in
      match write with
      | Mongo.Resolved =>
          (json (Notifications (notifications_of settings)), save settings db)
      | Mongo.Rejected e =>
          (status_json 500 (SettingsError "Failed to fetch notification settings"), db)
      end
  end.

(* PUT /notifications *)
Definition put_notifications (db : gmap ObjectId Settings) (req_user_id : ObjectId)
    (b : NotificationFlags) (env : Env) (write : Mongo.Outcome)
    : Response SettingsBody * gmap ObjectId Settings :=
  let found :=
    match Mongo.findOne (by_user req_user_id) db with
    | Some settings => settings
    | None => new_Settings (newObjectId env) req_user_id
    end in
  let settings :=
    set_notifications
      {| nf_email := if_defined (nf_email b) (emailNotifications found);
         nf_sms := if_defined (nf_sms b) (smsNotifications found);
         nf_order := if_defined (nf_order b) (orderNotifications found);
         nf_marketing := if_defined (nf_marketing b) (marketingNotifications found) |}
      found in
  match write with
  | Mongo.Resolved =>
      (json (Updated "Notification settings updated successfully" settings),
       save settings db)
  | Mongo.Rejected e =>
      (status_json 500 (SettingsError "Failed to update notification settings"), db)
  end.

(* GET /integrations *)
Definition get_integrations (db : gmap ObjectId Settings) (req_user_id : ObjectId)
    (env : Env) (write : Mongo.Outcome)
    : Response SettingsBody * gmap ObjectId Settings :=
  match Mongo.findOne (by_user req_user_id) db with
  | Some settings => (json (Integrations (integrations_of settings)), db)
  | None =>
      let fresh := new_Settings (newObjectId env) req_user_id in
      let settings :=
        set_integrations
          {| if_uberEatsConnected := Some false;
             if_uberEatsStoreId := uberEatsStoreId fresh;
             if_doorDashConnected := Some false;
             if_grubhubConnected := Some false;
             if_cloverConnected := Some false |}
          fresh in
      match write with
      | Mongo.Resolved =>
          (json (Integrations (integrations_of settings)), save settings db)
      | Mongo.Rejected e =>
          (status_json 500 (SettingsError "Failed to fetch integration settings"), db)
      end
  end.

(* the switch (platform) of PUT /integrations *)
Definition switch_platform (b : IntegrationBody) (s : Settings) : Settings :=
  let f := integrations_of s in
  match platform b with
  | Some "ubereats" =>
      set_integrations
        {| if_uberEatsConnected := connected b;
           if_uberEatsStoreId :=
             match storeId b with
             | Some id => if JsString.falsy id then uberEatsStoreId s else Some id
             | None => uberEatsStoreId s
             end;
           if_doorDashConnected := doorDashConnected s;
           if_grubhubConnected := grubhubConnected s;
           if_cloverConnected := cloverConnected s |} s
  | Some "doordash" =>
      set_integrations
        {| if_uberEatsConnected := uberEatsConnected s;
           if_uberEatsStoreId := uberEatsStoreId s;
           if_doorDashConnected := connected b;
           if_grubhubConnected := grubhubConnected s;
           if_cloverConnected := cloverConnected s |} s
  | Some "grubhub" =>
      set_integrations
        {| if_uberEatsConnected := uberEatsConnected s;
           if_uberEatsStoreId := uberEatsStoreId s;
           if_doorDashConnected := doorDashConnected s;
           if_grubhubConnected := connected b;
           if_cloverConnected := cloverConnected s |} s
  | Some "clover" =>
      set_integrations
        {| if_uberEatsConnected := uberEatsConnected s;
           if_uberEatsStoreId := uberEatsStoreId s;
           if_doorDashConnected := doorDashConnected s;
           if_grubhubConnected := grubhubConnected s;
           if_cloverConnected := connected b |} s
  | _ => s
  end.

(* PUT /integrations *)
Definition put_integrations (db : gmap ObjectId Settings) (req_user_id : ObjectId)
    (b : IntegrationBody) (env : Env) (write : Mongo.Outcome)
    : Response SettingsBody * gmap ObjectId Settings :=
  let found :=
    match Mongo.findOne (by_user req_user_id) db with
    | Some settings => settings
    | None => new_Settings (newObjectId env) req_user_id
    end in
  let settings := switch_platform b found in
  match write with
  | Mongo.Resolved =>
      (json (Updated (default "undefined" (platform b)
                      +:+ " integration updated successfully") settings),
       save settings db)
  | Mongo.Rejected e =>
      (status_json 500 (SettingsError "Failed to update integration settings"), db)
  end.
End Routes.

(* the constructor gives the document the _id and the userId it is handed *)
Definition constructs (new_Settings : ObjectId -> ObjectId -> Settings) : Prop :=
  forall id user, _id (new_Settings id user) = id /\ userId (new_Settings id user) = user.

(* every document sits under its _id and no user has two documents *)
Definition one_per_user (db : gmap ObjectId Settings) : Prop :=
  (forall k s, db !! k = Some s -> _id s = k)
  /\ (forall k1 k2 s1 s2, db !! k1 = Some s1 -> db !! k2 = Some s2 ->
                          userId s1 = userId s2 -> k1 = k2).

(* the document a PUT works on: the user's own, or a new one *)
Definition current (new_Settings : ObjectId -> ObjectId -> Settings)
    (db : gmap ObjectId Settings) (req_user_id : ObjectId) (env : Env) : Settings :=
  match Mongo.findOne (by_user req_user_id) db with
  | Some settings => settings
  | None => new_Settings (newObjectId env) req_user_id
  end.

(* a string field that is set and not empty *)
Definition truthy (a : option string) : bool :=
  match a with Some s => negb (JsString.falsy s) | None => false end.

End SettingsProfile.

(** ** File records: upload and deletion

    The File model and the storage service are not among the sources.  A
    file record is modelled by the fields the upload routes give it; the
    storage service by the URL it answers for a key and by the keys it is
    asked to delete. *)

Module FileStore.

Record File := {
  _id : ObjectId;
  userId : ObjectId;
  originalName : string;
  fileName : option string;
  fileKey : string;
  fileUrl : string;
  fileSize : Z;
  mimeType : string;
  category : string;
  storage : string;
  accessLevel : string
}.

(* req.file as the upload middleware leaves it: location and key come from
   S3 storage, filename from disk storage *)
Record Upload := {
  location : option string;
  key : option string;
  filename : option string;
  originalname : string;
  size : Z;
  mimetype : string
}.

(* s.includes(sub) *)
Fixpoint includes (sub s : string) : bool :=
  String.prefix sub s
  || match s with
     | EmptyString => false
     | String _ s' => includes sub s'
     end.

(* req.file.key || `${folder}/${req.file.filename}` *)
Definition key_of (folder : string) (f : Upload) : string :=
  let local := folder +:+ "/" +:+ default "undefined" (filename f) in
  match key f with
  | Some k => if JsString.falsy k then local else k
  | None => local
  end.

Definition set_and_not_empty (a : option string) : bool :=
  match a with Some s => negb (JsString.falsy s) | None => false end.

(* Determine category based on mime type *)
Definition category_of (mimetype : string) : string :=
  if String.prefix "image/" mimetype then "images"
  else if String.prefix "video/" mimetype then "videos"
  else if String.prefix "audio/" mimetype then "audio"
  else if includes "pdf" mimetype || includes "document" mimetype then "documents"
  else "general".

Record Uploaded := {
  up_message : string;
  up_fileUrl : string;
  up_fileKey : string;
  up_fileName : string;
  up_fileSize : Z;
  up_fileType : string;
  up_category : string;
  up_fileId : ObjectId
}.

Inductive UploadBody :=
| UploadError (error : string)
| UploadDone (reply : Uploaded).

Inductive DeleteBody :=
| DeleteError (error : string)
| DeleteDone (message : string).

Section Storage.
(* storageService.getFileUrl *)
Variable getFileUrl : string -> string.

(* req.file.location || storageService.getFileUrl(key) *)
Definition url_of (folder : string) (f : Upload) : string :=
  match location f with
  | Some l => if JsString.falsy l then getFileUrl (key_of folder f) else l
  | None => getFileUrl (key_of folder f)
  end.

(* new File({ ... }) of POST /upload-file *)
Definition new_File (req_user_id : ObjectId) (f : Upload) (env : Env) : File :=
  {| _id := newObjectId env;
     userId := req_user_id;
     originalName := originalname f;
     fileName :=
       match filename f with
       | Some n => if JsString.falsy n then key f else Some n
       | None => key f
       end;
     fileKey := key_of "documents" f;
     fileUrl := url_of "documents" f;
     fileSize := size f;
     mimeType := mimetype f;
     category := category_of (mimetype f);
     storage := if set_and_not_empty (location f) then "s3" else "local";
     accessLevel := "private" |}.

(* POST /upload-file *)
Definition upload_file (db : gmap ObjectId File) (req_user_id : ObjectId)
    (req_file : option Upload) (env : Env) (write : Mongo.Outcome)
    : Response UploadBody * gmap ObjectId File :=
  match req_file with
  | None => (status_json 400 (UploadError "No file uploaded"), db)
  | Some f =>
      let fileRecord := new_File req_user_id f env in
      match write with
      | Mongo.Resolved =>
          (json (UploadDone
                   {| up_message := "File uploaded successfully";
                      up_fileUrl := url_of "documents" f;
                      up_fileKey := key_of "documents" f;
                      up_fileName := originalname f;
                      up_fileSize := size f;
                      up_fileType := mimetype f;
                      up_category := category_of (mimetype f);
                      up_fileId := _id fileRecord |}),
           <[_id fileRecord := fileRecord]> db)
      | Mongo.Rejected e => (status_json 500 (UploadError "Failed to upload file"), db)
      end
  end.
End Storage.

(* { fileKey, userId: req.user.id } *)
Definition owned (file_key : string) (req_user_id : ObjectId) (f : File) : bool :=
  String.eqb (fileKey f) file_key && String.eqb (userId f) req_user_id.

(* DELETE /delete-file/:fileKey: the response, the collection and the keys
   storageService.deleteFile was called with; both the storage service and
   the database may fail *)
Definition delete_file (db : gmap ObjectId File) (req_user_id : ObjectId)
    (file_key : string) (storage_delete db_delete : Mongo.Outcome)
    : Response DeleteBody * gmap ObjectId File * list string :=
  match Mongo.findOne (owned file_key req_user_id) db with
  | None =>
      (status_json 404 (DeleteError "File not found or access denied"), db, [])
  | Some fileRecord =>
      match storage_delete with
      | Mongo.Rejected e =>
          (status_json 500 (DeleteError "Failed to delete file"), db, [file_key])
      | Mongo.Resolved =>
          match db_delete with
          | Mongo.Rejected e =>
              (status_json 500 (DeleteError "Failed to delete file"), db, [file_key])
          | Mongo.Resolved =>
              (json (DeleteDone "File deleted successfully"),
               delete (_id fileRecord) db, [file_key])
          end
      end
  end.

(* every record sits under its _id *)
Definition keyed (db : gmap ObjectId File) : Prop :=
  forall k f, db !! k = Some f -> _id f = k.

Definition categories : list string :=
  ["images"; "videos"; "audio"; "documents"; "general"].

(* GET /files/:category? over these records *)
Definition list_files (newest_first : list File -> list File)
    (db : gmap ObjectId File) (req_user_id : ObjectId)
    (param_category : option string) (query_limit query_page : option Z)
    : list File :=
  Listing.files_of
    (SettingsRoutes.files_route userId category newest_first db req_user_id
       param_category query_limit query_page).

End FileStore.

(** ** The notification routes that work on the collection directly

    The Notification model is not among the sources; a notification is
    modelled by the fields these two routes read and write. *)

Module NotificationRoutes.

Record Notification := {
  _id : ObjectId;
  recipient_userId : option ObjectId;   (* recipient.userId; absent when the
                                           notification addresses a role *)
  status : string;
  readAt : option Date;
  title : string;
  message : string
}.

Record Reply := {
  success : bool;
  reply_message : string;
  error : option string
}.

(* 'recipient.userId': userId *)
Definition for_user (req_user_id : ObjectId) (n : Notification) : bool :=
  match recipient_userId n with
  | Some u => String.eqb u req_user_id
  | None => false
  end.

(* { 'recipient.userId': userId, status: 'unread' } *)
Definition unread_for (req_user_id : ObjectId) (n : Notification) : bool :=
  for_user req_user_id n && String.eqb (status n) "unread".

(* { status: 'read', readAt: new Date() } *)
Definition mark_read (at_ : Date) (n : Notification) : Notification :=
  {| _id := _id n; recipient_userId := recipient_userId n;
     status := "read"; readAt := Some at_;
     title := title n; message := message n |}.

(* PUT /read-all *)
Definition read_all (db : gmap ObjectId Notification) (req_user_id : ObjectId)
    (env : Env) (write : Mongo.Outcome)
    : Response Reply * gmap ObjectId Notification :=
  match write with
  | Mongo.Resolved =>
      (json {| success := true;
               reply_message := "All notifications marked as read";
               error := None |},
       (AffiliateAdmin.updateMany (unread_for req_user_id) (mark_read (now env))
          (fun _ => false) db).2)
  | Mongo.Rejected e =>
      (status_json 500
         {| success := false;
            reply_message := "Failed to mark all notifications as read";
            error := Some e |},
       db)
  end.

(* DELETE /:id, Notification.findOneAndDelete({ _id, 'recipient.userId' }) *)
Definition delete_notification (db : gmap ObjectId Notification)
    (req_user_id : ObjectId) (id : ObjectId) (write : Mongo.Outcome)
    : Response Reply * gmap ObjectId Notification :=
  match write with
  | Mongo.Resolved =>
      match Mongo.findById id db with
      | Some n =>
          if for_user req_user_id n then
            (json {| success := true; reply_message := "Notification deleted";
                     error := None |},
             delete id db)
          else
            (status_json 404
               {| success := false; reply_message := "Notification not found";
                  error := None |},
             db)
      | None =>
          (status_json 404
             {| success := false; reply_message := "Notification not found";
                error := None |},
           db)
      end
  | Mongo.Rejected e =>
      (status_json 500
         {| success := false; reply_message := "Failed to delete notification";
            error := Some e |},
       db)
  end.

(* Notification.getUnreadCount is not among the sources; the number of
   documents the filter of read-all selects *)
Definition unread_count (db : gmap ObjectId Notification) (req_user_id : ObjectId) : Z :=
  Mongo.countDocuments (unread_for req_user_id) db.

End NotificationRoutes.

(** ** GET /settings of the admin routes *)

Module SystemSettings.
Import User.

Record UserStats := { totalUsers : Z; adminUsers : Z; customerUsers : Z }.

Record SystemHealth := {
  databaseConnected : bool;
  stripeConfigured : bool;
  emailConfigured : bool
}.

Record Overview := { userStats : UserStats; systemHealth : SystemHealth }.

(* !!process.env.X *)
Definition configured (variable : option string) : bool :=
  match variable with Some v => negb (JsString.falsy v) | None => false end.

(* { role: { $in: ['admin', 'main_admin'] } } *)
Definition is_admin (u : User) : bool := includes ["admin"; "main_admin"] (role u).

(* { role: 'customer' } *)
Definition is_customer (u : User) : bool := String.eqb (role u) "customer".

Definition settings_route (db : gmap ObjectId User)
    (STRIPE_SECRET_KEY SMTP_USER : option string) : Response Overview :=
  json {| userStats :=
            {| totalUsers := Mongo.countDocuments (fun _ => true) db;
               adminUsers := Mongo.countDocuments is_admin db;
               customerUsers := Mongo.countDocuments is_customer db |};
          systemHealth :=
            {| databaseConnected := true;
               stripeConfigured := configured STRIPE_SECRET_KEY;
               emailConfigured := configured SMTP_USER |} |}.

(* the total GET /customers reports *)
Definition total_of (r : Response AdminRoutes.AdminBody) : option Z :=
  match body r with
  | AdminRoutes.CustomerList _ _ _ total => Some total
  | _ => None
  end.

End SystemSettings.

(** ** POST /upload-logo: settings, file records and storage together *)

Module LogoUpload.
Import SettingsProfile.

Inductive LogoBody :=
| LogoError (error : string)
| LogoDone (message logoUrl : string) (fileSize : Z) (fileName : string)
    (fileId : ObjectId).

(* what the route leaves behind: the two collections and the keys
   storageService.deleteFile was called with *)
Record Outcome := {
  response : Response LogoBody;
  settings_db : gmap ObjectId Settings;
  files_db : gmap ObjectId FileStore.File;
  deleted : list string
}.

Definition set_logo (url key : option string) (s : Settings) : Settings :=
  {| _id := _id s; userId := userId s;
     businessName := businessName s; businessEmail := businessEmail s;
     businessPhone := businessPhone s; businessAddress := businessAddress s;
     businessDescription := businessDescription s;
     logoUrl := url; logoKey := key;
     emailNotifications := emailNotifications s;
     smsNotifications := smsNotifications s;
     orderNotifications := orderNotifications s;
     marketingNotifications := marketingNotifications s;
     uberEatsConnected := uberEatsConnected s;
     uberEatsStoreId := uberEatsStoreId s;
     doorDashConnected := doorDashConnected s;
     grubhubConnected := grubhubConnected s;
     cloverConnected := cloverConnected s |}.

(* File.findOneAndDelete({ fileKey }) *)
Definition findOneAndDelete_key (k : string) (files : gmap ObjectId FileStore.File)
    : gmap ObjectId FileStore.File :=
  match Mongo.findOne (fun f => String.eqb (FileStore.fileKey f) k) files with
  | Some f => delete (FileStore._id f) files
  | None => files
  end.

(* Delete old logo from storage and database if it exists; an error of
   either is caught and logged *)
Definition delete_old_logo (files : gmap ObjectId FileStore.File)
    (old_key : option string) (storage_delete file_delete : Mongo.Outcome)
    : gmap ObjectId FileStore.File * list string :=
  if truthy old_key then
    let k := default "" old_key in
    match storage_delete, file_delete with
    | Mongo.Resolved, Mongo.Resolved => (findOneAndDelete_key k files, [k])
    | _, _ => (files, [k])
    end
  else (files, []).

Section Route.
Variable new_Settings : ObjectId -> ObjectId -> Settings.
Variable getFileUrl : string -> string.

(* new File({ ... }) of POST /upload-logo *)
Definition logo_File (req_user_id : ObjectId) (f : FileStore.Upload) (env : Env)
    : FileStore.File :=
  {| FileStore._id := newObjectId env;
     FileStore.userId := req_user_id;
     FileStore.originalName := FileStore.originalname f;
     FileStore.fileName :=
       match FileStore.filename f with
       | Some n => if JsString.falsy n then FileStore.key f else Some n
       | None => FileStore.key f
       end;
     FileStore.fileKey := FileStore.key_of "logos" f;
     FileStore.fileUrl := FileStore.url_of getFileUrl "logos" f;
     FileStore.fileSize := FileStore.size f;
     FileStore.mimeType := FileStore.mimetype f;
     FileStore.category := "logos";
     FileStore.storage :=
       if FileStore.set_and_not_empty (FileStore.location f) then "s3" else "local";
     FileStore.accessLevel := "public" |}.

Definition upload_logo (sdb : gmap ObjectId Settings)
    (fdb : gmap ObjectId FileStore.File) (req_user_id : ObjectId)
    (req_file : option FileStore.Upload) (env_settings env_file : Env)
    (storage_delete file_delete file_write settings_write : Mongo.Outcome)
    : Outcome :=
  match req_file with
  | None =>
      {| response := status_json 400 (LogoError "No file uploaded");
         settings_db := sdb; files_db := fdb; deleted := [] |}
  | Some f =>
      let logoUrl_ := FileStore.url_of getFileUrl "logos" f in
      let fileKey_ := FileStore.key_of "logos" f in
      let settings := current new_Settings sdb req_user_id env_settings in
      let old := delete_old_logo fdb (logoKey settings) storage_delete file_delete in
      let fileRecord := logo_File req_user_id f env_file in
      match file_write with
      | Mongo.Rejected e =>
          {| response := status_json 500 (LogoError "Failed to upload logo");
             settings_db := sdb; files_db := old.1; deleted := old.2 |}
      | Mongo.Resolved =>
          let files := <[FileStore._id fileRecord := fileRecord]> old.1 in
          match settings_write with
          | Mongo.Rejected e =>
              {| response := status_json 500 (LogoError "Failed to upload logo");
                 settings_db := sdb; files_db := files; deleted := old.2 |}
          | Mongo.Resolved =>
              {| response :=
                   json (LogoDone "Logo uploaded successfully" logoUrl_
                           (FileStore.size f) (FileStore.originalname f)
                           (FileStore._id fileRecord));
                 settings_db :=
                   save (set_logo (Some logoUrl_) (Some fileKey_) settings) sdb;
                 files_db := files; deleted := old.2 |}
          end
      end
  end.
End Route.

End LogoUpload.

(** ** More sample data *)

Module Samples.
Import Affiliate.

(* a second affiliate, active, without commissions *)
Definition grace : Affiliate :=
  {| _id := "a2"; name := "Grace Hopper"; email := "grace@example.org";
     affiliateId := "AFF2000B1T5"; referralCode := "GRACM3PL";
     status := "active"; tier := "silver"; commissionRate := (20 # 100)%Q;
     stats := Lifecycle.zero_stats; referrals := []; commissions := [];
     adminNotes := None; tags := []; lastActivityAt := Some 2000%Z |}.

(* a suspended one *)
Definition edsger : Affiliate :=
  {| _id := "a3"; name := "Edsger"; email := "edsger@example.org";
     affiliateId := "AFF3000Q0Q0"; referralCode := "EDSG77XY";
     status := "suspended"; tier := "bronze"; commissionRate := (15 # 100)%Q;
     stats := Lifecycle.zero_stats; referrals := []; commissions := [];
     adminNotes := None; tags := []; lastActivityAt := Some 2500%Z |}.

Definition program : gmap ObjectId Affiliate :=
  {[ "a1" := Examples.ada_pending; "a2" := grace; "a3" := edsger ]}.

(* the same documents, last updated at time 100 *)
Definition stored_program : gmap ObjectId AffiliateAdmin.Stored :=
  (fun a => {| AffiliateAdmin.document := a; AffiliateAdmin.updatedAt := 100%Z |})
    <$> program.

(* an ordering by stats.totalCommissionEarned, highest first *)
Fixpoint insert_by_earned (a : Affiliate) (l : list Affiliate) : list Affiliate :=
  match l with
  | [] => [a]
  | b :: l' =>
      if Qle_bool (totalCommissionEarned (stats b)) (totalCommissionEarned (stats a))
      then a :: l else b :: insert_by_earned a l'
  end.

Definition richest_first (l : list Affiliate) : list Affiliate :=
  fold_right insert_by_earned [] l.

(* a stand-in for bcrypt.compare that accepts what Examples.hash produced *)
Definition check (candidate hashed : string) : bool :=
  String.eqb hashed (Examples.hash candidate).

(* a create-user request for a new address *)
Definition eve : User.CreateUserBody :=
  {| User.cu_name := Some " Eve "; User.cu_email := Some "Eve@Example.org";
     User.cu_password := Some "s3cret"; User.cu_role := Some "Support";
     User.cu_adminPermissions := None; User.cu_status := None |}.

End Samples.

(** ** Sample settings *)

Module SettingsSamples.
Import SettingsProfile.

(* a schema without defaults *)
Definition blank (id user : ObjectId) : Settings :=
  {| _id := id; userId := user;
     businessName := None; businessEmail := None; businessPhone := None;
     businessAddress := None; businessDescription := None;
     logoUrl := None; logoKey := None;
     emailNotifications := None; smsNotifications := None;
     orderNotifications := None; marketingNotifications := None;
     uberEatsConnected := None; uberEatsStoreId := None;
     doorDashConnected := None; grubhubConnected := None;
     cloverConnected := None |}.

Definition cafe : Settings :=
  {| _id := "s1"; userId := "u1";
     businessName := Some "Cafe Ada"; businessEmail := Some "hello@cafe.example";
     businessPhone := Some ""; businessAddress := None;
     businessDescription := Some "Coffee";
     logoUrl := Some ""; logoKey := None;
     emailNotifications := Some true; smsNotifications := Some false;
     orderNotifications := Some true; marketingNotifications := Some false;
     uberEatsConnected := Some false; uberEatsStoreId := None;
     doorDashConnected := Some true; grubhubConnected := Some false;
     cloverConnected := Some false |}.

Definition stored : gmap ObjectId Settings := {[ "s1" := cafe ]}.

Definition at_id (id : ObjectId) : Env :=
  {| now := 5000%Z; newObjectId := id; randomCode1 := "AAAA"; randomCode2 := "BBBB" |}.

End SettingsSamples.

(** ** Sample files *)

Module FileSamples.
Import FileStore.

Definition cdn (key : string) : string := "https://files.example/" +:+ key.

Definition menu : Upload :=
  {| location := None; key := None; filename := Some "menu.pdf";
     originalname := "Menu.pdf"; size := 2048%Z; mimetype := "application/pdf" |}.

Definition photo : File :=
  {| _id := "f1"; userId := "u1"; originalName := "front.png";
     fileName := Some "front.png"; fileKey := "documents/front.png";
     fileUrl := "https://files.example/documents/front.png"; fileSize := 100%Z;
     mimeType := "image/png"; category := "images"; storage := "local";
     accessLevel := "private" |}.

(* a record of another user under the same key *)
Definition copy : File :=
  {| _id := "f2"; userId := "u2"; originalName := "front.png";
     fileName := Some "front.png"; fileKey := "documents/front.png";
     fileUrl := "https://files.example/documents/front.png"; fileSize := 100%Z;
     mimeType := "image/png"; category := "images"; storage := "local";
     accessLevel := "private" |}.

Definition shelf : gmap ObjectId File := {[ "f1" := photo; "f2" := copy ]}.

Definition at_id (id : ObjectId) : Env :=
  {| now := 6000%Z; newObjectId := id; randomCode1 := "AAAA"; randomCode2 := "BBBB" |}.

End FileSamples.

(** ** Sample notifications *)

Module NotificationSamples.
Import NotificationRoutes.

Definition welcome : Notification :=
  {| _id := "n1"; recipient_userId := Some "u1"; status := "unread";
     readAt := None; title := "Welcome"; message := "Hello" |}.

Definition invoice : Notification :=
  {| _id := "n2"; recipient_userId := Some "u1"; status := "read";
     readAt := Some 100%Z; title := "Invoice"; message := "Paid" |}.

Definition notice : Notification :=
  {| _id := "n3"; recipient_userId := Some "u2"; status := "unread";
     readAt := None; title := "Notice"; message := "Maintenance" |}.

(* addressed to a role, not to a user *)
Definition broadcast : Notification :=
  {| _id := "n4"; recipient_userId := None; status := "unread";
     readAt := None; title := "Release"; message := "New version" |}.

Definition inbox : gmap ObjectId Notification :=
  {[ "n1" := welcome; "n2" := invoice; "n3" := notice; "n4" := broadcast ]}.

Definition at_time (t : Date) : Env :=
  {| now := t; newObjectId := "n9"; randomCode1 := "AAAA"; randomCode2 := "BBBB" |}.

End NotificationSamples.

(** ** A sample logo *)

Module LogoSamples.
Import SettingsProfile.

(* settings that name a logo already *)
Definition bistro : Settings :=
  LogoUpload.set_logo (Some "https://files.example/documents/front.png")
    (Some "documents/front.png") SettingsSamples.cafe.

Definition stored : gmap ObjectId Settings := {[ "s1" := bistro ]}.

Definition logo : FileStore.Upload :=
  {| FileStore.location := None; FileStore.key := None;
     FileStore.filename := Some "logo.png"; FileStore.originalname := "Logo.png";
     FileStore.size := 512%Z; FileStore.mimetype := "image/png" |}.

End LogoSamples.

(** * Facts *)

Module JsStringFacts.
Import JsString.

Lemma lower_char_idem c : lower_char (lower_char c) = lower_char c.
Proof.
  unfold lower_char. destruct (is_upper_letter c) eqn:E; [|now rewrite E].
  unfold is_upper_letter in *. apply andb_true_iff in E as [E1 E2].
  apply Nat.leb_le in E1, E2.
  rewrite nat_ascii_embedding by lia.
  replace ((65 <=? nat_of_ascii c + 32)%nat && (nat_of_ascii c + 32 <=? 90)%nat)
    with false; [reflexivity|].
  symmetry. apply andb_false_iff. right. apply Nat.leb_gt. lia.
Qed.

Lemma toLowerCase_idem s : toLowerCase (toLowerCase s) = toLowerCase s.
Proof.
  unfold toLowerCase. induction s as [|c s IH]; cbn [map_chars]; [reflexivity|].
  now rewrite lower_char_idem, IH.
Qed.

End JsStringFacts.

Module DocumentArrayFacts.
Import DocumentArray.
Section Facts.
Context {A : Type} `{Subdocument A}.

Lemma id_Some_elem x arr d : id x arr = Some d -> d ∈ arr /\ subdoc_id d = x.
Proof.
  induction arr as [|e arr IH]; simpl; [discriminate|].
  destruct (decide (subdoc_id e = x)) as [He|He].
  - intros [= ->]. split; [left|exact He].
  - intros Hd. destruct (IH Hd) as [Hin Hid]. split; [right; exact Hin|exact Hid].
Qed.

Lemma id_None x arr : id x arr = None <-> Forall (fun d => subdoc_id d <> x) arr.
Proof.
  induction arr as [|e arr IH]; simpl.
  - split; [constructor|reflexivity].
  - destruct (decide (subdoc_id e = x)) as [He|He].
    + split; [discriminate|]. intros HF. inversion HF; contradiction.
    + rewrite IH. split; [now constructor|]. intros HF. now inversion HF.
Qed.

Lemma modify_None x f arr : id x arr = None -> modify x f arr = arr.
Proof.
  induction arr as [|e arr IH]; simpl; [reflexivity|].
  destruct (decide (subdoc_id e = x)); [discriminate|].
  intros Hd. now rewrite IH.
Qed.

Lemma id_modify x f arr :
  (forall d, subdoc_id (f d) = subdoc_id d) ->
  id x (modify x f arr) = f <$> id x arr.
Proof.
  intros Hf. induction arr as [|e arr IH]; simpl; [reflexivity|].
  destruct (decide (subdoc_id e = x)) as [He|He]; simpl.
  - rewrite Hf. now rewrite decide_True by exact He.
  - now rewrite decide_False by exact He.
Qed.

Lemma length_modify x f arr : length (modify x f arr) = length arr.
Proof.
  induction arr as [|e arr IH]; simpl; [reflexivity|].
  destruct (decide (subdoc_id e = x)); simpl; [reflexivity|now rewrite IH].
Qed.

(* the mutation keeps every other subdocument as it is *)
Lemma modify_split x f arr d :
  id x arr = Some d ->
  exists pre post,
    arr = pre ++ d :: post /\ modify x f arr = pre ++ f d :: post
    /\ id x pre = None.
Proof.
  induction arr as [|e arr IH]; simpl; [discriminate|].
  destruct (decide (subdoc_id e = x)) as [He|He].
  - intros [= ->]. exists [], arr. simpl. auto.
  - intros Hd. destruct (IH Hd) as (pre & post & -> & -> & Hpre).
    exists (e :: pre), post. simpl.
    rewrite decide_False by exact He. auto.
Qed.

(* when the _ids are pairwise distinct, as the ObjectIds Mongoose assigns
   are, [id] finds every element under its own _id *)
Lemma id_elem_NoDup arr d :
  NoDup (subdoc_id <$> arr) -> d ∈ arr -> id (subdoc_id d) arr = Some d.
Proof.
  induction arr as [|e arr IH]; intros Hnd Hin; [now apply elem_of_nil in Hin|].
  cbn [fmap list_fmap] in Hnd. apply NoDup_cons in Hnd as [Hne Hnd].
  cbn [id]. apply elem_of_cons in Hin as [->|Hin].
  - now rewrite decide_True by reflexivity.
  - destruct (decide (subdoc_id e = subdoc_id d)) as [Heq|_]; [|now apply IH].
    exfalso. apply Hne. rewrite Heq. now apply list_elem_of_fmap_2.
Qed.

(* ... and the subdocuments with another _id are found as before *)
Lemma id_modify_ne x y f arr :
  (forall d, subdoc_id (f d) = subdoc_id d) ->
  x <> y -> id y (modify x f arr) = id y arr.
Proof.
  intros Hf Hxy. induction arr as [|e arr IH]; simpl; [reflexivity|].
  destruct (decide (subdoc_id e = x)) as [He|He]; simpl.
  - rewrite Hf.
    destruct (decide (subdoc_id e = y)) as [Hy|Hy]; [congruence|reflexivity].
  - destruct (decide (subdoc_id e = y)); [reflexivity|exact IH].
Qed.

End Facts.
End DocumentArrayFacts.

Module MongoFacts.
Import Mongo.

Section Facts.
Context {A : Type}.
Implicit Types (c : gmap ObjectId A) (matches : A -> bool).

Lemma elem_of_documents c d : d ∈ documents c <-> exists k, c !! k = Some d.
Proof.
  unfold documents. rewrite list_elem_of_fmap. split.
  - intros ([k d'] & -> & Hin). exists k. now apply elem_of_map_to_list in Hin.
  - intros [k Hk]. exists (k, d). split; [reflexivity|].
    now apply elem_of_map_to_list.
Qed.

(* findOne answers with a document exactly when one matches *)
Lemma findOne_is_Some c matches :
  (exists k d, c !! k = Some d /\ matches d = true) -> is_Some (findOne matches c).
Proof.
  intros (k & d & Hk & Hm). unfold findOne.
  destruct (List.find matches (documents c)) as [d'|] eqn:E; [eexists; reflexivity|].
  exfalso. assert (Hf : matches d = false); [|congruence].
  apply (find_none _ _ E d).
  apply list_elem_of_In, elem_of_documents. now exists k.
Qed.

Lemma findOne_Some c matches d :
  findOne matches c = Some d -> (exists k, c !! k = Some d) /\ matches d = true.
Proof.
  unfold findOne. intros E. apply find_some in E as [Hin Hm].
  split; [|exact Hm]. now apply elem_of_documents, list_elem_of_In.
Qed.

Lemma findOne_None c matches :
  findOne matches c = None -> forall k d, c !! k = Some d -> matches d = false.
Proof.
  unfold findOne. intros E k d Hk. apply (find_none _ _ E).
  apply list_elem_of_In, elem_of_documents. now exists k.
Qed.

(* a non-negative skip and a positive limit select a slice of the sorted
   result set *)
Lemma exec_slice (q : Query A) c :
  (0 <= q_skip q)%Z -> (0 < q_limit q)%Z ->
  exec q c
  = inr (take (Z.to_nat (q_limit q))
           (drop (Z.to_nat (q_skip q)) (result_set q c))).
Proof.
  intros Hs Hl. unfold exec.
  destruct (Z.ltb_spec (q_skip q) 0) as [H|_]; [lia|].
  destruct (Z.eqb_spec (q_limit q) 0) as [H|_]; [lia|].
  now rewrite Z.abs_eq by lia.
Qed.

Lemma findByIdAndUpdate_Some x (update : A -> A) c d :
  c !! x = Some d ->
  findByIdAndUpdate x update c = (Some (update d), <[x := update d]> c).
Proof. intros H. unfold findByIdAndUpdate. now rewrite H. Qed.

Lemma findByIdAndUpdate_None x (update : A -> A) c :
  c !! x = None -> findByIdAndUpdate x update c = (None, c).
Proof. intros H. unfold findByIdAndUpdate. now rewrite H. Qed.

End Facts.

(* Math.ceil(a / b), for a positive b, is the least p with a <= p * b *)
Lemma Math_ceil_div_spec (a b : Z) :
  (0 < b)%Z ->
  ((Math_ceil_div a b - 1) * b < a <= Math_ceil_div a b * b)%Z.
Proof.
  intros Hb. destruct b as [|p|p]; try lia.
  unfold Math_ceil_div, Qceiling, Qfloor, Qdiv, Qmult, Qinv, inject_Z, Qopp.
  cbn [Qnum Qden]. rewrite Z.mul_1_r, Pos.mul_1_l.
  pose proof (Z.div_mod (- a) (Z.pos p) ltac:(lia)) as Hdm.
  pose proof (Z.mod_pos_bound (- a) (Z.pos p) ltac:(lia)) as Hmod.
  nia.
Qed.

Lemma Math_ceil_div_least (a b p : Z) :
  (0 < b)%Z -> (a <= p * b)%Z -> (Math_ceil_div a b <= p)%Z.
Proof.
  intros Hb Hp. pose proof (Math_ceil_div_spec a b Hb). nia.
Qed.

End MongoFacts.

Module AffiliateFacts.
Import Affiliate Lifecycle DocumentArray DocumentArrayFacts.

(** *** What [save] touches *)

Lemma save_commissions env this : commissions (save env this) = commissions this.
Proof. reflexivity. Qed.

Lemma save_stats env this : stats (save env this) = stats this.
Proof. reflexivity. Qed.

Lemma save_referrals env this : referrals (save env this) = referrals this.
Proof. reflexivity. Qed.

Lemma save_lastActivityAt env this : lastActivityAt (save env this) = Some (now env).
Proof. reflexivity. Qed.

(** *** The methods, field by field *)

Lemma approve_fields_id adminId env c : subdoc_id (approve_fields adminId env c) = subdoc_id c.
Proof. reflexivity. Qed.

Lemma pay_fields_id paymentData env c : subdoc_id (pay_fields paymentData env c) = subdoc_id c.
Proof. reflexivity. Qed.

Lemma approveCommission_commissions this commissionId adminId env :
  commissions (approveCommission this commissionId adminId env) =
  match id commissionId (commissions this) with
  | Some c =>
      if decide (c_status c = Pending)
      then modify commissionId (approve_fields adminId env) (commissions this)
      else commissions this
  | None => commissions this
  end.
Proof.
  unfold approveCommission.
  destruct (id commissionId (commissions this)) as [c|]; [|reflexivity].
  destruct (decide (c_status c = Pending)); reflexivity.
Qed.

Lemma approveCommission_stats this commissionId adminId env :
  stats (approveCommission this commissionId adminId env) = stats this.
Proof.
  unfold approveCommission.
  destruct (id commissionId (commissions this)) as [c|]; [|reflexivity].
  destruct (decide (c_status c = Pending)); reflexivity.
Qed.

Lemma payCommission_commissions this commissionId paymentData env :
  commissions (payCommission this commissionId paymentData env) =
  match id commissionId (commissions this) with
  | Some c =>
      if decide (c_status c = Approved)
      then modify commissionId (pay_fields paymentData env) (commissions this)
      else commissions this
  | None => commissions this
  end.
Proof.
  unfold payCommission.
  destruct (id commissionId (commissions this)) as [c|]; [|reflexivity].
  destruct (decide (c_status c = Approved)); reflexivity.
Qed.

Lemma payCommission_noop this commissionId paymentData env :
  match id commissionId (commissions this) with
  | Some c => c_status c <> Approved
  | None => True
  end ->
  payCommission this commissionId paymentData env = save env this.
Proof.
  unfold payCommission.
  destruct (id commissionId (commissions this)) as [c|]; [|reflexivity].
  intros Hc. now rewrite decide_False by exact Hc.
Qed.

Lemma approveCommission_noop this commissionId adminId env :
  match id commissionId (commissions this) with
  | Some c => c_status c <> Pending
  | None => True
  end ->
  approveCommission this commissionId adminId env = save env this.
Proof.
  unfold approveCommission.
  destruct (id commissionId (commissions this)) as [c|]; [|reflexivity].
  intros Hc. now rewrite decide_False by exact Hc.
Qed.

End AffiliateFacts.

(** * The commission lifecycle *)

Module LifecycleClaims.
Import Affiliate Lifecycle DocumentArray DocumentArrayFacts AffiliateFacts.








(** C4. When commissions.id(commissionId) finds a commission whose status
    is pending, approveCommission sets its status to approved and records
    approvedBy = adminId and approvedAt = the time of the call; no field of
    stats changes, whatever the status; from any status other than pending
    the commission list stays as it is. *)
Theorem approveCommission_from_pending (this : Affiliate) (commissionId : ObjectId)
    (adminId : ObjectId) (env : Env) (commission : Commission) :
  id commissionId (commissions this) = Some commission ->
  let after := approveCommission this commissionId adminId env in
  stats after = stats this
  /\ (c_status commission = Pending ->
      (exists approved,
          id commissionId (commissions after) = Some approved
          /\ c_status approved = Approved
          /\ approvedBy approved = Some adminId
          /\ approvedAt approved = Some (now env)
          /\ commissionAmount approved = commissionAmount commission)
      /\ (forall other, other <> commissionId ->
            id other (commissions after) = id other (commissions this)))
  /\ (c_status commission <> Pending -> commissions after = commissions this).
Proof.
  intros Hc after. subst after. split; [apply approveCommission_stats|].
  rewrite approveCommission_commissions, Hc. split.
  - intros Hp. rewrite decide_True by exact Hp. split.
    + exists (approve_fields adminId env commission).
      rewrite (id_modify _ _ _ (approve_fields_id adminId env)), Hc.
      repeat split.
    + intros other Hne.
      apply (id_modify_ne _ _ _ _ (approve_fields_id adminId env)).
      congruence.
  - intros Hn. now rewrite decide_False by exact Hn.
Qed.

Lemma approveCommission_from_pending_witness :
  let after := approveCommission Examples.ada_pending "c1" "u0"
                 (Examples.env_at 4000 "-") in
  is_Some (id "c1" (commissions Examples.ada_pending))
  /\ stats after = stats Examples.ada_pending
  /\ (c_status <$> id "c1" (commissions after)) = Some Approved
  /\ commissions (approveCommission Examples.ada_approved "c1" "u9"
                    (Examples.env_at 4100 "-"))
     = commissions Examples.ada_approved.
Proof.
  intros after.
  destruct (id "c1" (commissions Examples.ada_pending)) as [c|] eqn:Hc;
    [|discriminate].
  split; [eexists; reflexivity|].
  assert (Hp : c_status c = Pending) by (injection Hc as <-; reflexivity).
  destruct (approveCommission_from_pending Examples.ada_pending "c1" "u0"
              (Examples.env_at 4000 "-") c Hc) as (Hs & Hap & _).
  split; [exact Hs|].
  destruct (Hap Hp) as [(approved & Hid & Hst & _) _].
  fold after in Hid. rewrite Hid. cbn [fmap option_fmap option_map].
  split; [now rewrite Hst|].
  destruct (id "c1" (commissions Examples.ada_approved)) as [c'|] eqn:Hc';
    [|discriminate].
  assert (Hn : c_status c' <> Pending) by (injection Hc' as <-; discriminate).
  exact (proj2 (proj2 (approveCommission_from_pending Examples.ada_approved "c1"
                         "u9" (Examples.env_at 4100 "-") c' Hc')) Hn).
Defined.

(** *** Calls that find the commission in another status *)

Lemma payCommission_not_approved this commissionId paymentData env :
  not_approved commissionId (payCommission this commissionId paymentData env).
Proof.
  unfold not_approved. rewrite payCommission_commissions.
  destruct (id commissionId (commissions this)) as [c|] eqn:Hc.
  - destruct (decide (c_status c = Approved)) as [Ha|Ha].
    + rewrite (id_modify _ _ _ (pay_fields_id paymentData env)), Hc.
      discriminate.
    + now rewrite Hc.
  - now rewrite Hc.
Qed.

Lemma approveCommission_not_pending this commissionId adminId env :
  not_pending commissionId (approveCommission this commissionId adminId env).
Proof.
  unfold not_pending. rewrite approveCommission_commissions.
  destruct (id commissionId (commissions this)) as [c|] eqn:Hc.
  - destruct (decide (c_status c = Pending)) as [Ha|Ha].
    + rewrite (id_modify _ _ _ (approve_fields_id adminId env)), Hc.
      discriminate.
    + now rewrite Hc.
  - now rewrite Hc.
Qed.

Lemma pay_again_fixed commissionId again :
  forall this, not_approved commissionId this ->
    commissions (fold_left (pay_again commissionId) again this) = commissions this
    /\ stats (fold_left (pay_again commissionId) again this) = stats this.
Proof.
  induction again as [|[paymentData env] again IH]; intros this Hn;
    cbn [fold_left]; [split; reflexivity|].
  assert (E : pay_again commissionId this (paymentData, env) = save env this)
    by (apply payCommission_noop; exact Hn).
  rewrite E. apply (IH (save env this)). exact Hn.
Qed.

Lemma approve_again_fixed commissionId again :
  forall this, not_pending commissionId this ->
    commissions (fold_left (approve_again commissionId) again this) = commissions this
    /\ stats (fold_left (approve_again commissionId) again this) = stats this.
Proof.
  induction again as [|[adminId env] again IH]; intros this Hn;
    cbn [fold_left]; [split; reflexivity|].
  assert (E : approve_again commissionId this (adminId, env) = save env this)
    by (apply approveCommission_noop; exact Hn).
  rewrite E. apply (IH (save env this)). exact Hn.
Qed.

(** C6. approveCommission and payCommission are idempotent on the
    commission list and on the counters: after one call for a commissionId,
    any number of further calls for the same commissionId (whatever the
    admin, the payment data or the time) leaves every commission and every
    field of stats as the first call left them; so an amount moves from
    pendingCommission to totalCommissionPaid at most once. *)
Theorem approve_pay_idempotent (this : Affiliate) (commissionId : ObjectId) :
  (forall adminId env (again : list (ObjectId * Env)),
      let once := approveCommission this commissionId adminId env in
      let many := fold_left (approve_again commissionId) again once in
      commissions many = commissions once /\ stats many = stats once)
  /\ (forall paymentData env (again : list (PaymentData * Env)),
      let once := payCommission this commissionId paymentData env in
      let many := fold_left (pay_again commissionId) again once in
      commissions many = commissions once /\ stats many = stats once).
Proof.
  split.
  - intros adminId env again once many.
    apply approve_again_fixed, approveCommission_not_pending.
  - intros paymentData env again once many.
    apply pay_again_fixed, payCommission_not_approved.
Qed.

(** C5 (as amended). When the commission that commissions.id(commissionId)
    finds is not in the source state of the transition (payCommission on a
    commission that is not approved, approveCommission on one that is not
    pending), the method changes no commission, no counter and no referral:
    the document it writes is the one the pre-save hook of save() produces,
    which differs from the document read only in lastActivityAt, set to the
    time of the call (and in affiliateId and referralCode when they were
    empty).  The route, when the write resolves, answers 200 with the
    success envelope all the same. *)
Theorem invalid_transition_touches_only_activity
    (db : gmap ObjectId Affiliate) (affiliate_id : ObjectId) (this : Affiliate)
    (commissionId : ObjectId) (commission : Commission) (env : Env) :
  db !! affiliate_id = Some this ->
  id commissionId (commissions this) = Some commission ->
  let written := save env this in
  (commissions written = commissions this
   /\ stats written = stats this
   /\ referrals written = referrals this
   /\ (_id written, name written, email written, status written, tier written)
      = (_id this, name this, email this, status this, tier this)
   /\ (commissionRate written, adminNotes written, tags written)
      = (commissionRate this, adminNotes this, tags this)
   /\ (affiliateId this <> "" -> affiliateId written = affiliateId this)
   /\ (referralCode this <> "" -> referralCode written = referralCode this)
   /\ lastActivityAt written = Some (now env))
  /\ (c_status commission <> Approved ->
      forall paymentMethod_ paymentReference_,
        payCommission this commissionId
          {| method := paymentMethod_; reference := paymentReference_ |} env
        = written
        /\ AffiliateRoutes.pay_route db affiliate_id commissionId
             paymentMethod_ paymentReference_ env Mongo.Resolved
           = (json {| AffiliateRoutes.success := true;
                      AffiliateRoutes.message := Some "Commission paid successfully";
                      AffiliateRoutes.data := None;
                      AffiliateRoutes.error := None |},
              <[affiliate_id := written]> db))
  /\ (c_status commission <> Pending ->
      forall adminId,
        approveCommission this commissionId adminId env = written
        /\ AffiliateRoutes.approve_route db affiliate_id commissionId adminId env
             Mongo.Resolved
           = (json {| AffiliateRoutes.success := true;
                      AffiliateRoutes.message := Some "Commission approved successfully";
                      AffiliateRoutes.data := None;
                      AffiliateRoutes.error := None |},
              <[affiliate_id := written]> db)).
Proof.
  intros Hdb Hc written. subst written. split; [|split].
  - repeat split.
    + intros Hne. cbn [save pre_save affiliateId].
      destruct (affiliateId this); [contradiction|reflexivity].
    + intros Hne. cbn [save pre_save referralCode].
      destruct (referralCode this); [contradiction|reflexivity].
  - intros Hn paymentMethod_ paymentReference_.
    assert (Hpay : payCommission this commissionId
                     {| method := paymentMethod_; reference := paymentReference_ |}
                     env = save env this)
      by (apply payCommission_noop; now rewrite Hc).
    split; [exact Hpay|].
    unfold AffiliateRoutes.pay_route, Mongo.findById. now rewrite Hdb, Hpay.
  - intros Hn adminId.
    assert (Hap : approveCommission this commissionId adminId env = save env this)
      by (apply approveCommission_noop; now rewrite Hc).
    split; [exact Hap|].
    unfold AffiliateRoutes.approve_route, Mongo.findById. now rewrite Hdb, Hap.
Qed.

Lemma invalid_transition_touches_only_activity_witness :
  let db : gmap ObjectId Affiliate := {[ "a1" := Examples.ada_pending ]} in
  let db' : gmap ObjectId Affiliate := {[ "a1" := Examples.ada_approved ]} in
  let env := Examples.env_at 9000 "-" in
  (is_Some (id "c1" (commissions Examples.ada_pending))
   /\ http_status
        (AffiliateRoutes.pay_route db "a1" "c1" (Some "paypal") (Some "PAY-1") env
           Mongo.Resolved).1 = 200%nat
   /\ (AffiliateRoutes.pay_route db "a1" "c1" (Some "paypal") (Some "PAY-1") env
         Mongo.Resolved).2 !! "a1"
      = Some (save env Examples.ada_pending))
  /\ (is_Some (id "c1" (commissions Examples.ada_approved))
      /\ AffiliateRoutes.success
           (body (AffiliateRoutes.approve_route db' "a1" "c1" "u9" env
                    Mongo.Resolved).1) = true
      /\ approveCommission Examples.ada_approved "c1" "u9" env
         = save env Examples.ada_approved).
Proof.
  intros db db' env. split.
  - assert (Hdb : db !! "a1" = Some Examples.ada_pending) by reflexivity.
    destruct (id "c1" (commissions Examples.ada_pending)) as [c|] eqn:Hc;
      [|discriminate].
    split; [eexists; reflexivity|].
    assert (Hn : c_status c <> Approved) by (injection Hc as <-; discriminate).
    destruct (invalid_transition_touches_only_activity db "a1" Examples.ada_pending
                "c1" c env Hdb Hc) as (_ & Hpay & _).
    destruct (Hpay Hn (Some "paypal") (Some "PAY-1")) as [_ ->].
    split; [reflexivity|].
    cbn [snd]. apply lookup_insert_eq.
  - assert (Hdb : db' !! "a1" = Some Examples.ada_approved) by reflexivity.
    destruct (id "c1" (commissions Examples.ada_approved)) as [c|] eqn:Hc;
      [|discriminate].
    split; [eexists; reflexivity|].
    assert (Hn : c_status c <> Pending) by (injection Hc as <-; discriminate).
    destruct (invalid_transition_touches_only_activity db' "a1" Examples.ada_approved
                "c1" c env Hdb Hc) as (_ & _ & Happ).
    destruct (Happ Hn "u9") as [Hm ->].
    split; [reflexivity|exact Hm].
Defined.

(** C5, the claim as stated: paying a commission that is still pending does
    not leave the affiliate document unchanged.  The document read has
    lastActivityAt = 3000; the document written at time 9000 has
    lastActivityAt = 9000. *)
Lemma pay_on_pending_changes_document :
  let env := Examples.env_at 9000 "-" in
  let after := payCommission Examples.ada_pending "c1" Examples.by_paypal env in
  (c_status <$> id "c1" (commissions Examples.ada_pending)) = Some Pending
  /\ lastActivityAt Examples.ada_pending = Some 3000%Z
  /\ lastActivityAt after = Some 9000%Z
  /\ after <> Examples.ada_pending.
Proof.
  intros env after. repeat split.
  intros H. apply (f_equal lastActivityAt) in H. discriminate H.
Qed.

End LifecycleClaims.

(** * The routes *)

Module RouteFacts.

Lemma includes_elem (l : list string) (s : string) :
  User.includes l s = true <-> s ∈ l.
Proof.
  unfold User.includes. rewrite existsb_exists. split.
  - intros (x & Hin & Heq). apply String.eqb_eq in Heq. subst x.
    now apply list_elem_of_In.
  - intros Hin. exists s. split; [now apply list_elem_of_In|apply String.eqb_refl].
Qed.

Lemma includes_not_elem (l : list string) (s : string) :
  User.includes l s = false <-> s ∉ l.
Proof.
  rewrite <- includes_elem. destruct (User.includes l s); split; congruence.
Qed.



(* for a divisor other than 0, Math.ceil of the quotient is a number *)
Lemma Math_ceil_nonzero (a b : Z) : b <> 0%Z -> Math_ceil a b = Finite (Math_ceil_div a b).
Proof.
  intros Hb. unfold Math_ceil. destruct (Z.eqb_spec b 0); [contradiction|reflexivity].
Qed.

(* the document POST /register builds fails the validators *)
Lemma register_answers bcrypt_hash jwt_sign save_error db b env write :
  (exists u,
      Mongo.findOne
        (fun u => String.eqb (User.email u) (JsString.toLowerCase (User.rb_email b)))
        db = Some u
      /\ User.register bcrypt_hash jwt_sign save_error db b env write
         = (status_json 409 (User.Message "Email already exists"), db))
  \/ (exists e,
        Mongo.findOne
          (fun u => String.eqb (User.email u) (JsString.toLowerCase (User.rb_email b)))
          db = None
        /\ User.register bcrypt_hash jwt_sign save_error db b env write
           = (status_json 500 (User.Failure "Registration failed" e), db)).
Proof.
  unfold User.register, User.cast_email.
  destruct (Mongo.findOne _ db) as [u|] eqn:E.
  - left. exists u. split; reflexivity.
  - right. unfold User.insert, Mongo.save_new.
    match goal with
    | |- context [negb (User.validates ?u)] =>
        assert (Hv : User.validates u = false)
          by (unfold User.validates; apply andb_false_intro2; reflexivity)
    end.
    rewrite Hv. cbn [negb]. eexists. split; reflexivity.
Qed.

(* and so does the document POST / (create affiliate) builds *)
Lemma create_route_answers save_error db b env write :
  (exists a,
      Mongo.findOne
        (fun a => String.eqb (Affiliate.email a)
                    (JsString.trim (JsString.toLowerCase (AffiliateRoutes.cb_email b))))
        db = Some a
      /\ AffiliateRoutes.create_route save_error db b env write
         = (status_json 409
              {| AffiliateRoutes.success := false;
                 AffiliateRoutes.message :=
                   Some "Affiliate with this email already exists";
                 AffiliateRoutes.data := None; AffiliateRoutes.error := None |},
            db))
  \/ (exists e,
        Mongo.findOne
          (fun a => String.eqb (Affiliate.email a)
                      (JsString.trim (JsString.toLowerCase (AffiliateRoutes.cb_email b))))
          db = None
        /\ AffiliateRoutes.create_route save_error db b env write
           = (status_json 500
                {| AffiliateRoutes.success := false;
                   AffiliateRoutes.message := Some "Error creating affiliate";
                   AffiliateRoutes.data := None; AffiliateRoutes.error := Some e |},
              db)).
Proof.
  unfold AffiliateRoutes.create_route, Affiliate.cast_email.
  rewrite JsStringFacts.toLowerCase_idem.
  destruct (Mongo.findOne _ db) as [a|] eqn:E.
  - left. exists a. split; reflexivity.
  - right. unfold Mongo.save_new.
    assert (Hv : Affiliate.validates (AffiliateRoutes.new_Affiliate b env) = false).
    { unfold Affiliate.validates.
      cbn [Affiliate.affiliateId AffiliateRoutes.new_Affiliate JsString.falsy negb].
      now rewrite andb_false_r. }
    rewrite Hv. cbn [negb]. eexists. split; reflexivity.
Qed.

End RouteFacts.

Module RouteClaims.
Import RouteFacts.

(** C9. PUT /customers/:id/status accepts exactly 'active', 'inactive' and
    'suspended'.  Any other body status, 'pending' of the schema's enum and
    an absent status included, gets 400 with 'Invalid status' and the
    collection is left as it is; for one of the three values the answer is
    200 and the status of the customer with that id is set to the requested
    value, every other document being left as it is. *)
Theorem status_route_accepts_three (db : gmap ObjectId User.User) (id : ObjectId)
    (status : option string) :
  ((forall s, status = Some s -> s ∉ ["active"; "inactive"; "suspended"]) ->
   AdminRoutes.status_route db id status
   = (status_json 400 (AdminRoutes.Error "Invalid status"), db))
  /\ (forall s, status = Some s -> s ∈ ["active"; "inactive"; "suspended"] ->
      http_status (AdminRoutes.status_route db id status).1 = 200%nat
      /\ (forall customer, db !! id = Some customer ->
            (AdminRoutes.status_route db id status).2 !! id
            = Some (User.set_status s customer)
            /\ User.status (User.set_status s customer) = s
            /\ forall other, other <> id ->
                 (AdminRoutes.status_route db id status).2 !! other = db !! other)
      /\ (db !! id = None -> (AdminRoutes.status_route db id status).2 = db))
  /\ ("pending" ∈ User.status_enum
      /\ AdminRoutes.status_route db id (Some "pending")
         = (status_json 400 (AdminRoutes.Error "Invalid status"), db)).
Proof.
  split; [|split].
  - intros Hout. unfold AdminRoutes.status_route.
    destruct status as [s|]; [|reflexivity].
    specialize (Hout s eq_refl). apply includes_not_elem in Hout.
    now rewrite Hout.
  - intros s -> Hin. unfold AdminRoutes.status_route.
    apply includes_elem in Hin. rewrite Hin. cbn [negb].
    split; [|split].
    + now destruct (Mongo.findByIdAndUpdate id (User.set_status s) db).
    + intros customer Hc.
      rewrite (MongoFacts.findByIdAndUpdate_Some _ _ _ _ Hc). cbn [snd].
      split; [apply lookup_insert_eq|]. split; [reflexivity|].
      intros other Hne. now apply lookup_insert_ne.
    + intros Hnone. now rewrite (MongoFacts.findByIdAndUpdate_None _ _ _ Hnone).
  - split; [|reflexivity]. unfold User.status_enum. set_solver.
Qed.

Lemma status_route_accepts_three_witness :
  (AdminRoutes.status_route Examples.users "u1" (Some "deleted")
   = (status_json 400 (AdminRoutes.Error "Invalid status"), Examples.users))
  /\ ((AdminRoutes.status_route Examples.users "u1" (Some "suspended")).2 !! "u1"
      = Some (User.set_status "suspended" Examples.carol)).
Proof.
  split.
  - apply (proj1 (status_route_accepts_three Examples.users "u1" (Some "deleted"))).
    intros s [= <-]. apply includes_not_elem. reflexivity.
  - assert (Hin : "suspended" ∈ ["active"; "inactive"; "suspended"])
      by (apply includes_elem; reflexivity).
    destruct (proj1 (proj2 (status_route_accepts_three Examples.users "u1"
                              (Some "suspended"))) "suspended" eq_refl Hin)
      as (_ & Hset & _).
    exact (proj1 (Hset Examples.carol eq_refl)).
Defined.




(** C7 (as amended). On each list endpoint that takes page and limit
    (affiliate list, admin customer list, user file list), whenever the
    handler's page and limit (the query parameters, or the defaults that
    stand in for them) are at least 1 and the database's ordering puts the
    documents the filter matches in the order the handler asks for (the
    sortBy field in the sortOrder direction, createdAt descending by
    default; createdAt descending on the other two), the response reports
    ceil(total / limit) pages, total being the number of documents the
    filter matches, and returns the slice that starts at offset
    (page - 1) * limit and has at most limit items of a list that holds
    exactly the matching documents in that order.  The page count reported
    is the least p with total <= p * limit. *)
Theorem pagination_slices :
  (forall regex_i order_by precedes (db : gmap ObjectId Affiliate.Affiliate) q,
      let page_ := default 1%Z (AffiliateRoutes.lq_page q) in
      let limit_ := default 50%Z (AffiliateRoutes.lq_limit q) in
      let sortBy := default "createdAt" (AffiliateRoutes.lq_sortBy q) in
      let direction :=
        if String.eqb (default "desc" (AffiliateRoutes.lq_sortOrder q)) "desc"
        then (-1)%Z else 1%Z in
      let matching :=
        List.filter (AffiliateRoutes.list_filter regex_i q) (Mongo.documents db) in
      (1 <= page_)%Z -> (1 <= limit_)%Z ->
      Mongo.sorts (Mongo.in_order precedes sortBy direction)
        (order_by sortBy direction) matching ->
      let sorted :=
        Mongo.result_set (AffiliateRoutes.list_sorted regex_i order_by q) db in
      sorted ≡ₚ matching
      /\ StronglySorted (Mongo.in_order precedes sortBy direction) sorted
      /\ let total := Z.of_nat (length matching) in
           let items :=
             take (Z.to_nat limit_) (drop (Z.to_nat ((page_ - 1) * limit_)) sorted) in
           AffiliateRoutes.list_route regex_i order_by db q
           = json {| AffiliateRoutes.success := true;
                     AffiliateRoutes.message := None;
                     AffiliateRoutes.data :=
                       Some {| AffiliateRoutes.affiliates := items;
                               AffiliateRoutes.pagination :=
                                 {| AffiliateRoutes.currentPage := page_;
                                    AffiliateRoutes.totalPages :=
                                      Finite (Math_ceil_div total limit_);
                                    AffiliateRoutes.totalItems := total;
                                    AffiliateRoutes.itemsPerPage := limit_ |} |};
                     AffiliateRoutes.error := None |}
           /\ (length items <= Z.to_nat limit_)%nat
           /\ ((Math_ceil_div total limit_ - 1) * limit_ < total
               <= Math_ceil_div total limit_ * limit_)%Z)
  /\ (forall regex_i newest_first (db : gmap ObjectId User.User) q,
      let page_ := default 1%Z (AdminRoutes.cq_page q) in
      let limit_ := default 20%Z (AdminRoutes.cq_limit q) in
      let matching :=
        List.filter (AdminRoutes.customers_filter regex_i q) (Mongo.documents db) in
      (1 <= page_)%Z -> (1 <= limit_)%Z ->
      Mongo.sorts (Mongo.newest_first_by User.createdAt) newest_first matching ->
      let sorted :=
        Mongo.result_set (AdminRoutes.customers_sorted regex_i newest_first q) db in
      sorted ≡ₚ matching
      /\ StronglySorted (Mongo.newest_first_by User.createdAt) sorted
      /\ let total := Z.of_nat (length matching) in
           let items :=
             take (Z.to_nat limit_) (drop (Z.to_nat ((page_ - 1) * limit_)) sorted) in
           AdminRoutes.customers_route regex_i newest_first db q
           = json (AdminRoutes.CustomerList (User.without_password <$> items) page_
                     (Finite (Math_ceil_div total limit_)) total)
           /\ (length items <= Z.to_nat limit_)%nat
           /\ ((Math_ceil_div total limit_ - 1) * limit_ < total
               <= Math_ceil_div total limit_ * limit_)%Z)
  /\ (forall (File : Type) userId category (createdAt : File -> Z) newest_first
             (db : gmap ObjectId File) req_user_id param_category query_limit
             query_page,
      let limit_ := SettingsRoutes.parseInt_or query_limit 50 in
      let page_ := SettingsRoutes.parseInt_or query_page 1 in
      let cat := AffiliateRoutes.given param_category in
      let matching :=
        List.filter (SettingsRoutes.files_filter userId category req_user_id cat)
          (Mongo.documents db) in
      (1 <= page_)%Z -> (1 <= limit_)%Z ->
      Mongo.sorts (Mongo.newest_first_by createdAt) newest_first matching ->
      let sorted :=
        Mongo.result_set
          (SettingsRoutes.files_sorted userId category newest_first req_user_id cat)
          db in
      sorted ≡ₚ matching
      /\ StronglySorted (Mongo.newest_first_by createdAt) sorted
      /\ let total := Z.of_nat (length matching) in
           let items :=
             take (Z.to_nat limit_) (drop (Z.to_nat ((page_ - 1) * limit_)) sorted) in
           SettingsRoutes.files_route userId category newest_first db req_user_id
             param_category query_limit query_page
           = json (SettingsRoutes.FileList items
                     {| SettingsRoutes.current := page_;
                        SettingsRoutes.pages := Finite (Math_ceil_div total limit_);
                        SettingsRoutes.total := total;
                        SettingsRoutes.limit := limit_ |}
                     (default "all" cat))
           /\ (length items <= Z.to_nat limit_)%nat
           /\ ((Math_ceil_div total limit_ - 1) * limit_ < total
               <= Math_ceil_div total limit_ * limit_)%Z).
Proof.
  split; [|split].
  - intros regex_i order_by precedes db q page_ limit_ sortBy direction matching
      Hpage Hlimit [Hperm Hsorted].
    intros sorted. split; [exact Hperm|]. split; [exact Hsorted|].
    intros total items. split; [|split].
    + unfold AffiliateRoutes.list_route. fold page_ limit_.
      rewrite MongoFacts.exec_slice; cbn [Mongo.q_skip Mongo.q_limit Mongo.skip Mongo.limit];
        [|nia|lia].
      rewrite Z.mul_1_r, (Math_ceil_nonzero _ limit_) by lia. reflexivity.
    + subst items. rewrite length_take. lia.
    + apply MongoFacts.Math_ceil_div_spec. lia.
  - intros regex_i newest_first db q page_ limit_ matching Hpage Hlimit
      [Hperm Hsorted].
    intros sorted. split; [exact Hperm|]. split; [exact Hsorted|].
    intros total items. split; [|split].
    + unfold AdminRoutes.customers_route. fold page_ limit_.
      rewrite MongoFacts.exec_slice; cbn [Mongo.q_skip Mongo.q_limit Mongo.skip Mongo.limit];
        [|nia|lia].
      rewrite Z.mul_1_r, (Math_ceil_nonzero _ limit_) by lia. reflexivity.
    + subst items. rewrite length_take. lia.
    + apply MongoFacts.Math_ceil_div_spec. lia.
  - intros File userId category createdAt newest_first db req_user_id param_category
      query_limit query_page limit_ page_ cat matching Hpage Hlimit [Hperm Hsorted].
    intros sorted. split; [exact Hperm|]. split; [exact Hsorted|].
    intros total items. split; [|split].
    + unfold SettingsRoutes.files_route. fold limit_ page_.
      rewrite MongoFacts.exec_slice; cbn [Mongo.q_skip Mongo.q_limit Mongo.skip Mongo.limit];
        [|nia|lia].
      rewrite (Math_ceil_nonzero _ limit_) by lia. reflexivity.
    + subst items. rewrite length_take. lia.
    + apply MongoFacts.Math_ceil_div_spec. lia.
Qed.

Lemma pagination_slices_witness :
  (SettingsRoutes.files_route fst snd Examples.as_stored Examples.files "u1" None
     (Some 1%Z) (Some 2%Z)
   = json (SettingsRoutes.FileList [("u1", "documents")]
             {| SettingsRoutes.current := 2; SettingsRoutes.pages := Finite 2;
                SettingsRoutes.total := 2; SettingsRoutes.limit := 1 |} "all"))
  /\ (AdminRoutes.customers_route Examples.contains_i Examples.as_stored
        Examples.users Examples.customers_page2
      = json (AdminRoutes.CustomerList [] 2 (Finite 1) 1))
  /\ (AffiliateRoutes.pagination
        <$> AffiliateRoutes.data
              (body (AffiliateRoutes.list_route Examples.contains_i
                       (fun _ _ => Examples.as_stored) Examples.affiliates
                       Examples.page2))
      = Some {| AffiliateRoutes.currentPage := 2;
                AffiliateRoutes.totalPages := Finite 1;
                AffiliateRoutes.totalItems := 1; AffiliateRoutes.itemsPerPage := 10 |}).
Proof.
  destruct pagination_slices as (Haff & Hcust & Hfiles).
  split; [|split].
  - destruct (Hfiles (string * string)%type fst snd Examples.file_time
                Examples.as_stored Examples.files "u1" None (Some 1%Z) (Some 2%Z))
      as (_ & _ & -> & _).
    + vm_compute; discriminate.
    + vm_compute; discriminate.
    + split; [reflexivity|]. vm_compute.
      repeat constructor; vm_compute; discriminate.
    + vm_compute. reflexivity.
  - destruct (Hcust Examples.contains_i Examples.as_stored Examples.users
                Examples.customers_page2) as (_ & _ & -> & _).
    + vm_compute; discriminate.
    + vm_compute; discriminate.
    + split; [reflexivity|]. vm_compute. repeat constructor.
    + vm_compute. reflexivity.
  - destruct (Haff Examples.contains_i (fun _ _ => Examples.as_stored)
                Examples.by_name Examples.affiliates Examples.page2)
      as (_ & _ & -> & _).
    + vm_compute; discriminate.
    + vm_compute; discriminate.
    + split; [reflexivity|]. vm_compute. repeat constructor.
    + vm_compute. reflexivity.
Defined.

(** C7, the claim as stated: with ?limit=0 the affiliate list returns every
    matching document, one more than the limit allows, and reports
    Math.ceil(1 / 0) = Infinity pages. *)
Lemma limit_zero_returns_everything :
  let r := AffiliateRoutes.list_route Examples.contains_i
             (fun _ _ => Examples.as_stored) Examples.affiliates Examples.limit0 in
  AffiliateRoutes.data (body r)
  = Some {| AffiliateRoutes.affiliates := [Examples.ada_pending];
            AffiliateRoutes.pagination :=
              {| AffiliateRoutes.currentPage := 1;
                 AffiliateRoutes.totalPages := Infinity;
                 AffiliateRoutes.totalItems := 1;
                 AffiliateRoutes.itemsPerPage := 0 |} |}
  /\ ~ (length [Examples.ada_pending] <= Z.to_nat 0)%nat.
Proof.
  intros r. split; [vm_compute; reflexivity|]. cbn. lia.
Qed.

End RouteClaims.

(** * The commission counters on binary64 numbers *)

Module Binary64Facts.
Import Binary64 DocumentArray DocumentArrayFacts.

Lemma exact_add_value x y :
  exact_add x y = true -> (value (PrimFloat.add x y) == value x + value y)%Q.
Proof.
  unfold exact_add. intros H. apply andb_true_iff in H as [_ H].
  now apply Qeq_bool_iff.
Qed.

Lemma exact_sub_value x y :
  exact_sub x y = true -> (value (PrimFloat.sub x y) == value x - value y)%Q.
Proof.
  unfold exact_sub. intros H. apply andb_true_iff in H as [_ H].
  now apply Qeq_bool_iff.
Qed.

(* what a commission of a known status counts for *)
Ltac status_counts :=
  unfold counts;
  cbn [approve_fields pay_fields new_commission c_status commissionAmount];
  repeat match goal with
         | H : c_status _ = _ |- _ => rewrite H
         end;
  repeat match goal with
         | |- context [bool_decide ?P] =>
             let b := eval vm_compute in (bool_decide P) in
             change (bool_decide P) with b
         end;
  cbv iota.

Lemma total_of_cons S c cs : total_of S (c :: cs) = (counts S c + total_of S cs)%Q.
Proof. reflexivity. Qed.

Lemma total_of_app S cs1 cs2 :
  (total_of S (cs1 ++ cs2) == total_of S cs1 + total_of S cs2)%Q.
Proof.
  induction cs1 as [|c cs1 IH].
  - change (total_of S ([] ++ cs2)) with (total_of S cs2).
    change (total_of S []) with 0%Q. ring.
  - cbn [app]. rewrite !total_of_cons, IH. ring.
Qed.

(* the change of one commission changes the sum by what that commission
   counts for *)
Lemma total_of_modify S x f cs c :
  id x cs = Some c ->
  (total_of S (modify x f cs) == total_of S cs - counts S c + counts S (f c))%Q.
Proof.
  intros Hc. destruct (modify_split x f cs c Hc) as (pre & post & -> & -> & _).
  rewrite !total_of_app, !total_of_cons. ring.
Qed.

(* without cancelled commissions, every commission is paid or open *)
Lemma total_of_split cs :
  Forall (fun c => c_status c <> Affiliate.Cancelled) cs ->
  (total_of all_statuses cs
   == total_of [Affiliate.Paid] cs + total_of open_statuses cs)%Q.
Proof.
  induction 1 as [|c cs Hc _ IH]; [change (0 == 0 + 0)%Q; ring|].
  rewrite !total_of_cons, IH.
  destruct (c_status c) eqn:E; [| | |contradiction]; status_counts; ring.
Qed.

Lemma float_Forall_modify {A} `{Subdocument A} (P : A -> Prop) x f (cs : list A) :
  Forall P cs -> (forall c, P c -> P (f c)) -> Forall P (modify x f cs).
Proof.
  intros Hall Hf. induction Hall as [|c cs Hc Hcs IH]; cbn [modify]; [constructor|].
  destruct (decide (subdoc_id c = x)); constructor; auto.
Qed.

Lemma fresh_consistent this : fresh this -> consistent this.
Proof.
  intros [Hs Hc]. constructor; rewrite ?Hs, ?Hc; [reflexivity..|constructor].
Qed.

Lemma float_consistent_addReferral this customerData env :
  consistent this -> consistent (addReferral this customerData env).
Proof. intros [H1 H2 H3 H4]. constructor; assumption. Qed.

Lemma float_consistent_recordConversion this referralId orderData env :
  exact_step this (RecordConversion referralId orderData, env) = true ->
  consistent this -> consistent (recordConversion this referralId orderData env).
Proof.
  unfold recordConversion. cbn [exact_step].
  destruct (id referralId (referrals this)) as [referral|];
    [|intros _ [H1 H2 H3 H4]; constructor; assumption].
  intros Hx [H1 H2 H3 H4]. apply andb_true_iff in Hx as [He Hp].
  apply exact_add_value in He, Hp.
  constructor;
    cbn [save pre_save stats commissions set_stats set_commissions set_referrals
         totalCommissionEarned totalCommissionPaid pendingCommission].
  - rewrite He, total_of_app, total_of_cons, H1.
    change (total_of all_statuses []) with 0%Q. status_counts. ring.
  - rewrite total_of_app, total_of_cons, H2.
    change (total_of [Affiliate.Paid] []) with 0%Q. status_counts. ring.
  - rewrite Hp, total_of_app, total_of_cons, H3.
    change (total_of open_statuses []) with 0%Q. status_counts. ring.
  - apply Forall_app. split; [exact H4|]. repeat constructor. discriminate.
Qed.

Lemma float_consistent_approveCommission this commissionId adminId env :
  consistent this -> consistent (approveCommission this commissionId adminId env).
Proof.
  unfold approveCommission. intros [H1 H2 H3 H4].
  destruct (id commissionId (commissions this)) as [c|] eqn:Hc;
    [|constructor; assumption].
  destruct (decide (c_status c = Affiliate.Pending)) as [Hp|Hp];
    [|constructor; assumption].
  constructor;
    cbn [save pre_save stats commissions set_stats set_commissions
         totalCommissionEarned totalCommissionPaid pendingCommission].
  - rewrite (total_of_modify _ _ _ _ _ Hc), <- H1. status_counts. ring.
  - rewrite (total_of_modify _ _ _ _ _ Hc), <- H2. status_counts. ring.
  - rewrite (total_of_modify _ _ _ _ _ Hc), <- H3. status_counts. ring.
  - apply float_Forall_modify; [exact H4|]. intros c' _. discriminate.
Qed.

Lemma float_consistent_payCommission this commissionId paymentData env :
  exact_step this (PayCommission commissionId paymentData, env) = true ->
  consistent this -> consistent (payCommission this commissionId paymentData env).
Proof.
  unfold payCommission. cbn [exact_step]. intros Hx [H1 H2 H3 H4].
  destruct (id commissionId (commissions this)) as [c|] eqn:Hc;
    [|constructor; assumption].
  destruct (decide (c_status c = Affiliate.Approved)) as [Hp|Hp];
    [|constructor; assumption].
  apply andb_true_iff in Hx as [Hpaid Hpending].
  apply exact_add_value in Hpaid. apply exact_sub_value in Hpending.
  constructor;
    cbn [save pre_save stats commissions set_stats set_commissions
         totalCommissionEarned totalCommissionPaid pendingCommission].
  - rewrite (total_of_modify _ _ _ _ _ Hc), <- H1. status_counts. ring.
  - rewrite Hpaid, (total_of_modify _ _ _ _ _ Hc), <- H2. status_counts. ring.
  - rewrite Hpending, (total_of_modify _ _ _ _ _ Hc), <- H3. status_counts. ring.
  - apply float_Forall_modify; [exact H4|]. intros c' _. discriminate.
Qed.

Lemma float_consistent_step this c :
  exact_step this c = true -> consistent this -> consistent (step this c).
Proof.
  destruct c as [[customerData|referralId orderData|commissionId adminId
                 |commissionId paymentData] env]; cbn [step]; intros Hx Hc.
  - now apply float_consistent_addReferral.
  - now apply float_consistent_recordConversion.
  - now apply float_consistent_approveCommission.
  - now apply float_consistent_payCommission.
Qed.

(* on a history without rounding the counters are the sums over the list *)
Lemma float_consistent_run calls :
  forall this, exact_run this calls = true -> consistent this ->
               consistent (run this calls).
Proof.
  induction calls as [|c calls IH]; intros this Hx Hc; [exact Hc|].
  cbn [exact_run] in Hx. apply andb_true_iff in Hx as [Hstep Hrest].
  cbn [run fold_left]. apply IH; [exact Hrest|]. now apply float_consistent_step.
Qed.

End Binary64Facts.

Module Binary64Claims.
Import PrimFloat Binary64 Binary64Facts.
#[local] Set Warnings "-inexact-float".
Local Close Scope float_scope.




End Binary64Claims.

Module Binary64Properties.
Import PrimFloat Binary64 Binary64Facts.
#[local] Set Warnings "-inexact-float".
Local Close Scope float_scope.

(** X2. From an affiliate with zero counters and no commission, after any
    sequence of method calls in which no addition to and no subtraction
    from a commission counter rounds, the stored counter
    stats.pendingCommission is the sum of the amounts of the pending and
    approved commissions, and so is totalCommissionEarned -
    totalCommissionPaid, the difference the pendingPayout virtual computes.
    When an operation rounds the two drift apart: at the rate 0.1, after
    orders of 1 and 2 with both commissions paid, pendingPayout is 0 and
    stats.pendingCommission is 2.7755575615628914e-17. *)
Theorem pendingCommission_is_pendingPayout :
  (forall (this : Affiliate) (calls : list (Call * Env)),
      fresh this ->
      exact_run this calls = true ->
      let after := run this calls in
      (value (pendingCommission (stats after))
       == total_of open_statuses (commissions after))%Q
      /\ (value (pendingCommission (stats after))
          == value (totalCommissionEarned (stats after))
             - value (totalCommissionPaid (stats after)))%Q)
  /\ (let after := run tenth settled in
      exact_run tenth settled = false
      /\ pendingPayout after = 0%float
      /\ pendingCommission (stats after) = 2.7755575615628914e-17%float
      /\ total_of open_statuses (commissions after) = 0%Q).
Proof.
  split.
  - intros this calls Hf Hx after.
    destruct (float_consistent_run calls this Hx (fresh_consistent this Hf))
      as [H1 H2 H3 H4]. fold after in H1, H2, H3, H4.
    split; [exact H3|].
    rewrite H3, H1, H2, (total_of_split _ H4). ring.
  - repeat split; vm_compute; reflexivity.
Qed.

Lemma pendingCommission_is_pendingPayout_witness :
  fresh half
  /\ exact_run half history = true
  /\ (value (pendingCommission (stats (run half history)))
      == total_of open_statuses (commissions (run half history)))%Q.
Proof.
  assert (Hf : fresh half) by (split; reflexivity).
  assert (Hx : exact_run half history = true) by (vm_compute; reflexivity).
  split; [exact Hf|]. split; [exact Hx|].
  exact (proj1 (proj1 pendingCommission_is_pendingPayout half history Hf Hx)).
Defined.

(** X3. From an affiliate with zero counters and no commission, after any
    sequence of method calls in which no addition to and no subtraction
    from a commission counter rounds, totalCommissionEarned is the sum of
    the amounts of all commissions, totalCommissionPaid the sum of the
    amounts of the paid ones, and no commission is cancelled. *)
Theorem earned_and_paid_are_sums (this : Affiliate) (calls : list (Call * Env)) :
  fresh this ->
  exact_run this calls = true ->
  let after := run this calls in
  (value (totalCommissionEarned (stats after))
   == total_of all_statuses (commissions after))%Q
  /\ (value (totalCommissionPaid (stats after))
      == total_of [Affiliate.Paid] (commissions after))%Q
  /\ Forall (fun c => c_status c <> Affiliate.Cancelled) (commissions after).
Proof.
  intros Hf Hx after.
  destruct (float_consistent_run calls this Hx (fresh_consistent this Hf))
    as [H1 H2 _ H4].
  split; [exact H1|]. split; [exact H2|exact H4].
Qed.

Lemma earned_and_paid_are_sums_witness :
  fresh half
  /\ exact_run half history = true
  /\ (value (totalCommissionPaid (stats (run half history)))
      == total_of [Affiliate.Paid] (commissions (run half history)))%Q.
Proof.
  assert (Hf : fresh half) by (split; reflexivity).
  assert (Hx : exact_run half history = true) by (vm_compute; reflexivity).
  split; [exact Hf|]. split; [exact Hx|].
  exact (proj1 (proj2 (earned_and_paid_are_sums half history Hf Hx))).
Defined.

End Binary64Properties.

(** * Further properties of the affiliate model *)

Module LedgerFacts.
Import Affiliate Lifecycle Ledger DocumentArray DocumentArrayFacts AffiliateFacts.

Lemma count_snoc {A} (l : list A) (x : A) : (count (l ++ [x]) == count l + 1)%Q.
Proof.
  unfold count. rewrite length_app, Nat.add_1_r, Nat2Z.inj_succ.
  unfold Z.succ. rewrite inject_Z_plus. reflexivity.
Qed.

Lemma brand_new_consistent this : brand_new this -> consistent this.
Proof.
  intros (Hs & Hc & Hr). split; rewrite ?Hs, ?Hc, ?Hr; reflexivity.
Qed.

Lemma consistent_addReferral this customerData env :
  consistent this -> consistent (addReferral this customerData env).
Proof.
  intros [H1 H2]. split; try assumption.
  cbn [addReferral save pre_save stats referrals set_stats set_referrals
       totalReferrals].
  rewrite count_snoc, H1. reflexivity.
Qed.

Lemma consistent_recordConversion this referralId orderData env :
  consistent this -> consistent (recordConversion this referralId orderData env).
Proof.
  intros [H1 H2]. unfold recordConversion.
  destruct (id referralId (referrals this)) as [referral|]; [|split; assumption].
  split;
    cbn [save pre_save stats referrals commissions set_stats set_referrals
         set_commissions totalReferrals successfulReferrals].
  - unfold count. rewrite length_modify. exact H1.
  - rewrite count_snoc, H2. reflexivity.
Qed.

Lemma consistent_approveCommission this commissionId adminId env :
  consistent this -> consistent (approveCommission this commissionId adminId env).
Proof.
  intros [H1 H2].
  destruct (id commissionId (commissions this)) as [c|] eqn:Hc.
  2: { rewrite approveCommission_noop by now rewrite Hc. split; assumption. }
  destruct (decide (c_status c = Pending)) as [Hp|Hp].
  2: { rewrite approveCommission_noop by now rewrite Hc. split; assumption. }
  unfold approveCommission. rewrite Hc, decide_True by exact Hp.
  split;
    cbn [save pre_save stats referrals commissions set_stats set_referrals
         set_commissions totalReferrals successfulReferrals].
  - exact H1.
  - unfold count. rewrite length_modify. exact H2.
Qed.

Lemma consistent_payCommission this commissionId paymentData env :
  consistent this -> consistent (payCommission this commissionId paymentData env).
Proof.
  intros [H1 H2].
  destruct (id commissionId (commissions this)) as [c|] eqn:Hc.
  2: { rewrite payCommission_noop by now rewrite Hc. split; assumption. }
  destruct (decide (c_status c = Approved)) as [Hp|Hp].
  2: { rewrite payCommission_noop by now rewrite Hc. split; assumption. }
  unfold payCommission. rewrite Hc, decide_True by exact Hp.
  split;
    cbn [save pre_save stats referrals commissions set_stats set_referrals
         set_commissions totalReferrals successfulReferrals].
  - exact H1.
  - unfold count. rewrite length_modify. exact H2.
Qed.

Lemma consistent_step this c : consistent this -> consistent (step this c).
Proof.
  destruct c as [[customerData|referralId orderData|commissionId adminId
                 |commissionId paymentData] env]; cbn [step].
  - apply consistent_addReferral.
  - apply consistent_recordConversion.
  - apply consistent_approveCommission.
  - apply consistent_payCommission.
Qed.

Lemma consistent_run calls : forall this, consistent this -> consistent (run this calls).
Proof.
  unfold run. induction calls as [|c calls IH]; intros this Hc; cbn [fold_left].
  - exact Hc.
  - apply IH, consistent_step, Hc.
Qed.

End LedgerFacts.

Module EvolutionFacts.
Import Affiliate Lifecycle Ledger DocumentArray DocumentArrayFacts AffiliateFacts.

Lemma forward_refl s : forward s s = true.
Proof. now destruct s. Qed.

Lemma forward_trans s1 s2 s3 :
  forward s1 s2 = true -> forward s2 s3 = true -> forward s1 s3 = true.
Proof. destruct s1, s2, s3; simpl; congruence. Qed.

Lemma evolves_refl c : evolves c c.
Proof. split; auto using forward_refl. Qed.

Lemma evolves_trans c1 c2 c3 : evolves c1 c2 -> evolves c2 c3 -> evolves c1 c3.
Proof.
  intros [A1 (A2 & A3 & A4) A5 A6 A7 A8 A9 A10] [B1 (B2 & B3 & B4) B5 B6 B7 B8 B9 B10].
  split; try congruence.
  - repeat split; congruence.
  - eapply forward_trans; eassumption.
  - intros Hn. destruct (A9 Hn) as [E1 E2].
    assert (Hn2 : c_status c2 <> Pending).
    { intros E. rewrite E in A8. destruct (c_status c1); simpl in A8; congruence. }
    destruct (B9 Hn2). split; congruence.
  - intros Hf. rewrite (A10 Hf) in *. apply B10. exact Hf.
Qed.

Lemma id_app_l {A} `{Subdocument A} x (l l' : list A) d :
  id x l = Some d -> id x (l ++ l') = Some d.
Proof.
  induction l as [|e l IH]; cbn [id app]; [discriminate|].
  destruct (decide (subdoc_id e = x)); [trivial|exact IH].
Qed.

Lemma evolves_approve adminId env c :
  c_status c = Pending -> evolves c (approve_fields adminId env c).
Proof.
  intros Hp. split; cbn [approve_fields c_id orderId c_customerId orderAmount
    commissionAmount c_commissionRate createdAt c_status]; auto.
  - now rewrite Hp.
  - congruence.
  - intros [E|E]; congruence.
Qed.

Lemma evolves_pay paymentData env c :
  c_status c = Approved -> evolves c (pay_fields paymentData env c).
Proof.
  intros Hp. split; cbn [pay_fields c_id orderId c_customerId orderAmount
    commissionAmount c_commissionRate createdAt c_status approvedBy approvedAt]; auto.
  - now rewrite Hp.
  - intros [E|E]; congruence.
Qed.

(* one call: every commission is still found under its _id, in a later state *)
Lemma step_evolves this call x c :
  id x (commissions this) = Some c ->
  exists c', id x (commissions (step this call)) = Some c' /\ evolves c c'.
Proof.
  intros Hx.
  destruct call as [[customerData|referralId orderData|commissionId adminId
                    |commissionId paymentData] env]; cbn [step].
  - exists c. split; [exact Hx|apply evolves_refl].
  - exists c. split; [|apply evolves_refl]. unfold recordConversion.
    destruct (id referralId (referrals this)); [|exact Hx].
    cbn [save pre_save commissions set_stats set_commissions set_referrals].
    now apply id_app_l.
  - rewrite approveCommission_commissions.
    destruct (id commissionId (commissions this)) as [d|] eqn:Hd;
      [|exists c; split; [exact Hx|apply evolves_refl]].
    destruct (decide (c_status d = Pending)) as [Hp|Hp];
      [|exists c; split; [exact Hx|apply evolves_refl]].
    destruct (decide (commissionId = x)) as [->|Hne].
    + rewrite (id_modify _ _ _ (approve_fields_id adminId env)), Hx.
      assert (d = c) as -> by congruence.
      eexists. split; [reflexivity|now apply evolves_approve].
    + rewrite (id_modify_ne _ _ _ _ (approve_fields_id adminId env) Hne).
      exists c. split; [exact Hx|apply evolves_refl].
  - rewrite payCommission_commissions.
    destruct (id commissionId (commissions this)) as [d|] eqn:Hd;
      [|exists c; split; [exact Hx|apply evolves_refl]].
    destruct (decide (c_status d = Approved)) as [Hp|Hp];
      [|exists c; split; [exact Hx|apply evolves_refl]].
    destruct (decide (commissionId = x)) as [->|Hne].
    + rewrite (id_modify _ _ _ (pay_fields_id paymentData env)), Hx.
      assert (d = c) as -> by congruence.
      eexists. split; [reflexivity|now apply evolves_pay].
    + rewrite (id_modify_ne _ _ _ _ (pay_fields_id paymentData env) Hne).
      exists c. split; [exact Hx|apply evolves_refl].
Qed.

Lemma run_evolves calls : forall this x c,
  id x (commissions this) = Some c ->
  exists c', id x (commissions (run this calls)) = Some c' /\ evolves c c'.
Proof.
  unfold run. induction calls as [|call calls IH]; intros this x c Hx; cbn [fold_left].
  - exists c. split; [exact Hx|apply evolves_refl].
  - destruct (step_evolves this call x c Hx) as (c1 & H1 & E1).
    destruct (IH _ x c1 H1) as (c2 & H2 & E2).
    exists c2. split; [exact H2|]. eapply evolves_trans; eassumption.
Qed.

(** *** What no method changes *)

Lemma step_identity this call : identity (step this call) = identity this.
Proof.
  destruct call as [[customerData|referralId orderData|commissionId adminId
                    |commissionId paymentData] env]; cbn [step].
  - reflexivity.
  - unfold recordConversion. now destruct (id referralId (referrals this)).
  - unfold approveCommission.
    destruct (id commissionId (commissions this)) as [c|]; [|reflexivity].
    now destruct (decide (c_status c = Pending)).
  - unfold payCommission.
    destruct (id commissionId (commissions this)) as [c|]; [|reflexivity].
    now destruct (decide (c_status c = Approved)).
Qed.

(* every method ends in save *)
Lemma step_is_saved this call :
  exists before, step this call = save (snd call) before
                 /\ affiliateId before = affiliateId this
                 /\ referralCode before = referralCode this
                 /\ name before = name this.
Proof.
  destruct call as [[customerData|referralId orderData|commissionId adminId
                    |commissionId paymentData] env]; cbn [step snd].
  - eexists. split; [reflexivity|]. repeat split.
  - unfold recordConversion.
    destruct (id referralId (referrals this)); eexists; (split; [reflexivity|]);
      repeat split.
  - unfold approveCommission.
    destruct (id commissionId (commissions this)) as [c|];
      [destruct (decide (c_status c = Pending))|];
      eexists; (split; [reflexivity|]); repeat split.
  - unfold payCommission.
    destruct (id commissionId (commissions this)) as [c|];
      [destruct (decide (c_status c = Approved))|];
      eexists; (split; [reflexivity|]); repeat split.
Qed.

Lemma save_keeps_codes env this :
  (affiliateId this <> "" -> affiliateId (save env this) = affiliateId this)
  /\ (referralCode this <> "" -> referralCode (save env this) = referralCode this)
  /\ affiliateId (save env this) <> "".
Proof.
  cbn [save pre_save affiliateId referralCode]. repeat split.
  - destruct (affiliateId this); [contradiction|reflexivity].
  - destruct (referralCode this); [contradiction|reflexivity].
  - destruct (affiliateId this); cbn [JsString.falsy]; discriminate.
Qed.

End EvolutionFacts.

Module ModelProperties.
Import Affiliate Lifecycle Ledger DocumentArray DocumentArrayFacts AffiliateFacts.
Import LedgerFacts EvolutionFacts.

(** X1. From an affiliate with zero counters and empty lists, after any
    sequence of method calls totalReferrals is the number of embedded
    referrals and successfulReferrals the number of embedded commissions. *)
Theorem counters_count_the_lists (this : Affiliate) (calls : list (Call * Env)) :
  brand_new this ->
  let after := run this calls in
  (totalReferrals (stats after) == count (referrals after))%Q
  /\ (successfulReferrals (stats after) == count (commissions after))%Q.
Proof.
  intros Hn after.
  destruct (consistent_run calls this (brand_new_consistent this Hn)) as [H1 H2].
  split; assumption.
Qed.

Lemma counters_count_the_lists_witness :
  brand_new Examples.ada
  /\ (totalReferrals (stats (run Examples.ada Examples.history)) == 1)%Q
  /\ (successfulReferrals (stats (run Examples.ada Examples.history)) == 2)%Q.
Proof.
  assert (Hn : brand_new Examples.ada) by (repeat split).
  split; [exact Hn|].
  destruct (counters_count_the_lists Examples.ada Examples.history Hn) as [-> ->].
  split; reflexivity.
Defined.

(** X4. A commission is never removed and only moves forward: whatever
    methods are called afterwards, commissions.id still finds a commission
    under the same _id, with the same order, amount, rate and creation
    time, in a status reached by pending -> approved -> paid steps; the
    approval record of an approved commission is kept, and a paid (or
    cancelled) commission is not changed at all. *)
Theorem commissions_only_move_forward (this : Affiliate) (calls : list (Call * Env))
    (x : ObjectId) (c : Commission) :
  id x (commissions this) = Some c ->
  exists c', id x (commissions (run this calls)) = Some c' /\ evolves c c'.
Proof. apply run_evolves. Qed.

Lemma commissions_only_move_forward_witness :
  exists c c',
    id "c1" (commissions Examples.ada_pending) = Some c
    /\ id "c1" (commissions (run Examples.ada_pending
                               [(ApproveCommission "c1" "u0", Examples.env_at 4000 "-");
                                (PayCommission "c1" Examples.by_paypal,
                                 Examples.env_at 5000 "-");
                                (ApproveCommission "c1" "u9", Examples.env_at 6000 "-")]))
       = Some c'
    /\ c_status c = Pending /\ evolves c c'.
Proof.
  destruct (id "c1" (commissions Examples.ada_pending)) as [c|] eqn:Hc;
    [|discriminate].
  destruct (commissions_only_move_forward Examples.ada_pending
              [(ApproveCommission "c1" "u0", Examples.env_at 4000 "-");
               (PayCommission "c1" Examples.by_paypal, Examples.env_at 5000 "-");
               (ApproveCommission "c1" "u9", Examples.env_at 6000 "-")]
              "c1" c Hc) as (c' & Hc' & He).
  exists c, c'.
  split; [reflexivity|]. split; [exact Hc'|]. split; [|exact He].
  injection Hc as <-. reflexivity.
Defined.

Lemma run_snoc this calls call : run this (calls ++ [call]) = step (run this calls) call.
Proof. unfold run. now rewrite fold_left_app. Qed.

Lemma run_identity calls : forall this, identity (run this calls) = identity this.
Proof.
  unfold run. induction calls as [|c calls IH]; intros this; cbn [fold_left];
    [reflexivity|].
  now rewrite IH, step_identity.
Qed.

Lemma step_keeps_codes this call :
  (affiliateId this <> "" -> affiliateId (step this call) = affiliateId this)
  /\ (referralCode this <> "" -> referralCode (step this call) = referralCode this)
  /\ affiliateId (step this call) <> ""
  /\ lastActivityAt (step this call) = Some (now (snd call)).
Proof.
  destruct (step_is_saved this call) as (before & -> & Ha & Hr & _).
  destruct (save_keeps_codes (snd call) before) as (H1 & H2 & H3).
  rewrite <- Ha, <- Hr. repeat split; assumption.
Qed.

(* the validators read the identity of the document and its two codes *)
Lemma validates_same (a b : Affiliate) :
  identity a = identity b -> affiliateId a = affiliateId b ->
  referralCode a = referralCode b -> validates a = validates b.
Proof.
  unfold identity, validates. intros Hi Ha Hr.
  injection Hi as _ -> -> -> -> -> _ _. now rewrite Ha, Hr.
Qed.

Lemma validates_codes this :
  validates this = true -> affiliateId this <> "" /\ referralCode this <> "".
Proof.
  unfold validates. intros H.
  repeat (apply andb_true_iff in H as [H ?]).
  split; intros E; rewrite E in *; cbn [JsString.falsy negb] in *; congruence.
Qed.

(** X5. No method call changes _id, name, email, status, tier,
    commissionRate, adminNotes or tags, and an affiliateId or referralCode
    that is set is never replaced.  For a document that passes the
    validators of the schema, every document the methods write passes them
    too, so each save reaches the pre('save') hook, and after a call
    lastActivityAt is the time of that call. *)
Theorem methods_keep_identity (this : Affiliate) (calls : list (Call * Env)) :
  let after := run this calls in
  identity after = identity this
  /\ (affiliateId this <> "" -> affiliateId after = affiliateId this)
  /\ (referralCode this <> "" -> referralCode after = referralCode this)
  /\ (validates this = true ->
      validates after = true
      /\ forall call, validates (run this (calls ++ [call])) = true
                      /\ lastActivityAt (run this (calls ++ [call]))
                         = Some (now (snd call))).
Proof.
  intros after. subst after.
  assert (Ha : forall calls, affiliateId this <> "" ->
                             affiliateId (run this calls) = affiliateId this).
  { intros cs. induction cs as [|call cs IH] using rev_ind; [reflexivity|].
    intros Hne. rewrite run_snoc.
    rewrite (proj1 (step_keeps_codes _ call)); rewrite IH; auto. }
  assert (Hr : forall calls, referralCode this <> "" ->
                             referralCode (run this calls) = referralCode this).
  { intros cs. induction cs as [|call cs IH] using rev_ind; [reflexivity|].
    intros Hne. rewrite run_snoc.
    rewrite (proj1 (proj2 (step_keeps_codes _ call))); rewrite IH; auto. }
  assert (Hv : forall calls, validates this = true ->
                             validates (run this calls) = true).
  { intros cs Hval. destruct (validates_codes this Hval) as [Hne1 Hne2].
    rewrite (validates_same (run this cs) this); auto using run_identity. }
  split; [apply run_identity|]. split; [apply Ha|]. split; [apply Hr|].
  intros Hval. split; [now apply Hv|].
  intros call. split; [now apply Hv|].
  rewrite run_snoc.
  now destruct (step_keeps_codes (run this calls) call) as (_ & _ & _ & H4).
Qed.

Lemma methods_keep_identity_witness :
  validates Examples.ada = true
  /\ validates (run Examples.ada Examples.history) = true
  /\ commissionRate (run Examples.ada Examples.history) = (15 # 100)%Q.
Proof.
  assert (Hval : validates Examples.ada = true) by reflexivity.
  split; [exact Hval|].
  destruct (methods_keep_identity Examples.ada Examples.history) as (Hi & _ & _ & Hv).
  split; [exact (proj1 (Hv Hval))|].
  assert (Hc : commissionRate (run Examples.ada Examples.history)
               = commissionRate Examples.ada)
    by (unfold identity in Hi; congruence).
  rewrite Hc. reflexivity.
Defined.

End ModelProperties.

(** * The static methods and the other affiliate routes *)

Module CollectionFacts.
Import Mongo MongoFacts.

Section Facts.
Context {A : Type}.
Implicit Types (c : gmap ObjectId A) (matches : A -> bool).

Lemma findOne_None_iff c matches :
  findOne matches c = None <-> forall k d, c !! k = Some d -> matches d = false.
Proof.
  split; [apply findOne_None|].
  intros Hall. destruct (findOne matches c) as [d|] eqn:E; [|reflexivity].
  apply findOne_Some in E as [[k Hk] Hm]. rewrite (Hall k d Hk) in Hm. discriminate.
Qed.

Lemma documents_fmap (g : A -> A) c : documents (g <$> c) = g <$> documents c.
Proof.
  unfold documents. rewrite map_to_list_fmap, <- !list_fmap_compose.
  apply list_fmap_ext. intros i [k d] _. reflexivity.
Qed.

Lemma filter_fmap (p : A -> bool) (g : A -> A) (l : list A) :
  List.filter p (g <$> l) = g <$> List.filter (fun d => p (g d)) l.
Proof.
  induction l as [|d l IH]; cbn [List.filter fmap list_fmap]; [reflexivity|].
  fold (g <$> l). rewrite IH. now destruct (p (g d)).
Qed.

Lemma filter_none (p : A -> bool) (l : list A) :
  (forall d, d ∈ l -> p d = false) -> List.filter p l = [].
Proof.
  induction l as [|d l IH]; intros Hall; cbn [List.filter]; [reflexivity|].
  rewrite (Hall d) by left. apply IH. intros e He. apply Hall. now right.
Qed.

Lemma elem_of_filter (p : A -> bool) (l : list A) d :
  d ∈ List.filter p l <-> d ∈ l /\ p d = true.
Proof. rewrite !list_elem_of_In. apply filter_In. Qed.

Lemma countDocuments_fmap matches (g : A -> A) c :
  (forall d, matches (g d) = matches d) ->
  countDocuments matches (g <$> c) = countDocuments matches c.
Proof.
  intros Hm. unfold countDocuments.
  rewrite documents_fmap, filter_fmap, length_fmap.
  rewrite (List.filter_ext _ matches Hm). reflexivity.
Qed.

Lemma countDocuments_0 matches c :
  (forall k d, c !! k = Some d -> matches d = false) -> countDocuments matches c = 0%Z.
Proof.
  intros Hall. unfold countDocuments. rewrite filter_none; [reflexivity|].
  intros d Hin. apply elem_of_documents in Hin as [k Hk]. eauto.
Qed.

Lemma countDocuments_le (p q : A -> bool) c :
  (forall d, p d = true -> q d = true) ->
  (countDocuments p c <= countDocuments q c)%Z.
Proof.
  intros Hpq. unfold countDocuments. apply inj_le.
  induction (documents c) as [|d l IH]; cbn [List.filter]; [lia|].
  destruct (p d) eqn:Ep.
  - rewrite (Hpq d Ep). cbn [length]. lia.
  - destruct (q d); cbn [length]; lia.
Qed.

End Facts.
End CollectionFacts.

Module StaticsProperties.
Import Affiliate AffiliateStatics Mongo MongoFacts CollectionFacts.

Lemma upper_lower_char c :
  JsString.upper_char (JsString.lower_char c) = JsString.upper_char c.
Proof.
  unfold JsString.lower_char.
  destruct (JsString.is_upper_letter c) eqn:E; [|reflexivity].
  unfold JsString.is_upper_letter in E. apply andb_true_iff in E as [E1 E2].
  apply Nat.leb_le in E1, E2.
  unfold JsString.upper_char, JsString.is_lower_letter.
  rewrite nat_ascii_embedding by lia.
  replace ((97 <=? nat_of_ascii c + 32)%nat && (nat_of_ascii c + 32 <=? 122)%nat)
    with true
    by (symmetry; apply andb_true_iff; split; apply Nat.leb_le; lia).
  replace ((97 <=? nat_of_ascii c)%nat && (nat_of_ascii c <=? 122)%nat) with false
    by (symmetry; apply andb_false_iff; left; apply Nat.leb_gt; lia).
  replace (nat_of_ascii c + 32 - 32)%nat with (nat_of_ascii c) by lia.
  apply ascii_nat_embedding.
Qed.

Lemma toUpperCase_toLowerCase s :
  JsString.toUpperCase (JsString.toLowerCase s) = JsString.toUpperCase s.
Proof.
  unfold JsString.toUpperCase, JsString.toLowerCase.
  induction s as [|c s IH]; cbn [JsString.map_chars]; [reflexivity|].
  now rewrite upper_lower_char, IH.
Qed.

Lemma is_active_spec a : is_active a = true <-> status a = "active".
Proof. apply String.eqb_eq. Qed.

Lemma gt0_spec x : gt0 x = true <-> (0 < x)%Q.
Proof.
  unfold gt0. rewrite negb_true_iff. split.
  - intros H. apply Qnot_le_lt. intros Hle. apply Qle_bool_iff in Hle. congruence.
  - intros H. destruct (Qle_bool x 0) eqn:E; [|reflexivity].
    apply Qle_bool_iff in E. exfalso. exact (Qlt_not_le _ _ H E).
Qed.

(** X7. findByReferralCode resolves a code only to an active affiliate
    whose referralCode is the upper-cased argument; it answers null exactly
    when the collection has no such affiliate, so the code of an inactive,
    suspended or pending affiliate is never resolved; and the case of the
    argument does not matter. *)
Theorem findByReferralCode_resolves_active (db : gmap ObjectId Affiliate)
    (code : string) :
  (forall a, findByReferralCode db code = Some a ->
     (exists k, db !! k = Some a)
     /\ status a = "active"
     /\ referralCode a = JsString.toUpperCase code)
  /\ (findByReferralCode db code = None <->
      forall k a, db !! k = Some a -> status a = "active" ->
                  referralCode a <> JsString.toUpperCase code)
  /\ findByReferralCode db (JsString.toLowerCase code) = findByReferralCode db code.
Proof.
  split; [|split].
  - intros a Ha. apply findOne_Some in Ha as [Hk Hm].
    apply andb_true_iff in Hm as [Hc Hac].
    split; [exact Hk|]. split; [now apply is_active_spec|now apply String.eqb_eq].
  - unfold findByReferralCode. rewrite findOne_None_iff. split.
    + intros Hall k a Hk Hact Hcode. specialize (Hall k a Hk).
      apply andb_false_iff in Hall as [H|H].
      * apply String.eqb_neq in H. contradiction.
      * apply is_active_spec in Hact. congruence.
    + intros Hall k a Hk.
      destruct (is_active a) eqn:Hact; [|apply andb_false_r].
      rewrite andb_true_r. apply String.eqb_neq.
      apply (Hall k a Hk). now apply is_active_spec.
  - unfold findByReferralCode. now rewrite toUpperCase_toLowerCase.
Qed.

Lemma findByReferralCode_resolves_active_witness :
  findByReferralCode Examples.affiliates "adabk9zd" = Some Examples.ada_pending
  /\ status Examples.ada_pending = "active".
Proof.
  assert (H : findByReferralCode Examples.affiliates "adabk9zd"
              = Some Examples.ada_pending) by (vm_compute; reflexivity).
  split; [exact H|].
  exact (proj1 (proj2 (proj1 (findByReferralCode_resolves_active Examples.affiliates
                                "adabk9zd") Examples.ada_pending H))).
Defined.

Section Sorted.
Variable most_earned_first : list Affiliate -> list Affiliate.
Variable most_pending_first : list Affiliate -> list Affiliate.

Lemma getPendingPayouts_eq db :
  getPendingPayouts most_pending_first db
  = inr (most_pending_first
           (List.filter (fun a => is_active a && gt0 (pendingCommission (stats a)))
              (documents db))).
Proof. reflexivity. Qed.

Lemma getTopPerformers_eq db limit :
  (0 < default 10%Z limit)%Z ->
  getTopPerformers most_earned_first db limit
  = inr (take (Z.to_nat (default 10%Z limit))
           (most_earned_first (List.filter is_active (documents db)))).
Proof.
  intros Hl. unfold getTopPerformers.
  rewrite exec_slice; cbn [q_skip q_limit Mongo.limit Mongo.sort Mongo.find];
    [reflexivity|lia|exact Hl].
Qed.
End Sorted.

(** X8. When the database's ordering returns the documents it was given,
    getPendingPayouts answers with exactly the affiliates of the collection
    that are active and have a positive stats.pendingCommission. *)
Theorem getPendingPayouts_exact (most_pending_first : list Affiliate -> list Affiliate)
    (db : gmap ObjectId Affiliate) :
  (forall l, most_pending_first l ≡ₚ l) ->
  exists payouts,
    getPendingPayouts most_pending_first db = inr payouts
    /\ forall a, a ∈ payouts <->
         (exists k, db !! k = Some a)
         /\ status a = "active"
         /\ (0 < pendingCommission (stats a))%Q.
Proof.
  intros Hperm. eexists. split; [apply getPendingPayouts_eq|].
  intros a. rewrite (Hperm _), elem_of_filter, elem_of_documents, andb_true_iff,
    is_active_spec, gt0_spec. tauto.
Qed.

Lemma getPendingPayouts_exact_witness :
  exists payouts,
    getPendingPayouts Examples.as_stored Examples.affiliates = inr payouts
    /\ Examples.ada_pending ∈ payouts.
Proof.
  assert (Hperm : forall l : list Affiliate, Examples.as_stored l ≡ₚ l)
    by reflexivity.
  destruct (getPendingPayouts_exact Examples.as_stored Examples.affiliates Hperm)
    as (payouts & Hp & Hin).
  exists payouts. split; [exact Hp|].
  apply Hin. split; [exists "a1"; reflexivity|]. split; reflexivity.
Defined.

(** X9. When the database's ordering returns the active affiliates sorted
    by stats.totalCommissionEarned, highest first, getTopPerformers(limit)
    with a positive limit (10 when none is given) answers with at most limit
    affiliates, all of them active, and every active affiliate it leaves out
    earned no more than each one it returns. *)
Theorem getTopPerformers_are_top (most_earned_first : list Affiliate -> list Affiliate)
    (db : gmap ObjectId Affiliate) (limit : option Z) :
  let n := default 10%Z limit in
  let active := List.filter is_active (documents db) in
  (0 < n)%Z ->
  most_earned_first active ≡ₚ active ->
  StronglySorted earns_at_least (most_earned_first active) ->
  exists top rest,
    getTopPerformers most_earned_first db limit = inr top
    /\ (length top <= Z.to_nat n)%nat
    /\ top ++ rest ≡ₚ active
    /\ (forall a, a ∈ top -> status a = "active" /\ exists k, db !! k = Some a)
    /\ (forall a b, a ∈ top -> b ∈ rest -> earns_at_least a b)
    /\ (rest <> [] -> length top = Z.to_nat n).
Proof.
  intros n active Hn Hperm Hsorted.
  exists (take (Z.to_nat n) (most_earned_first active)),
         (drop (Z.to_nat n) (most_earned_first active)).
  split; [now apply getTopPerformers_eq|].
  split; [rewrite length_take; lia|].
  split; [now rewrite take_drop|].
  split; [|split].
  - intros a Ha.
    assert (Hin : a ∈ active).
    { rewrite <- Hperm, <- (take_drop (Z.to_nat n)). apply elem_of_app. now left. }
    apply elem_of_filter in Hin as [Hd Hact].
    split; [now apply is_active_spec|now apply elem_of_documents].
  - intros a b Ha Hb. rewrite <- (take_drop (Z.to_nat n)) in Hsorted.
    eapply StronglySorted_app_1_elem_of; eassumption.
  - intros Hrest. rewrite length_take. apply Nat.min_l.
    destruct (le_lt_dec (Z.to_nat n) (length (most_earned_first active)))
      as [Hle|Hlt]; [exact Hle|].
    exfalso. apply Hrest. apply drop_ge. lia.
Qed.

Lemma getTopPerformers_are_top_witness :
  exists top rest : list Affiliate,
    getTopPerformers Samples.richest_first Samples.program (Some 1%Z) = inr top
    /\ top = [Examples.ada_pending]
    /\ (forall a b, a ∈ top -> b ∈ rest -> earns_at_least a b).
Proof.
  assert (Hperm : Samples.richest_first
                    (List.filter is_active (documents Samples.program))
                  ≡ₚ List.filter is_active (documents Samples.program)).
  { vm_compute. first [reflexivity | apply perm_swap]. }
  assert (Hsorted : StronglySorted earns_at_least
                      (Samples.richest_first
                         (List.filter is_active (documents Samples.program)))).
  { vm_compute. repeat constructor; discriminate. }
  destruct (getTopPerformers_are_top Samples.richest_first Samples.program
              (Some 1%Z) ltac:(reflexivity) Hperm Hsorted)
    as (top & rest & Htop & _ & _ & _ & Hbest & _).
  exists top, rest. split; [exact Htop|]. split; [|exact Hbest].
  assert (E : getTopPerformers Samples.richest_first Samples.program (Some 1%Z)
              = inr [Examples.ada_pending]) by (vm_compute; reflexivity).
  congruence.
Defined.

End StaticsProperties.

Module AffiliateAdminProperties.
Import Affiliate AffiliateRoutes AffiliateAdmin Mongo MongoFacts CollectionFacts.
Import Lifecycle Ledger.

(** X10. The approve and pay routes never create or delete a document and
    touch only the affiliate they address: every other document stays as it
    is, an unknown affiliate id is answered 404 and a rejected write 500,
    both with the collection unchanged.  A commissionId the affiliate does
    not have is not reported: the answer is still 200 with the success
    envelope, and the document written is the one the save hook
    produces. *)
Theorem commission_routes_touch_one_document (db : gmap ObjectId Affiliate)
    (id commissionId adminId : ObjectId) (paymentMethod_ paymentReference_ : option string)
    (env : Env) (write : Outcome) :
  let paid := pay_route db id commissionId paymentMethod_ paymentReference_ env write in
  let approved := approve_route db id commissionId adminId env write in
  (forall other, other <> id ->
     paid.2 !! other = db !! other /\ approved.2 !! other = db !! other)
  /\ (dom paid.2 = dom db /\ dom approved.2 = dom db)
  /\ (db !! id = None -> paid = (not_found, db) /\ approved = (not_found, db))
  /\ (forall e, write = Rejected e ->
        paid.2 = db /\ approved.2 = db
        /\ (is_Some (db !! id) ->
            http_status paid.1 = 500%nat /\ http_status approved.1 = 500%nat))
  /\ (forall affiliate,
        db !! id = Some affiliate ->
        DocumentArray.id commissionId (commissions affiliate) = None ->
        write = Resolved ->
        (http_status paid.1 = 200%nat /\ success (body paid.1) = true
         /\ paid.2 !! id = Some (save env affiliate))
        /\ (http_status approved.1 = 200%nat /\ success (body approved.1) = true
            /\ approved.2 !! id = Some (save env affiliate))).
Proof.
  intros paid approved. subst paid approved.
  unfold pay_route, approve_route, findById.
  destruct (db !! id) as [affiliate|] eqn:Hdb.
  - destruct write as [|e]; cbn [fst snd].
    + split; [intros other Hne; split; now apply lookup_insert_ne|].
      split; [split; apply dom_insert_lookup_L; rewrite Hdb; eauto|].
      split; [discriminate|]. split; [discriminate|].
      intros a [= <-] Hnone _.
      rewrite AffiliateFacts.payCommission_noop by now rewrite Hnone.
      rewrite AffiliateFacts.approveCommission_noop by now rewrite Hnone.
      repeat split; apply lookup_insert_eq.
    + split; [intros other Hne; split; reflexivity|].
      split; [split; reflexivity|]. split; [discriminate|].
      split; [|discriminate].
      intros e' _. repeat split.
  - cbn [fst snd]. split; [intros other Hne; split; reflexivity|].
    split; [split; reflexivity|]. split; [split; reflexivity|].
    split; [|discriminate].
    intros e _. split; [reflexivity|]. split; [reflexivity|].
    intros [x Hx]. discriminate.
Qed.

Lemma commission_routes_touch_one_document_witness :
  let out := pay_route Samples.program "a2" "c1" (Some "paypal") None
               (Examples.env_at 9000 "-") Resolved in
  DocumentArray.id "c1" (commissions Samples.grace) = None
  /\ http_status out.1 = 200%nat
  /\ out.2 !! "a2" = Some (save (Examples.env_at 9000 "-") Samples.grace)
  /\ out.2 !! "a1" = Some Examples.ada_pending.
Proof.
  intros out. subst out. split; [reflexivity|].
  destruct (commission_routes_touch_one_document Samples.program "a2" "c1" "u0"
              (Some "paypal") None (Examples.env_at 9000 "-") Resolved)
    as (Hother & _ & _ & _ & Hunknown).
  destruct (Hunknown Samples.grace eq_refl eq_refl eq_refl) as [(H1 & _ & H3) _].
  split; [exact H1|]. split; [exact H3|].
  rewrite (proj1 (Hother "a1" ltac:(discriminate))). reflexivity.
Defined.

(** X11. DELETE /:id removes exactly the addressed document: an unknown id
    is answered 404 with the collection unchanged; a known one is answered
    200, is gone afterwards and every other document stays; after that the
    approve, pay and delete routes all answer 404 for that id. *)
Theorem delete_route_removes_one (db : gmap ObjectId Affiliate) (id : ObjectId) :
  let out := delete_route db id in
  (db !! id = None -> out = (not_found, db))
  /\ (is_Some (db !! id) -> http_status out.1 = 200%nat)
  /\ out.2 !! id = None
  /\ (forall other, other <> id -> out.2 !! other = db !! other)
  /\ (forall commissionId adminId paymentMethod_ paymentReference_ env write,
        pay_route out.2 id commissionId paymentMethod_ paymentReference_ env write
        = (not_found, out.2)
        /\ approve_route out.2 id commissionId adminId env write = (not_found, out.2)
        /\ delete_route out.2 id = (not_found, out.2)).
Proof.
  intros out.
  assert (Hgone : out.2 !! id = None).
  { subst out. unfold delete_route, findById.
    destruct (db !! id) eqn:Hdb; cbn [snd]; [apply lookup_delete_eq|exact Hdb]. }
  split; [|split; [|split; [|split]]].
  - intros Hnone. subst out. unfold delete_route, findById. now rewrite Hnone.
  - intros [a Ha]. subst out. unfold delete_route, findById. now rewrite Ha.
  - exact Hgone.
  - intros other Hne. subst out. unfold delete_route, findById.
    destruct (db !! id); cbn [snd]; [now apply lookup_delete_ne|reflexivity].
  - intros. unfold pay_route, approve_route, delete_route, findById.
    now rewrite Hgone.
Qed.

Lemma delete_route_removes_one_witness :
  is_Some (Samples.program !! "a3")
  /\ http_status (delete_route Samples.program "a3").1 = 200%nat
  /\ (delete_route Samples.program "a3").2 !! "a1" = Some Examples.ada_pending.
Proof.
  assert (Hs : is_Some (Samples.program !! "a3")) by (eexists; reflexivity).
  split; [exact Hs|].
  destruct (delete_route_removes_one Samples.program "a3") as (_ & H200 & _ & Hother & _).
  split; [exact (H200 Hs)|].
  rewrite (Hother "a1" ltac:(discriminate)). reflexivity.
Defined.

(** *** Bulk actions *)

Lemma listed_spec ids s : listed ids s = true <-> _id (document s) ∈ ids.
Proof. unfold listed. apply bool_decide_eq_true. Qed.

Lemma bulk_set_id action a : _id (bulk_set action a) = _id a.
Proof. now destruct action. Qed.

Lemma bulk_update_db action ids env db r db' :
  bulk_update action ids env db = Some (r, db') ->
  db' = bulk_apply action ids (now env) <$> db
  /\ matchedCount r = countDocuments (listed ids) db.
Proof.
  unfold bulk_update, updateMany.
  destruct action; intros [= <- <-]; (split; [|reflexivity]);
    apply map_fmap_ext; intros k s _; unfold bulk_apply;
    now destruct (listed ids s).
Qed.

Lemma bulk_route_db action ids env db :
  (bulk_action_route db action ids env).2 = bulk_apply action ids (now env) <$> db.
Proof.
  unfold bulk_action_route.
  destruct (bulk_update action ids env db) as [[r db']|] eqn:E.
  - now apply bulk_update_db in E as [-> _].
  - destruct action; try discriminate. cbn [snd bulk_apply].
    symmetry. apply map_fmap_id.
Qed.

Lemma countDocuments_ext {A} (p q : A -> bool) (c : gmap ObjectId A) :
  (forall k d, c !! k = Some d -> p d = q d) ->
  countDocuments p c = countDocuments q c.
Proof.
  intros Hpq. unfold countDocuments. f_equal. f_equal.
  apply List.filter_ext_in. intros d Hd.
  apply list_elem_of_In, elem_of_documents in Hd as [k Hk]. eauto.
Qed.

Lemma bulk_apply_listed action ids t s :
  listed ids (bulk_apply action ids t s) = listed ids s.
Proof.
  unfold bulk_apply. destruct action; try reflexivity;
    destruct (listed ids s) eqn:E; try exact E;
    unfold listed in *; cbn [stamped document]; exact E.
Qed.

(** X12. POST /bulk-action changes, on the listed affiliates only, the one
    field its action names (status for activate and deactivate, tier,
    commissionRate) and updatedAt, which the timestamps option of the
    schema adds to every update, and nothing else: counters, referrals,
    commissions and lastActivityAt stay, no document is added or removed,
    and an affiliate that is not listed stays as it is, updatedAt
    included.  Any other action is answered 400 with the collection
    unchanged. *)
Theorem bulk_action_sets_one_field (db : gmap ObjectId Stored)
    (action : BulkAction) (affiliateIds : list ObjectId) (env : Env) :
  let out := bulk_action_route db action affiliateIds env in
  (forall other, action = OtherAction other ->
     out = (status_json 400
              {| success := false; message := Some "Invalid bulk action";
                 data := None; error := None |}, db))
  /\ ((forall other, action <> OtherAction other) -> http_status out.1 = 200%nat)
  /\ (forall k, db !! k = None -> out.2 !! k = None)
  /\ (forall k s, db !! k = Some s ->
        exists s',
          out.2 !! k = Some s'
          /\ (_id (document s) ∉ affiliateIds -> s' = s)
          /\ (_id (document s) ∈ affiliateIds ->
              (forall other, action <> OtherAction other) ->
              document s' = bulk_set action (document s)
              /\ updatedAt s' = now env)
          /\ (let a := document s in
              let a' := document s' in
              (stats a', referrals a', commissions a', lastActivityAt a')
              = (stats a, referrals a, commissions a, lastActivityAt a)
              /\ (_id a', name a', email a', affiliateId a', referralCode a')
                 = (_id a, name a, email a, affiliateId a, referralCode a))).
Proof.
  intros out. split; [|split; [|split]].
  - intros other ->. reflexivity.
  - intros Hknown. subst out. unfold bulk_action_route.
    destruct action; try reflexivity. now destruct (Hknown action).
  - intros k Hk. subst out. rewrite bulk_route_db, lookup_fmap, Hk. reflexivity.
  - intros k s Hk. exists (bulk_apply action affiliateIds (now env) s).
    split; [subst out; rewrite bulk_route_db, lookup_fmap, Hk; reflexivity|].
    unfold bulk_apply. destruct (listed affiliateIds s) eqn:El.
    + apply listed_spec in El.
      split; [contradiction|].
      split; [intros _ Hknown; destruct action; try (split; reflexivity);
              now destruct (Hknown action)|].
      destruct action; split; reflexivity.
    + split; [now destruct action|]. split; [|destruct action; split; reflexivity].
      intros Hin. apply listed_spec in Hin. congruence.
Qed.

Lemma bulk_action_sets_one_field_witness :
  let out := bulk_action_route Samples.stored_program Deactivate ["a2"; "a7"]
               (Examples.env_at 900 "-") in
  (status <$> (document <$> out.2 !! "a2")) = Some "inactive"
  /\ (updatedAt <$> out.2 !! "a2") = Some 900%Z
  /\ out.2 !! "a1" = Samples.stored_program !! "a1".
Proof.
  intros out. subst out.
  destruct (bulk_action_sets_one_field Samples.stored_program Deactivate ["a2"; "a7"]
              (Examples.env_at 900 "-")) as (_ & _ & _ & Hdoc).
  destruct (Hdoc "a2" {| document := Samples.grace; updatedAt := 100%Z |} eq_refl)
    as (s' & -> & _ & Hin & _).
  destruct (Hdoc "a1" {| document := Examples.ada_pending; updatedAt := 100%Z |}
              eq_refl) as (s1 & -> & Hout & _).
  destruct Hin as [Hd Hu].
  { apply (listed_spec ["a2"; "a7"] {| document := Samples.grace; updatedAt := 100%Z |}).
    reflexivity. }
  { discriminate. }
  cbn [fmap option_fmap option_map]. rewrite Hd, Hu.
  split; [reflexivity|]. split; [reflexivity|].
  rewrite Hout; [reflexivity|]. intros Hin1.
  apply (listed_spec ["a2"; "a7"]
           {| document := Examples.ada_pending; updatedAt := 100%Z |}) in Hin1.
  discriminate Hin1.
Defined.

(** X13. Repeating a bulk action with the same action and the same ids at
    another time leaves every affiliate as the first run left it and moves
    only updatedAt, on the listed documents, to the time of the second
    run; it matches as many documents as the first run and, because
    updatedAt changes, reports every matched document as modified again;
    no run reports more modified than matched documents. *)
Theorem bulk_action_twice (db : gmap ObjectId Stored) (action : BulkAction)
    (affiliateIds : list ObjectId) (env1 env2 : Env) (r1 r2 : UpdateResult)
    (db1 db2 : gmap ObjectId Stored) :
  bulk_update action affiliateIds env1 db = Some (r1, db1) ->
  bulk_update action affiliateIds env2 db1 = Some (r2, db2) ->
  now env1 <> now env2 ->
  document <$> db2 = document <$> db1
  /\ (forall k s, db1 !! k = Some s ->
        exists s', db2 !! k = Some s'
                   /\ updatedAt s'
                      = if listed affiliateIds s then now env2 else updatedAt s)
  /\ matchedCount r2 = matchedCount r1
  /\ modifiedCount r2 = matchedCount r2
  /\ (0 <= modifiedCount r1 <= matchedCount r1)%Z.
Proof.
  intros H1 H2 Hne.
  pose proof (bulk_update_db _ _ _ _ _ _ H1) as [Hdb1 Hm1].
  pose proof (bulk_update_db _ _ _ _ _ _ H2) as [Hdb2 Hm2].
  assert (Hknown : forall other, action <> OtherAction other)
    by (intros other ->; discriminate).
  split; [|split; [|split; [|split]]].
  - rewrite Hdb2, Hdb1, <- !map_fmap_compose. apply map_fmap_ext.
    intros k s _. cbn. unfold bulk_apply at 1. rewrite bulk_apply_listed.
    unfold bulk_apply.
    destruct action; try (now destruct (Hknown action));
      destruct (listed affiliateIds s); reflexivity.
  - intros k s Hk. rewrite Hdb2, lookup_fmap, Hk. cbn. eexists. split; [reflexivity|].
    unfold bulk_apply.
    destruct action; try (now destruct (Hknown action));
      destruct (listed affiliateIds s); reflexivity.
  - rewrite Hm2, Hm1, Hdb1. apply countDocuments_fmap.
    intros s. apply bulk_apply_listed.
  - rewrite Hm2. unfold bulk_update, updateMany in H2.
    assert (Hstamp : forall k s, db1 !! k = Some s -> listed affiliateIds s = true ->
                                 (updatedAt s =? now env2)%Z = false).
    { intros k s Hk Hl. rewrite Hdb1, lookup_fmap in Hk.
      destruct (db !! k) as [s0|]; [|discriminate]. injection Hk as <-.
      rewrite bulk_apply_listed in Hl. unfold bulk_apply. rewrite Hl.
      destruct action; try (now destruct (Hknown action));
        cbn [stamped updatedAt]; now apply Z.eqb_neq. }
    destruct action; try discriminate; injection H2 as <- _;
      cbn [modifiedCount]; apply countDocuments_ext; intros k s Hk;
      destruct (listed affiliateIds s) eqn:El; try reflexivity;
      unfold has_both; rewrite (Hstamp k s Hk El); now rewrite andb_false_r.
  - unfold bulk_update, updateMany in H1.
    destruct action; try discriminate; injection H1 as <- _;
      cbn [modifiedCount matchedCount];
      (split; [unfold countDocuments; lia|]);
      apply countDocuments_le; intros d Hd; now apply andb_true_iff in Hd as [Hd _].
Qed.

Lemma bulk_action_twice_witness :
  exists r1 db1 r2 db2,
    bulk_update Activate ["a1"; "a3"] (Examples.env_at 900 "-") Samples.stored_program
    = Some (r1, db1)
    /\ bulk_update Activate ["a1"; "a3"] (Examples.env_at 950 "-") db1 = Some (r2, db2)
    /\ modifiedCount r1 = 2%Z /\ matchedCount r1 = 2%Z
    /\ modifiedCount r2 = 2%Z
    /\ document <$> db2 = document <$> db1.
Proof.
  destruct (bulk_update Activate ["a1"; "a3"] (Examples.env_at 900 "-")
              Samples.stored_program) as [[r1 db1]|] eqn:E1; [|discriminate].
  destruct (bulk_update Activate ["a1"; "a3"] (Examples.env_at 950 "-") db1)
    as [[r2 db2]|] eqn:E2; [|discriminate].
  destruct (bulk_action_twice Samples.stored_program Activate ["a1"; "a3"]
              (Examples.env_at 900 "-") (Examples.env_at 950 "-") r1 r2 db1 db2 E1 E2
              ltac:(discriminate)) as (Hsame & _ & Hm & Hmod & _).
  exists r1, db1, r2, db2. split; [reflexivity|]. split; [exact E2|].
  assert (Hr1 : modifiedCount r1 = 2%Z /\ matchedCount r1 = 2%Z).
  { injection E1 as <- _. split; vm_compute; reflexivity. }
  destruct Hr1 as [Hr1 Hr1'].
  split; [exact Hr1|]. split; [exact Hr1'|].
  split; [congruence|exact Hsame].
Defined.

End AffiliateAdminProperties.

Module CreationProperties.
Import Affiliate AffiliateRoutes Mongo MongoFacts CollectionFacts.

(** X14. POST / (create affiliate) never stores a document.  The affiliate
    the handler builds has no affiliateId and no referralCode; the schema
    requires both, and the validators run before the pre-save hook that
    would generate the affiliateId.  So the document does not validate,
    whatever the body, and the handler answers 409 when an affiliate has
    the trimmed, lower-cased email and 500 with message
    "Error creating affiliate" otherwise, never 201, and leaves the
    collection as it was, whether or not the write itself would resolve. *)
Theorem create_route_never_stores (save_error : Affiliate -> string)
    (db : gmap ObjectId Affiliate) (b : CreateBody) (env : Env) (write : Outcome) :
  let out := create_route save_error db b env write in
  validates (new_Affiliate b env) = false
  /\ affiliateId (new_Affiliate b env) = ""
  /\ referralCode (new_Affiliate b env) = ""
  /\ out.2 = db
  /\ (http_status out.1 = 409%nat \/ http_status out.1 = 500%nat)
  /\ http_status out.1 <> 201%nat
  /\ (http_status out.1 = 409%nat <->
      Mongo.some_document
        (fun a => email a = JsString.trim (JsString.toLowerCase (cb_email b))) db)
  /\ (http_status out.1 = 500%nat ->
      exists e,
        out.1 = status_json 500
                  {| success := false; message := Some "Error creating affiliate";
                     data := None; error := Some e |}).
Proof.
  intros out.
  assert (Hv : validates (new_Affiliate b env) = false).
  { unfold validates.
    cbn [affiliateId new_Affiliate JsString.falsy negb].
    now rewrite andb_false_r. }
  split; [exact Hv|]. split; [reflexivity|]. split; [reflexivity|].
  subst out.
  destruct (RouteFacts.create_route_answers save_error db b env write)
    as [[a [Ha ->]]|[e [Hnone ->]]]; cbn [fst snd http_status status_json].
  - split; [reflexivity|]. split; [now left|]. split; [discriminate|].
    split; [|discriminate]. split; [|reflexivity]. intros _.
    apply findOne_Some in Ha as [[k Hk] He].
    exists k, a. split; [exact Hk|]. now apply String.eqb_eq in He.
  - split; [reflexivity|]. split; [now right|]. split; [discriminate|].
    split; [|intros _; now exists e]. split; [discriminate|].
    intros (k & a & Hk & He). exfalso.
    pose proof (findOne_None _ _ Hnone k a Hk) as Hno.
    cbv beta in Hno. apply String.eqb_neq in Hno. contradiction.
Qed.

Lemma create_route_never_stores_witness :
  let b := {| cb_name := "Alan T"; cb_email := "Alan@Example.org"; cb_tier := None;
              cb_commissionRate := None; cb_adminNotes := None; cb_tags := [] |} in
  let out := create_route Examples.refusal Samples.program b
               (Examples.env_at 8000 "a9") Resolved in
  http_status out.1 = 500%nat /\ out.2 = Samples.program.
Proof.
  intros b out.
  destruct (create_route_never_stores Examples.refusal Samples.program b
              (Examples.env_at 8000 "a9") Resolved) as (_ & _ & _ & Hdb & _).
  split; [vm_compute; reflexivity|exact Hdb].
Defined.

End CreationProperties.

(** * The user routes *)

Module UserFacts.
Import Mongo MongoFacts CollectionFacts.

Lemma toLowerCase_empty s : JsString.toLowerCase s = "" <-> s = "".
Proof. destruct s; split; intros H; try reflexivity; discriminate H. Qed.

Lemma falsy_false s : JsString.falsy s = false <-> s <> "".
Proof.
  destruct s; cbn [JsString.falsy]; split; intros H;
    first [discriminate | congruence | reflexivity].
Qed.

Lemma missing_false x :
  User.missing x = false <-> exists s, x = Some s /\ s <> "".
Proof.
  destruct x as [s|]; cbn [User.missing].
  - rewrite falsy_false. split; [intros H; now exists s|now intros (s' & [= <-] & H)].
  - split; [discriminate|now intros (s & H & _)].
Qed.

(* a lookup that only the inserted document satisfies finds it *)
Lemma findOne_insert_unique {A} (p : A -> bool) k d (db : gmap ObjectId A) :
  p d = true ->
  (forall k' d', db !! k' = Some d' -> p d' = false) ->
  findOne p (<[k := d]> db) = Some d.
Proof.
  intros Hd Hothers.
  destruct (findOne_is_Some (<[k := d]> db) p) as [d' Hd'].
  { exists k, d. split; [apply lookup_insert_eq|exact Hd]. }
  rewrite Hd'. f_equal.
  apply findOne_Some in Hd' as [[k' Hk'] Hp].
  destruct (decide (k = k')) as [<-|Hne].
  - rewrite lookup_insert_eq in Hk'. congruence.
  - rewrite lookup_insert_ne in Hk' by exact Hne.
    rewrite (Hothers k' d' Hk') in Hp. discriminate.
Qed.

Lemma is_space_lower_char c :
  JsString.is_space (JsString.lower_char c) = JsString.is_space c.
Proof.
  unfold JsString.lower_char.
  destruct (JsString.is_upper_letter c) eqn:E; [|reflexivity].
  unfold JsString.is_upper_letter in E. apply andb_true_iff in E as [E1 E2].
  apply Nat.leb_le in E1, E2. unfold JsString.is_space.
  rewrite nat_ascii_embedding by lia.
  transitivity false; [|symmetry]; apply orb_false_iff; split;
    try (apply Nat.eqb_neq; lia);
    apply andb_false_iff; right; apply Nat.leb_gt; lia.
Qed.

Lemma toLowerCase_trim_start s :
  JsString.toLowerCase (JsString.trim_start s)
  = JsString.trim_start (JsString.toLowerCase s).
Proof.
  unfold JsString.toLowerCase.
  induction s as [|c s IH]; cbn [JsString.trim_start JsString.map_chars];
    [reflexivity|].
  rewrite is_space_lower_char. destruct (JsString.is_space c); [exact IH|reflexivity].
Qed.

Lemma toLowerCase_trim_end s :
  JsString.toLowerCase (JsString.trim_end s)
  = JsString.trim_end (JsString.toLowerCase s).
Proof.
  unfold JsString.toLowerCase.
  induction s as [|c s IH]; cbn [JsString.trim_end JsString.map_chars];
    [reflexivity|].
  rewrite <- IH, is_space_lower_char.
  destruct (JsString.trim_end s) as [|c' t]; cbn [JsString.map_chars].
  - now destruct (JsString.is_space c).
  - reflexivity.
Qed.

Lemma toLowerCase_trim s :
  JsString.toLowerCase (JsString.trim s) = JsString.trim (JsString.toLowerCase s).
Proof.
  unfold JsString.trim. now rewrite toLowerCase_trim_end, toLowerCase_trim_start.
Qed.

Lemma valid_role_in_enum r :
  User.includes ["admin"; "main_admin"; "support"; "customer"; "client"] r = true ->
  r ∈ User.role_enum.
Proof.
  intros H. apply RouteFacts.includes_elem in H.
  repeat (apply elem_of_cons in H as [->|H];
          [apply RouteFacts.includes_elem; reflexivity|]).
  now apply elem_of_nil in H.
Qed.

End UserFacts.

Module UserProperties.
Import User Auth Mongo MongoFacts CollectionFacts UserFacts.

(* what a 201 from POST /create-user (users routes) implies *)
Lemma create_user_201 bcrypt_hash save_error db req_user_id b env write :
  http_status (create_user bcrypt_hash save_error db req_user_id b env write).1
  = 201%nat ->
  exists requestingUser name_ email_ password_ role_ u,
    db !! req_user_id = Some requestingUser
    /\ role requestingUser = "main_admin"
    /\ (cu_name b = Some name_ /\ name_ <> "")
    /\ (cu_email b = Some email_ /\ email_ <> "")
    /\ (cu_password b = Some password_ /\ password_ <> "")
    /\ (cu_role b = Some role_
        /\ includes ["admin"; "main_admin"; "support"; "customer"; "client"]
             (JsString.toLowerCase role_) = true)
    /\ findOne (fun u => String.eqb (email u) (JsString.toLowerCase email_)) db = None
    /\ write = Resolved
    /\ (_id u = newObjectId env
        /\ name u = JsString.trim name_
        /\ email u = JsString.toLowerCase (JsString.trim (JsString.toLowerCase email_))
        /\ password u = bcrypt_hash password_
        /\ role u = JsString.toLowerCase role_
        /\ status u = or_else (cu_status b) "active")
    /\ includes status_enum (status u) = true
    /\ create_user bcrypt_hash save_error db req_user_id b env write
       = (status_json 201 (Created "User created successfully." (without_password u)),
          <[newObjectId env := u]> db).
Proof.
  unfold create_user, findById.
  destruct (db !! req_user_id) as [requestingUser|] eqn:Hreq; [|discriminate].
  destruct (String.eqb (role requestingUser) "main_admin") eqn:Hadmin;
    cbn [negb]; [|discriminate].
  destruct (missing (cu_name b) || missing (cu_email b)
            || missing (cu_password b) || missing (cu_role b)) eqn:Hmiss;
    [discriminate|].
  apply orb_false_iff in Hmiss as [Hmiss Hr].
  apply orb_false_iff in Hmiss as [Hmiss Hp].
  apply orb_false_iff in Hmiss as [Hn He].
  apply missing_false in Hn as (name_ & Hn & Hn').
  apply missing_false in He as (email_ & He & He').
  apply missing_false in Hp as (password_ & Hp & Hp').
  apply missing_false in Hr as (role_ & Hr & Hr').
  rewrite Hn, He, Hp, Hr. cbn [from_option id].
  destruct (includes _ (JsString.toLowerCase role_)) eqn:Hvalid; cbn [negb];
    [|discriminate].
  destruct (findOne _ db) eqn:Hfind; [discriminate|].
  unfold cast_email in Hfind. rewrite JsStringFacts.toLowerCase_idem in Hfind.
  unfold insert, save_new.
  match goal with
  | |- context [negb (validates ?u)] =>
      destruct (validates u) eqn:Hv; cbn [negb]; [|discriminate];
      destruct (email_taken db u); [discriminate|]
  end.
  destruct write as [|e]; [|discriminate].
  intros _. apply String.eqb_eq in Hadmin.
  unfold validates in Hv. apply andb_true_iff in Hv as [_ Hstatus].
  cbn [status] in Hstatus.
  eexists requestingUser, name_, email_, password_, role_, _.
  split; [reflexivity|]. split; [exact Hadmin|].
  split; [split; [reflexivity|exact Hn']|].
  split; [split; [reflexivity|exact He']|].
  split; [split; [reflexivity|exact Hp']|].
  split; [split; [reflexivity|exact Hvalid]|].
  split; [exact Hfind|]. split; [reflexivity|].
  split; [|split]; [| |reflexivity]; [repeat split|exact Hstatus].
Qed.

Lemma create_user_not_201 bcrypt_hash save_error db req_user_id b env write :
  http_status (create_user bcrypt_hash save_error db req_user_id b env write).1
  <> 201%nat ->
  (create_user bcrypt_hash save_error db req_user_id b env write).2 = db.
Proof.
  unfold create_user, findById.
  destruct (db !! req_user_id) as [requestingUser|]; [|reflexivity].
  destruct (negb _); [reflexivity|].
  destruct (_ || _); [reflexivity|].
  destruct (negb _); [reflexivity|].
  destruct (findOne _ db); [reflexivity|].
  destruct (insert _ _ _ _); [|reflexivity].
  intros H. now contradiction H.
Qed.

(** X15. A user created through POST /create-user can log in: when the
    request is answered 201, the email has no surrounding white space and
    bcrypt.compare accepts a password against its own hash, POST /login with
    the lower-cased email and the same password on the resulting collection
    is answered 200 with a token for the new user, whose role is one of the
    schema's roles. *)
Theorem created_user_can_log_in (bcrypt_hash : string -> string)
    (bcrypt_compare : string -> string -> bool)
    (jwt_sign : ObjectId -> string -> string -> string)
    (save_error : User -> string)
    (db : gmap ObjectId User) (req_user_id : ObjectId) (b : CreateUserBody)
    (env : Env) (email_ password_ : string) :
  (forall x, bcrypt_compare x (bcrypt_hash x) = true) ->
  cu_email b = Some email_ ->
  cu_password b = Some password_ ->
  JsString.trim (JsString.toLowerCase email_) = JsString.toLowerCase email_ ->
  let out := create_user bcrypt_hash save_error db req_user_id b env Resolved in
  http_status out.1 = 201%nat ->
  exists session,
    login bcrypt_compare jwt_sign out.2
      {| lb_email := Some (JsString.toLowerCase email_);
         lb_password := Some password_ |}
    = json (Token (jwt_sign (newObjectId env) (JsString.toLowerCase email_)
                     (s_role session))
              session)
    /\ s_email session = JsString.toLowerCase email_
    /\ s_role session ∈ role_enum.
Proof.
  intros Hbcrypt He Hp Htrim out H201. subst out.
  destruct (create_user_201 _ _ _ _ _ _ _ H201)
    as (admin & name_ & e' & p' & role_ & u & _ & _ & _ & (He2 & Hne) & (Hp2 & Hnp)
        & (_ & Hvalid) & Hfind & _ & (Hid & _ & Hemail & Hpw & Hrole & _) & _ & ->).
  assert (e' = email_) as -> by congruence.
  assert (p' = password_) as -> by congruence.
  rewrite Htrim, JsStringFacts.toLowerCase_idem in Hemail.
  cbn [snd]. unfold login. cbn [lb_email lb_password missing from_option id].
  assert (Hf1 : JsString.falsy (JsString.toLowerCase email_) = false).
  { apply falsy_false. intros E. apply (proj1 (toLowerCase_empty _)) in E. contradiction. }
  assert (Hf2 : JsString.falsy password_ = false) by now apply falsy_false.
  rewrite Hf1, Hf2. cbn [orb].
  unfold cast_email. rewrite JsStringFacts.toLowerCase_idem.
  rewrite findOne_insert_unique.
  - unfold comparePassword. rewrite Hpw, Hbcrypt. cbn [negb].
    exists {| s_name := name u; s_email := email u; s_role := role u;
              s_status := status u; s_business := business u;
              s_position := position u |}.
    cbn [s_email s_role].
    split; [rewrite <- Hid, <- Hemail; reflexivity|].
    split; [exact Hemail|].
    rewrite Hrole. now apply valid_role_in_enum.
  - rewrite Hemail. apply String.eqb_refl.
  - now apply findOne_None_iff.
Qed.

Lemma created_user_can_log_in_witness :
  let out := create_user Examples.hash Examples.refusal Examples.users "u0"
               Samples.eve (Examples.env_at 7000 "u2") Resolved in
  http_status out.1 = 201%nat
  /\ exists session,
       login Samples.check Examples.sign out.2
         {| lb_email := Some "eve@example.org"; lb_password := Some "s3cret" |}
       = json (Token (Examples.sign "u2" "eve@example.org" (s_role session)) session).
Proof.
  intros out.
  assert (H201 : http_status out.1 = 201%nat) by (vm_compute; reflexivity).
  split; [exact H201|].
  assert (Hcheck : forall x, Samples.check x (Examples.hash x) = true)
    by (intros x; apply String.eqb_refl).
  destruct (created_user_can_log_in Examples.hash Samples.check Examples.sign
              Examples.refusal Examples.users "u0" Samples.eve (Examples.env_at 7000 "u2")
              "Eve@Example.org" "s3cret" Hcheck eq_refl eq_refl eq_refl H201)
    as (session & Hlogin & _).
  exists session. exact Hlogin.
Defined.

(** X16. POST /create-user changes the collection only with a 201 answer,
    and it gives that answer only to a requester who is a main
    administrator of the collection and only when the write resolves; the
    one document it then adds has the new _id, a role of the schema's role
    enum, a lower-case email and the bcrypt hash of the password, not the
    password. *)
Theorem create_user_needs_main_admin (bcrypt_hash : string -> string)
    (save_error : User -> string)
    (db : gmap ObjectId User) (req_user_id : ObjectId) (b : CreateUserBody)
    (env : Env) (write : Outcome) :
  let out := create_user bcrypt_hash save_error db req_user_id b env write in
  (http_status out.1 <> 201%nat -> out.2 = db)
  /\ (http_status out.1 = 201%nat ->
      (exists requestingUser,
          db !! req_user_id = Some requestingUser
          /\ role requestingUser = "main_admin")
      /\ write = Resolved
      /\ exists u password_,
           out.2 = <[newObjectId env := u]> db
           /\ _id u = newObjectId env
           /\ role u ∈ role_enum
           /\ JsString.toLowerCase (email u) = email u
           /\ cu_password b = Some password_
           /\ password u = bcrypt_hash password_).
Proof.
  intros out. split; [apply create_user_not_201|].
  intros H201. subst out.
  destruct (create_user_201 _ _ _ _ _ _ _ H201)
    as (admin & name_ & e' & p' & role_ & u & Hreq & Hadmin & _ & _ & (Hp2 & _)
        & (_ & Hvalid) & _ & Hw & (Hid & _ & Hemail & Hpw & Hrole & _) & _ & ->).
  split; [now exists admin|]. split; [exact Hw|].
  exists u, p'. cbn [snd]. split; [reflexivity|]. split; [exact Hid|].
  split; [rewrite Hrole; now apply valid_role_in_enum|].
  split; [rewrite Hemail; apply JsStringFacts.toLowerCase_idem|].
  split; [exact Hp2|exact Hpw].
Qed.

Lemma create_user_needs_main_admin_witness :
  (http_status (create_user Examples.hash Examples.refusal Examples.users "u1" Samples.eve
                  (Examples.env_at 7000 "u2") Resolved).1 <> 201%nat
   /\ (create_user Examples.hash Examples.refusal Examples.users "u1" Samples.eve
         (Examples.env_at 7000 "u2") Resolved).2 = Examples.users)
  /\ (http_status (create_user Examples.hash Examples.refusal Examples.users "u0" Samples.eve
                     (Examples.env_at 7000 "u2") Resolved).1 = 201%nat
      /\ exists requestingUser,
           Examples.users !! "u0" = Some requestingUser
           /\ role requestingUser = "main_admin").
Proof.
  split.
  - assert (H : http_status (create_user Examples.hash Examples.refusal Examples.users "u1" Samples.eve
                               (Examples.env_at 7000 "u2") Resolved).1 <> 201%nat)
      by (vm_compute; discriminate).
    split; [exact H|].
    exact (proj1 (create_user_needs_main_admin Examples.hash Examples.refusal
                    Examples.users "u1"
                    Samples.eve (Examples.env_at 7000 "u2") Resolved) H).
  - assert (H : http_status (create_user Examples.hash Examples.refusal Examples.users "u0" Samples.eve
                               (Examples.env_at 7000 "u2") Resolved).1 = 201%nat)
      by (vm_compute; reflexivity).
    split; [exact H|].
    exact (proj1 (proj2 (create_user_needs_main_admin Examples.hash Examples.refusal
                    Examples.users
                           "u0" Samples.eve (Examples.env_at 7000 "u2") Resolved) H)).
Defined.

Lemma not_in_enum (l : list string) (s : string) : includes l s = false -> s ∉ l.
Proof. apply RouteFacts.includes_not_elem. Qed.

(** X17. The three routes that create users and the validators of the User
    schema, which run before a new document is written.  POST /register
    never stores a user: the document it builds has status 'Active', which
    is not in the schema's status enum (and role 'Client', not in the role
    enum, when the body has no role), so the save is rejected and the
    answer is 409 or 500, never 201, with the collection unchanged.  POST
    /create-user of the user routes answers 201 only when the requested
    status (default 'active') is in the status enum, and the document it
    then stores satisfies both enums.  The legacy POST /create-user of the
    admin routes answers 201 only when the requested role (default
    'client') is in the role enum, and stores status 'active'. *)
Theorem user_creation_and_schema_enums :
  (("Active" ∉ status_enum) /\ ("Client" ∉ role_enum))
  /\ (forall bcrypt_hash jwt_sign save_error db b env write,
      let out := register bcrypt_hash jwt_sign save_error db b env write in
      out.2 = db
      /\ (http_status out.1 = 409%nat \/ http_status out.1 = 500%nat)
      /\ http_status out.1 <> 201%nat)
  /\ (forall bcrypt_hash save_error db req_user_id b env write,
      let out := create_user bcrypt_hash save_error db req_user_id b env write in
      http_status out.1 = 201%nat ->
      or_else (cu_status b) "active" ∈ status_enum
      /\ exists u,
           out.2 !! newObjectId env = Some u
           /\ status u = or_else (cu_status b) "active"
           /\ conforms u)
  /\ (forall bcrypt_hash save_error db b env write,
      let out := legacy_create_user bcrypt_hash save_error db b env write in
      http_status out.1 = 201%nat ->
      default "client" (lg_role b) ∈ role_enum
      /\ exists u,
           out.2 !! newObjectId env = Some u
           /\ status u = "active"
           /\ conforms u).
Proof.
  split; [|split; [|split]].
  - split; apply not_in_enum; reflexivity.
  - intros bcrypt_hash jwt_sign save_error db b env write out. subst out.
    destruct (RouteFacts.register_answers bcrypt_hash jwt_sign save_error db b env
                write) as [[u [_ ->]]|[e [_ ->]]]; cbn [fst snd http_status status_json].
    + split; [reflexivity|]. split; [now left|discriminate].
    + split; [reflexivity|]. split; [now right|discriminate].
  - intros bcrypt_hash save_error db req_user_id b env write out H201. subst out.
    destruct (create_user_201 _ _ _ _ _ _ _ H201)
      as (admin & name_ & e' & p' & role_ & u & _ & _ & _ & _ & _
          & (_ & Hvalid) & _ & _ & (_ & _ & _ & _ & Hrole & Hstatus) & Henum & ->).
    assert (Hs : status u ∈ status_enum) by now apply RouteFacts.includes_elem.
    split; [now rewrite <- Hstatus|].
    exists u. cbn [snd]. split; [apply lookup_insert_eq|].
    split; [exact Hstatus|]. split; [|exact Hs].
    rewrite Hrole. now apply valid_role_in_enum.
  - intros bcrypt_hash save_error db b env write out H201. subst out.
    unfold legacy_create_user in *.
    destruct (findOne _ db); [discriminate|].
    unfold insert, save_new in *.
    match type of H201 with
    | context [negb (validates ?u)] =>
        destruct (validates u) eqn:Hv; cbn [negb] in *; [|discriminate];
        destruct (email_taken db u); [discriminate|]
    end.
    destruct write; [|discriminate].
    unfold validates in Hv. apply andb_true_iff in Hv as [Hv _].
    apply andb_true_iff in Hv as [_ Hrole]. cbn [role] in Hrole.
    apply RouteFacts.includes_elem in Hrole.
    split; [exact Hrole|].
    eexists. cbn [snd]. split; [apply lookup_insert_eq|].
    unfold conforms. cbn [pre_save set_password status role].
    split; [reflexivity|]. split; [exact Hrole|].
    apply RouteFacts.includes_elem. reflexivity.
Qed.

Lemma user_creation_and_schema_enums_witness :
  let out := create_user Examples.hash Examples.refusal Examples.users "u0"
               Samples.eve (Examples.env_at 7000 "u2") Resolved in
  http_status out.1 = 201%nat
  /\ exists u, out.2 !! "u2" = Some u /\ conforms u.
Proof.
  intros out.
  assert (H : http_status out.1 = 201%nat) by (vm_compute; reflexivity).
  split; [exact H|].
  destruct (proj1 (proj2 (proj2 user_creation_and_schema_enums)) Examples.hash
              Examples.refusal Examples.users "u0" Samples.eve
              (Examples.env_at 7000 "u2") Resolved H) as (_ & u & Hu & _ & Hc).
  exists u. split; [exact Hu|exact Hc].
Defined.

Lemma lower_emails_insert db k u :
  lower_emails db -> JsString.toLowerCase (email u) = email u ->
  lower_emails (<[k := u]> db).
Proof.
  intros Hdb Hu k' u' Hk'. destruct (decide (k = k')) as [<-|Hne].
  - rewrite lookup_insert_eq in Hk'. now injection Hk' as <-.
  - rewrite lookup_insert_ne in Hk' by exact Hne. eauto.
Qed.

(** X18. Stored emails stay in lower case: when every email of the users
    collection is in lower case, it still is after POST /register, after
    either POST /create-user and after PUT /customers/:id/status, whatever
    the request; and the same holds for the affiliates collection after
    POST / (create affiliate). *)
Theorem emails_stay_lower_case :
  (forall bcrypt_hash jwt_sign save_error db b env write,
      lower_emails db ->
      lower_emails (register bcrypt_hash jwt_sign save_error db b env write).2)
  /\ (forall bcrypt_hash save_error db req_user_id b env write,
      lower_emails db ->
      lower_emails (create_user bcrypt_hash save_error db req_user_id b env write).2)
  /\ (forall bcrypt_hash save_error db b env write,
      lower_emails db ->
      lower_emails (legacy_create_user bcrypt_hash save_error db b env write).2)
  /\ (forall db id status_,
      lower_emails db -> lower_emails (AdminRoutes.status_route db id status_).2)
  /\ (forall save_error db b env write,
      lower_affiliate_emails db ->
      lower_affiliate_emails
        (AffiliateRoutes.create_route save_error db b env write).2).
Proof.
  split; [|split; [|split; [|split]]].
  - intros bcrypt_hash jwt_sign save_error db b env write Hdb.
    destruct (RouteFacts.register_answers bcrypt_hash jwt_sign save_error db b env
                write) as [[u [_ ->]]|[e [_ ->]]]; exact Hdb.
  - intros bcrypt_hash save_error db req_user_id b env write Hdb.
    destruct (Nat.eq_dec
                (http_status
                   (create_user bcrypt_hash save_error db req_user_id b env write).1)
                201) as [H201|Hn].
    + destruct (create_user_201 _ _ _ _ _ _ _ H201)
        as (admin & name_ & e' & p' & role_ & u & _ & _ & _ & _ & _ & _ & _ & _
            & (_ & _ & Hemail & _) & _ & ->).
      cbn [snd]. apply lower_emails_insert; [exact Hdb|].
      rewrite Hemail. apply JsStringFacts.toLowerCase_idem.
    + now rewrite create_user_not_201.
  - intros bcrypt_hash save_error db b env write Hdb. unfold legacy_create_user.
    destruct (findOne _ db); [exact Hdb|].
    destruct (insert _ _ _ _); [|exact Hdb].
    cbn [snd]. apply lower_emails_insert; [exact Hdb|].
    apply JsStringFacts.toLowerCase_idem.
  - intros db id status_ Hdb. unfold AdminRoutes.status_route.
    destruct status_ as [s|]; [|exact Hdb].
    destruct (negb _); [exact Hdb|].
    unfold findByIdAndUpdate. destruct (db !! id) as [u|] eqn:Hu; [|exact Hdb].
    cbn [snd]. apply lower_emails_insert; [exact Hdb|]. exact (Hdb id u Hu).
  - intros save_error db b env write Hdb.
    destruct (RouteFacts.create_route_answers save_error db b env write)
      as [[a [_ ->]]|[e [_ ->]]]; exact Hdb.
Qed.

Lemma emails_stay_lower_case_witness :
  lower_emails Examples.users
  /\ lower_emails (create_user Examples.hash Examples.refusal Examples.users "u0"
                     Samples.eve (Examples.env_at 7000 "u2") Resolved).2.
Proof.
  assert (H : lower_emails Examples.users).
  { intros k u Hk.
    assert (Hin : (k, u) ∈ map_to_list Examples.users)
      by now apply elem_of_map_to_list.
    vm_compute in Hin.
    repeat (apply elem_of_cons in Hin as [Hin|Hin];
            [injection Hin as -> ->; reflexivity|]).
    now apply elem_of_nil in Hin. }
  split; [exact H|].
  apply (proj1 (proj2 emails_stay_lower_case)). exact H.
Defined.

(** X6. POST /login does not depend on the case of the email typed: the
    schema lower-cases the email of a query filter as it does the stored
    one, so a login with an email and a login with its lower-case form get
    the same answer; and when a user has the lower-cased email and
    bcrypt.compare accepts the password, the answer is 200 with a token
    signed over the _id, email and role of that user. *)
Theorem login_ignores_case (bcrypt_compare : string -> string -> bool)
    (jwt_sign : ObjectId -> string -> string -> string)
    (db : gmap ObjectId User) (email_ : string) (password_ : option string) :
  login bcrypt_compare jwt_sign db
    {| lb_email := Some email_; lb_password := password_ |}
  = login bcrypt_compare jwt_sign db
      {| lb_email := Some (JsString.toLowerCase email_); lb_password := password_ |}
  /\ (forall user p,
        email_ <> "" -> password_ = Some p -> p <> "" ->
        findOne (fun u => String.eqb (email u) (JsString.toLowerCase email_)) db
        = Some user ->
        bcrypt_compare p (password user) = true ->
        exists session,
          login bcrypt_compare jwt_sign db
            {| lb_email := Some email_; lb_password := password_ |}
          = json (Token (jwt_sign (_id user) (email user) (role user)) session)
          /\ s_email session = JsString.toLowerCase email_).
Proof.
  split.
  - unfold login. cbn [lb_email lb_password missing from_option id].
    unfold cast_email. rewrite JsStringFacts.toLowerCase_idem.
    assert (Hf : JsString.falsy (JsString.toLowerCase email_) = JsString.falsy email_)
      by now destruct email_.
    now rewrite Hf.
  - intros user p He -> Hp Hfind Hcmp.
    unfold login. cbn [lb_email lb_password missing from_option id].
    rewrite (proj2 (falsy_false email_) He), (proj2 (falsy_false p) Hp). cbn [orb].
    unfold cast_email. rewrite Hfind. unfold comparePassword. rewrite Hcmp.
    cbn [negb]. eexists. split; [reflexivity|]. cbn [s_email].
    apply findOne_Some in Hfind as [_ Hm]. now apply String.eqb_eq in Hm.
Qed.

Lemma login_ignores_case_witness :
  exists session,
    login Samples.check Examples.sign Examples.users
      {| lb_email := Some "CAROL@example.org"; lb_password := Some "h1" |}
    = json (Token (Examples.sign "u1" "carol@example.org" "customer") session)
    /\ s_email session = "carol@example.org".
Proof.
  exact (proj2 (login_ignores_case Samples.check Examples.sign Examples.users
                  "CAROL@example.org" (Some "h1"))
           Examples.carol "h1" ltac:(discriminate) eq_refl ltac:(discriminate)
           eq_refl eq_refl).
Defined.

End UserProperties.

(** * The list routes *)

Module ListingProperties.
Import Listing Mongo MongoFacts CollectionFacts.

(* whatever skip and limit are, a query answers with documents of its
   result set *)
Lemma exec_subset {A} (q : Query A) (c : gmap ObjectId A) (l : list A) (x : A) :
  exec q c = inr l -> x ∈ l -> x ∈ result_set q c.
Proof.
  unfold exec. destruct (q_skip q <? 0)%Z; [discriminate|].
  intros [= <-] Hx.
  assert (Hd : x ∈ drop (Z.to_nat (q_skip q)) (result_set q c)).
  { destruct (q_limit q =? 0)%Z; [exact Hx|].
    rewrite <- (take_drop (Z.to_nat (Z.abs (q_limit q)))). apply elem_of_app. now left. }
  rewrite <- (take_drop (Z.to_nat (q_skip q)) (result_set q c)).
  apply elem_of_app. now right.
Qed.

Lemma result_set_matches {A} (q : Query A) (c : gmap ObjectId A) (x : A) :
  selects (q_sort q) -> x ∈ result_set q c ->
  (exists k, c !! k = Some x) /\ q_matches q x = true.
Proof.
  intros Hsel Hx. apply Hsel in Hx. apply elem_of_filter in Hx as [Hd Hm].
  split; [now apply elem_of_documents|exact Hm].
Qed.

(** X19. A list response never carries a document outside its filter,
    whatever page and limit are: every file GET /files answers with belongs
    to the requesting user and, for a category other than 'all', to that
    category; every entry of GET /customers is a user of the collection
    whose role is 'customer'; every affiliate of GET / (affiliates) is in the
    collection and passes the status and tier filters of the query. *)
Theorem lists_answer_within_their_filter :
  (forall (File : Type) (userId category : File -> string) newest_first
          (db : gmap ObjectId File) req_user_id param_category query_limit query_page f,
      selects newest_first ->
      f ∈ files_of (SettingsRoutes.files_route userId category newest_first db
                      req_user_id param_category query_limit query_page) ->
      (exists k, db !! k = Some f)
      /\ userId f = req_user_id
      /\ (forall c, param_category = Some c -> c <> "" -> c <> "all" ->
                    category f = c))
  /\ (forall regex_i newest_first (db : gmap ObjectId User.User) q p,
      selects newest_first ->
      p ∈ customers_of (AdminRoutes.customers_route regex_i newest_first db q) ->
      exists k u, db !! k = Some u /\ p = User.without_password u
                  /\ User.role u = "customer"
                  /\ (forall s, AdminRoutes.cq_status q = Some s -> s <> "" ->
                                User.status u = s))
  /\ (forall regex_i order_by (db : gmap ObjectId Affiliate.Affiliate) q a,
      (forall field direction, selects (order_by field direction)) ->
      a ∈ affiliates_of (AffiliateRoutes.list_route regex_i order_by db q) ->
      (exists k, db !! k = Some a)
      /\ (forall s, AffiliateRoutes.lq_status q = Some s -> s <> "" ->
                    Affiliate.status a = s)
      /\ (forall t, AffiliateRoutes.lq_tier q = Some t -> t <> "" ->
                    Affiliate.tier a = t)).
Proof.
  split; [|split].
  - intros File userId category newest_first db req_user_id param_category
      query_limit query_page f Hsel Hf.
    unfold files_of, SettingsRoutes.files_route in Hf.
    destruct (exec _ db) as [e|files] eqn:E; cbn [body json status_json] in Hf;
      [now apply elem_of_nil in Hf|].
    apply (exec_subset _ _ _ _ E) in Hf.
    apply result_set_matches in Hf as [Hk Hm]; [|exact Hsel].
    cbn [q_matches Mongo.limit Mongo.skip SettingsRoutes.files_sorted Mongo.sort
         Mongo.find] in Hm.
    unfold SettingsRoutes.files_filter in Hm. apply andb_true_iff in Hm as [Hu Hc].
    split; [exact Hk|]. split; [now apply String.eqb_eq|].
    intros c -> Hne Hall. cbn [AffiliateRoutes.given] in Hc.
    apply UserFacts.falsy_false in Hne. rewrite Hne in Hc.
    apply String.eqb_neq in Hall. rewrite Hall in Hc. now apply String.eqb_eq.
  - intros regex_i newest_first db q p Hsel Hp.
    unfold customers_of, AdminRoutes.customers_route in Hp.
    destruct (exec _ db) as [e|customers] eqn:E; cbn [body json status_json] in Hp;
      [now apply elem_of_nil in Hp|].
    apply list_elem_of_fmap in Hp as (u & -> & Hu).
    apply (exec_subset _ _ _ _ E) in Hu.
    apply result_set_matches in Hu as [[k Hk] Hm]; [|exact Hsel].
    cbn [q_matches Mongo.limit Mongo.skip AdminRoutes.customers_sorted Mongo.sort
         Mongo.find] in Hm.
    unfold AdminRoutes.customers_filter in Hm.
    apply andb_true_iff in Hm as [Hm Hs]. apply andb_true_iff in Hm as [Hr _].
    exists k, u. split; [exact Hk|]. split; [reflexivity|].
    split; [now apply String.eqb_eq|].
    intros s Hq Hne. rewrite Hq in Hs. cbn [AffiliateRoutes.given] in Hs.
    apply UserFacts.falsy_false in Hne. rewrite Hne in Hs. now apply String.eqb_eq.
  - intros regex_i order_by db q a Hsel Ha.
    unfold affiliates_of, AffiliateRoutes.list_route in Ha.
    destruct (exec _ db) as [e|affiliates] eqn:E;
      cbn [body json status_json AffiliateRoutes.data AffiliateRoutes.affiliates] in Ha;
      [now apply elem_of_nil in Ha|].
    apply (exec_subset _ _ _ _ E) in Ha.
    apply result_set_matches in Ha as [Hk Hm]; [|apply Hsel].
    cbn [q_matches Mongo.limit Mongo.skip AffiliateRoutes.list_sorted Mongo.sort
         Mongo.find] in Hm.
    unfold AffiliateRoutes.list_filter in Hm.
    apply andb_true_iff in Hm as [Hm _]. apply andb_true_iff in Hm as [Hs Ht].
    split; [exact Hk|]. split.
    + intros s Hq Hne. rewrite Hq in Hs. cbn [AffiliateRoutes.given] in Hs.
      apply UserFacts.falsy_false in Hne. rewrite Hne in Hs. now apply String.eqb_eq.
    + intros t Hq Hne. rewrite Hq in Ht. cbn [AffiliateRoutes.given] in Ht.
      apply UserFacts.falsy_false in Hne. rewrite Hne in Ht. now apply String.eqb_eq.
Qed.

Lemma lists_answer_within_their_filter_witness :
  Listing.selects (@Examples.as_stored (string * string))
  /\ ("u1", "documents")
     ∈ files_of (SettingsRoutes.files_route fst snd Examples.as_stored
                   Examples.files "u1" None (Some 1%Z) (Some 2%Z))
  /\ exists k, Examples.files !! k = Some ("u1", "documents").
Proof.
  assert (Hsel : Listing.selects (@Examples.as_stored (string * string)))
    by (intros l x Hx; exact Hx).
  assert (Hin : ("u1", "documents")
                ∈ files_of (SettingsRoutes.files_route fst snd Examples.as_stored
                              Examples.files "u1" None (Some 1%Z) (Some 2%Z)))
    by (vm_compute; left).
  split; [exact Hsel|]. split; [exact Hin|].
  exact (proj1 (proj1 lists_answer_within_their_filter (string * string)%type
                  fst snd Examples.as_stored Examples.files "u1" None
                  (Some 1%Z) (Some 2%Z) ("u1", "documents") Hsel Hin)).
Defined.

(* consecutive slices of length n make up a prefix *)
Lemma chunks_take {A} (n : nat) (l : list A) (k : nat) :
  concat ((fun i => take n (drop ((i - 1) * n) l)) <$> seq 1 k) = take (k * n) l.
Proof.
  induction k as [|k IH]; [reflexivity|].
  rewrite seq_S, fmap_app, concat_app, IH. cbn [fmap list_fmap concat].
  rewrite app_nil_r. replace (1 + k - 1)%nat with k by lia.
  rewrite take_take_drop. f_equal. lia.
Qed.

(* the pages of GET /files put one after the other are the sorted result
   set *)
Lemma files_pages (File : Type) (userId category : File -> string)
    (newest_first : list File -> list File) (db : gmap ObjectId File)
    (req_user_id : ObjectId) (param_category : option string) (limit_ : Z) :
  (1 <= limit_)%Z ->
  (forall l, length (newest_first l) = length l) ->
  let cat := AffiliateRoutes.given param_category in
  let sorted :=
    result_set (SettingsRoutes.files_sorted userId category newest_first
                  req_user_id cat) db in
  let pages :=
    Math_ceil_div
      (countDocuments (SettingsRoutes.files_filter userId category req_user_id cat) db)
      limit_ in
  let page (p : nat) :=
    files_of (SettingsRoutes.files_route userId category newest_first db
                req_user_id param_category (Some limit_) (Some (Z.of_nat p))) in
  concat (page <$> seq 1 (Z.to_nat pages)) = sorted
  /\ (forall p, (1 <= p)%nat -> (Z.of_nat p < pages)%Z ->
                length (page p) = Z.to_nat limit_)
  /\ (forall p, (pages < Z.of_nat p)%Z -> page p = []).
Proof.
  intros Hl Hlen cat sorted pages page.
  assert (Hpage : forall p, (1 <= p)%nat ->
            page p = take (Z.to_nat limit_) (drop ((p - 1) * Z.to_nat limit_) sorted)).
  { intros p Hp. subst page. cbn beta.
    unfold files_of, SettingsRoutes.files_route, SettingsRoutes.parseInt_or.
    destruct (Z.eqb_spec limit_ 0) as [E|_]; [lia|].
    destruct (Z.eqb_spec (Z.of_nat p) 0) as [E|_]; [lia|].
    rewrite exec_slice; cbn [q_skip q_limit Mongo.skip Mongo.limit]; [|nia|lia].
    cbn [body json]. fold cat. fold sorted. f_equal. f_equal. nia. }
  assert (Htotal : countDocuments
                     (SettingsRoutes.files_filter userId category req_user_id cat) db
                   = Z.of_nat (length sorted)).
  { subst sorted. unfold result_set, countDocuments.
    cbn [q_sort q_matches SettingsRoutes.files_sorted Mongo.sort Mongo.find].
    now rewrite Hlen. }
  pose proof (Math_ceil_div_spec (Z.of_nat (length sorted)) limit_ ltac:(lia)) as Hceil.
  subst pages. rewrite Htotal.
  set (P := Math_ceil_div (Z.of_nat (length sorted)) limit_) in *.
  assert (HP : (0 <= P)%Z) by nia.
  split; [|split].
  - rewrite (list_fmap_ext page
               (fun i => take (Z.to_nat limit_)
                           (drop ((i - 1) * Z.to_nat limit_) sorted))).
    + rewrite chunks_take. apply take_ge. nia.
    + intros i p Hi. apply Hpage.
      apply lookup_seq in Hi. lia.
  - intros p Hp Hlt. rewrite (Hpage p Hp), length_take, length_drop. nia.
  - intros p Hgt. rewrite (Hpage p) by lia.
    rewrite drop_ge; [apply take_nil|]. nia.
Qed.


(** X20. The pages of GET /files partition the sorted result set: for a
    limit >= 1 and an ordering that keeps the number of documents, the
    pages 1 .. ceil(total / limit) put one after the other are the sorted
    result set, every page before the last one carries exactly limit files
    and every page after the last one is empty. *)
Theorem pages_partition_the_result_set (File : Type) (userId category : File -> string)
    (newest_first : list File -> list File) (db : gmap ObjectId File)
    (req_user_id : ObjectId) (param_category : option string) (limit_ : Z) :
  (1 <= limit_)%Z ->
  (forall l, length (newest_first l) = length l) ->
  let cat := AffiliateRoutes.given param_category in
  let sorted :=
    result_set (SettingsRoutes.files_sorted userId category newest_first
                  req_user_id cat) db in
  let pages :=
    Math_ceil_div
      (countDocuments (SettingsRoutes.files_filter userId category req_user_id cat) db)
      limit_ in
  let page (p : nat) :=
    files_of (SettingsRoutes.files_route userId category newest_first db
                req_user_id param_category (Some limit_) (Some (Z.of_nat p))) in
  concat (page <$> seq 1 (Z.to_nat pages)) = sorted
  /\ (forall p, (1 <= p)%nat -> (Z.of_nat p < pages)%Z ->
                length (page p) = Z.to_nat limit_)
  /\ (forall p, (pages < Z.of_nat p)%Z -> page p = []).
Proof. exact (files_pages File userId category newest_first db req_user_id
              param_category limit_). Qed.

Lemma pages_partition_the_result_set_witness :
  concat ((fun p => files_of (SettingsRoutes.files_route fst snd Examples.as_stored
                                Examples.files "u1" None (Some 1%Z)
                                (Some (Z.of_nat p))))
            <$> seq 1 2)
  = [("u1", "images"); ("u1", "documents")].
Proof.
  destruct (pages_partition_the_result_set (string * string)%type fst snd
              Examples.as_stored Examples.files "u1" None 1%Z ltac:(lia)
              (fun l => eq_refl)) as [H _].
  etransitivity; [exact H|]. vm_compute. reflexivity.
Defined.

End ListingProperties.

(** * The settings routes *)

Module SettingsFacts.
Import Mongo MongoFacts SettingsProfile.

Lemma by_user_spec uid s : by_user uid s = true <-> userId s = uid.
Proof. unfold by_user. apply String.eqb_eq. Qed.

Lemma findOne_by_user db k s :
  one_per_user db -> db !! k = Some s ->
  findOne (by_user (userId s)) db = Some s.
Proof.
  intros [_ Huniq] Hk.
  destruct (findOne_is_Some db (by_user (userId s))) as [d Hd].
  { exists k, s. split; [exact Hk|]. now apply by_user_spec. }
  rewrite Hd. f_equal.
  apply findOne_Some in Hd as [[k' Hk'] Hu]. apply by_user_spec in Hu.
  assert (k' = k) by (eapply Huniq; eassumption).
  subst k'. congruence.
Qed.

Lemma one_per_user_update db s s' :
  one_per_user db -> db !! _id s = Some s ->
  _id s' = _id s -> userId s' = userId s ->
  one_per_user (save s' db).
Proof.
  intros [Hkey Huniq] Hs Hid Hu. unfold save. rewrite Hid. split.
  - intros k d Hk. destruct (decide (_id s = k)) as [<-|Hne].
    + rewrite lookup_insert_eq in Hk. congruence.
    + rewrite lookup_insert_ne in Hk by exact Hne. eauto.
  - intros k1 k2 d1 d2 H1 H2 E.
    destruct (decide (_id s = k1)) as [<-|Hne1];
      destruct (decide (_id s = k2)) as [<-|Hne2]; [reflexivity| | |].
    + rewrite lookup_insert_eq in H1. rewrite lookup_insert_ne in H2 by exact Hne2.
      eapply Huniq; [exact Hs|exact H2|congruence].
    + rewrite lookup_insert_eq in H2. rewrite lookup_insert_ne in H1 by exact Hne1.
      eapply Huniq; [exact H1|exact Hs|congruence].
    + rewrite lookup_insert_ne in H1 by exact Hne1.
      rewrite lookup_insert_ne in H2 by exact Hne2. eauto.
Qed.

Lemma one_per_user_new db s' :
  one_per_user db -> db !! _id s' = None ->
  findOne (by_user (userId s')) db = None ->
  one_per_user (save s' db).
Proof.
  intros [Hkey Huniq] Hfresh Hnone. unfold save.
  pose proof (findOne_None _ _ Hnone) as Hno. split.
  - intros k d Hk. destruct (decide (_id s' = k)) as [<-|Hne].
    + rewrite lookup_insert_eq in Hk. congruence.
    + rewrite lookup_insert_ne in Hk by exact Hne. eauto.
  - intros k1 k2 d1 d2 H1 H2 E.
    destruct (decide (_id s' = k1)) as [<-|Hne1];
      destruct (decide (_id s' = k2)) as [<-|Hne2]; [reflexivity| | |].
    + rewrite lookup_insert_eq in H1. rewrite lookup_insert_ne in H2 by exact Hne2.
      exfalso. specialize (Hno _ _ H2).
      assert (Ht : by_user (userId s') d2 = true) by (apply by_user_spec; congruence).
      congruence.
    + rewrite lookup_insert_eq in H2. rewrite lookup_insert_ne in H1 by exact Hne1.
      exfalso. specialize (Hno _ _ H1).
      assert (Ht : by_user (userId s') d1 = true) by (apply by_user_spec; congruence).
      congruence.
    + rewrite lookup_insert_ne in H1 by exact Hne1.
      rewrite lookup_insert_ne in H2 by exact Hne2. eauto.
Qed.

Section Saved.
Variable new_Settings : ObjectId -> ObjectId -> Settings.
Hypothesis Hnew : constructs new_Settings.

Lemma current_ids db uid env :
  one_per_user db ->
  userId (current new_Settings db uid env) = uid
  /\ match findOne (by_user uid) db with
     | Some s => db !! _id s = Some s /\ current new_Settings db uid env = s
     | None => _id (current new_Settings db uid env) = newObjectId env
     end.
Proof.
  intros [Hkey _]. unfold current.
  destruct (findOne (by_user uid) db) as [s|] eqn:E.
  - apply findOne_Some in E as [[k Hk] Hu]. apply by_user_spec in Hu.
    split; [exact Hu|]. split; [|reflexivity].
    now rewrite (Hkey _ _ Hk).
  - split; apply Hnew.
Qed.

(* saving a revision of the document a route works on keeps one document
   per user, and the user's document is then the revision *)
Lemma save_current db uid env s' :
  one_per_user db -> db !! newObjectId env = None ->
  _id s' = _id (current new_Settings db uid env) ->
  userId s' = userId (current new_Settings db uid env) ->
  one_per_user (save s' db)
  /\ findOne (by_user uid) (save s' db) = Some s'.
Proof.
  intros Hone Hfresh Hid Hu.
  destruct (current_ids db uid env Hone) as [Hcu Hc].
  assert (Hone' : one_per_user (save s' db)).
  { destruct (findOne (by_user uid) db) as [s|] eqn:E.
    - destruct Hc as [Hs Hcs]. rewrite Hcs in Hid, Hu.
      now apply (one_per_user_update db s s').
    - apply one_per_user_new; [exact Hone|congruence|].
      rewrite Hu, Hcu. exact E. }
  split; [exact Hone'|].
  rewrite <- Hcu, <- Hu. apply (findOne_by_user _ (_id s')); [exact Hone'|].
  apply lookup_insert_eq.
Qed.

(* writing a document back as it is changes nothing *)
Lemma save_same db s : db !! _id s = Some s -> save s db = db.
Proof. intros Hs. unfold save. now apply insert_id. Qed.
End Saved.

Lemma or_string_truthy a b : truthy b = true -> truthy (or_string a b) = true.
Proof.
  intros Hb. destruct a as [s|]; [|exact Hb]. cbn [or_string].
  destruct (JsString.falsy s) eqn:E; [exact Hb|]. cbn [truthy]. now rewrite E.
Qed.

Lemma or_string_given a b : truthy a = true -> or_string a b = a.
Proof.
  destruct a as [s|]; [|discriminate]. cbn [truthy or_string].
  now destruct (JsString.falsy s).
Qed.

Lemma or_string_absent a b : truthy a = false -> or_string a b = b.
Proof.
  destruct a as [s|]; [|reflexivity]. cbn [truthy or_string].
  now destruct (JsString.falsy s).
Qed.

End SettingsFacts.

Module SettingsProperties.
Import Mongo MongoFacts SettingsProfile SettingsFacts.

(* a collection of one document, under its _id *)
Ltac singleton_one_per_user :=
  unfold SettingsSamples.stored; split;
  [ intros k s Hk; apply lookup_singleton_Some in Hk as [<- <-]; reflexivity
  | intros k1 k2 s1 s2 H1 H2 _;
    apply lookup_singleton_Some in H1 as [<- _];
    apply lookup_singleton_Some in H2 as [<- _]; reflexivity ].

(** X21. The settings routes keep one settings document per user: when
    every document sits under its _id, no user has two documents and the
    _id a new document would get is not in use, then after any of the six
    settings handlers (GET and PUT of business-profile, notifications and
    integrations), whatever the request body and whether or not the save
    is accepted, the same holds of the collection. *)
Theorem settings_stay_one_per_user (new_Settings : ObjectId -> ObjectId -> Settings)
    (db : gmap ObjectId Settings) (uid : ObjectId) (env : Env) (write : Outcome)
    (bp : BusinessProfile) (nf : NotificationFlags) (ib : IntegrationBody) :
  constructs new_Settings ->
  one_per_user db ->
  db !! newObjectId env = None ->
  one_per_user (get_business_profile new_Settings db uid env write).2
  /\ one_per_user (put_business_profile new_Settings db uid bp env write).2
  /\ one_per_user (get_notifications new_Settings db uid env write).2
  /\ one_per_user (put_notifications new_Settings db uid nf env write).2
  /\ one_per_user (get_integrations new_Settings db uid env write).2
  /\ one_per_user (put_integrations new_Settings db uid ib env write).2.
Proof.
  intros Hnew Hone Hfresh.
  pose proof (fun s' => save_current new_Settings Hnew db uid env s' Hone Hfresh)
    as Hsave.
  unfold current in Hsave.
  unfold get_business_profile, put_business_profile, get_notifications,
    put_notifications, get_integrations, put_integrations.
  destruct (findOne (by_user uid) db) as [s|] eqn:E; destruct write;
    cbn [snd fst];
    repeat match goal with
           | |- _ /\ _ => split
           | |- one_per_user db => exact Hone
           | |- one_per_user (save _ _) => apply Hsave; try reflexivity
           end.
  all: unfold switch_platform;
    repeat match goal with
           | |- context [match ?x with _ => _ end] => destruct x
           end; reflexivity.
Qed.

Lemma settings_stay_one_per_user_witness :
  one_per_user
    (put_integrations SettingsSamples.blank SettingsSamples.stored "u2"
       {| platform := Some "clover"; connected := Some true; storeId := None |}
       (SettingsSamples.at_id "s2") Resolved).2.
Proof.
  assert (Hone : one_per_user SettingsSamples.stored).
  { singleton_one_per_user. }
  exact (proj2 (proj2 (proj2 (proj2 (proj2
           (settings_stay_one_per_user SettingsSamples.blank SettingsSamples.stored
              "u2" (SettingsSamples.at_id "s2") Resolved
              {| bp_businessName := None; bp_businessEmail := None;
                 bp_businessPhone := None; bp_businessAddress := None;
                 bp_businessDescription := None |}
              {| nf_email := None; nf_sms := None; nf_order := None;
                 nf_marketing := None |}
              {| platform := Some "clover"; connected := Some true;
                 storeId := None |}
              (fun id user => conj eq_refl eq_refl) Hone eq_refl)))))).
Defined.

(** X22. PUT /notifications followed by GET /notifications: when the save
    of the PUT is accepted, the GET of the same user answers 200 with, for
    each of the four flags, the value the PUT carried, or, where the PUT
    carried none, the value of the document the PUT worked on (the user's
    document, or a new one with the defaults of the schema); the GET
    writes nothing. *)
Theorem put_then_get_notifications (new_Settings : ObjectId -> ObjectId -> Settings)
    (db : gmap ObjectId Settings) (uid : ObjectId) (b : NotificationFlags)
    (env env' : Env) (write' : Outcome) :
  constructs new_Settings ->
  one_per_user db ->
  db !! newObjectId env = None ->
  let before := current new_Settings db uid env in
  let db' := (put_notifications new_Settings db uid b env Resolved).2 in
  get_notifications new_Settings db' uid env' write'
  = (json (Notifications
             {| nf_email := if_defined (nf_email b) (emailNotifications before);
                nf_sms := if_defined (nf_sms b) (smsNotifications before);
                nf_order := if_defined (nf_order b) (orderNotifications before);
                nf_marketing :=
                  if_defined (nf_marketing b) (marketingNotifications before) |}),
     db').
Proof.
  intros Hnew Hone Hfresh before db'.
  subst db'. unfold put_notifications. cbn [snd]. fold (current new_Settings db uid env).
  fold before.
  match goal with |- context [save ?s' db] => set (s := s') end.
  destruct (save_current new_Settings Hnew db uid env s Hone Hfresh eq_refl eq_refl)
    as [_ Hfind].
  unfold get_notifications. rewrite Hfind. reflexivity.
Qed.

Lemma put_then_get_notifications_witness :
  get_notifications SettingsSamples.blank
    (put_notifications SettingsSamples.blank SettingsSamples.stored "u1"
       {| nf_email := None; nf_sms := Some true; nf_order := Some false;
          nf_marketing := None |} (SettingsSamples.at_id "s2") Resolved).2
    "u1" (SettingsSamples.at_id "s3") Resolved
  = (json (Notifications
             {| nf_email := Some true; nf_sms := Some true;
                nf_order := Some false; nf_marketing := Some false |}),
     (put_notifications SettingsSamples.blank SettingsSamples.stored "u1"
        {| nf_email := None; nf_sms := Some true; nf_order := Some false;
           nf_marketing := None |} (SettingsSamples.at_id "s2") Resolved).2).
Proof.
  assert (Hone : one_per_user SettingsSamples.stored).
  { singleton_one_per_user. }
  exact (put_then_get_notifications SettingsSamples.blank SettingsSamples.stored "u1"
           {| nf_email := None; nf_sms := Some true; nf_order := Some false;
              nf_marketing := None |}
           (SettingsSamples.at_id "s2") (SettingsSamples.at_id "s3") Resolved
           (fun id user => conj eq_refl eq_refl) Hone eq_refl).
Defined.

(** X23. PUT /business-profile cannot blank a field.  For a user who has a
    settings document, an accepted PUT stores, for each of the five profile
    fields, the value of the body when that is a non-empty string and the
    stored value otherwise (an absent field and the empty string alike), so
    a field that was set and not empty stays so; the next GET
    /business-profile answers with the stored document. *)
Theorem put_business_profile_keeps_fields
    (new_Settings : ObjectId -> ObjectId -> Settings)
    (db : gmap ObjectId Settings) (uid : ObjectId) (b : BusinessProfile)
    (env env' : Env) (write' : Outcome) (old : Settings) :
  constructs new_Settings ->
  one_per_user db ->
  findOne (by_user uid) db = Some old ->
  let db' := (put_business_profile new_Settings db uid b env Resolved).2 in
  exists s,
    get_business_profile new_Settings db' uid env' write' = (json (Document s), db')
    /\ (forall (given : BusinessProfile -> option string)
               (field : Settings -> option string),
          (given, field) ∈ [(bp_businessName, businessName);
                            (bp_businessEmail, businessEmail);
                            (bp_businessPhone, businessPhone);
                            (bp_businessAddress, businessAddress);
                            (bp_businessDescription, businessDescription)] ->
          (truthy (given b) = true -> field s = given b)
          /\ (truthy (given b) = false -> field s = field old)
          /\ (truthy (field old) = true -> truthy (field s) = true))
    /\ set_profile (businessName old) (businessEmail old) (businessPhone old)
         (businessAddress old) (businessDescription old) s = old.
Proof.
  intros Hnew Hone Hold db'.
  subst db'. unfold put_business_profile. rewrite Hold. cbn [snd].
  match goal with |- context [save ?s' db] => set (s := s') end.
  exists s.
  pose proof (findOne_Some _ _ _ Hold) as [[k Hk] Hu].
  destruct Hone as [Hkey Huniq].
  assert (Hs : db !! _id old = Some old) by now rewrite (Hkey _ _ Hk).
  assert (Hone' : one_per_user (save s db))
    by (apply (one_per_user_update db old s); [split; assumption|exact Hs|reflexivity..]).
  apply by_user_spec in Hu.
  assert (Hfind : findOne (by_user uid) (save s db) = Some s).
  { rewrite <- Hu. change (userId old) with (userId s).
    apply (findOne_by_user _ (_id s)); [exact Hone'|]. apply lookup_insert_eq. }
  split; [|split].
  - unfold get_business_profile. now rewrite Hfind.
  - intros given field Hin.
    repeat (apply elem_of_cons in Hin as [Hin|Hin];
            [injection Hin as -> ->; subst s; cbn [set_profile businessName
               businessEmail businessPhone businessAddress businessDescription];
             split; [apply or_string_given|split;
                     [apply or_string_absent|apply or_string_truthy]]|]).
    now apply elem_of_nil in Hin.
  - subst s. now destruct old.
Qed.

Lemma put_business_profile_keeps_fields_witness :
  exists s,
    get_business_profile SettingsSamples.blank
      (put_business_profile SettingsSamples.blank SettingsSamples.stored "u1"
         {| bp_businessName := Some ""; bp_businessEmail := None;
            bp_businessPhone := Some "555-0100"; bp_businessAddress := None;
            bp_businessDescription := Some "" |}
         (SettingsSamples.at_id "s2") Resolved).2
      "u1" (SettingsSamples.at_id "s3") Resolved
    = (json (Document s),
       (put_business_profile SettingsSamples.blank SettingsSamples.stored "u1"
          {| bp_businessName := Some ""; bp_businessEmail := None;
             bp_businessPhone := Some "555-0100"; bp_businessAddress := None;
             bp_businessDescription := Some "" |}
          (SettingsSamples.at_id "s2") Resolved).2)
    /\ businessName s = Some "Cafe Ada"
    /\ businessPhone s = Some "555-0100".
Proof.
  assert (Hone : one_per_user SettingsSamples.stored).
  { singleton_one_per_user. }
  destruct (put_business_profile_keeps_fields SettingsSamples.blank
              SettingsSamples.stored "u1"
              {| bp_businessName := Some ""; bp_businessEmail := None;
                 bp_businessPhone := Some "555-0100"; bp_businessAddress := None;
                 bp_businessDescription := Some "" |}
              (SettingsSamples.at_id "s2") (SettingsSamples.at_id "s3") Resolved
              SettingsSamples.cafe (fun id user => conj eq_refl eq_refl) Hone eq_refl)
    as (s & Hget & Hfields & _).
  exists s. split; [exact Hget|]. split.
  - apply (Hfields bp_businessName businessName); [left|reflexivity].
  - apply (Hfields bp_businessPhone businessPhone); [right; right; left|reflexivity].
Defined.

(** X24. PUT /integrations switches one platform.  For a user who has a
    settings document and an accepted save: a platform other than
    'ubereats', 'doordash', 'grubhub' and 'clover' (or none) is answered 200
    all the same and leaves the collection as it was; when the body
    carries a connected value, the next GET /integrations answers that
    value for the platform named and the stored values for the other
    platforms, and the store id is replaced only for 'ubereats' with a
    non-empty storeId. *)
Theorem put_integrations_switches_one
    (new_Settings : ObjectId -> ObjectId -> Settings)
    (db : gmap ObjectId Settings) (uid : ObjectId) (b : IntegrationBody)
    (env env' : Env) (write' : Outcome) (old : Settings) :
  constructs new_Settings ->
  one_per_user db ->
  findOne (by_user uid) db = Some old ->
  let put := put_integrations new_Settings db uid b env Resolved in
  let known := ["ubereats"; "doordash"; "grubhub"; "clover"] in
  http_status put.1 = 200
  /\ ((forall p, platform b = Some p -> p ∉ known) -> put.2 = db)
  /\ (is_Some (connected b) ->
      exists flags,
       get_integrations new_Settings put.2 uid env' write'
       = (json (Integrations flags), put.2)
       /\ (forall (name : string) (flag : IntegrationFlags -> option bool),
             (name, flag) ∈ [("ubereats", if_uberEatsConnected);
                             ("doordash", if_doorDashConnected);
                             ("grubhub", if_grubhubConnected);
                             ("clover", if_cloverConnected)] ->
             flag flags
             = if decide (platform b = Some name) then connected b
               else flag (integrations_of old))
       /\ if_uberEatsStoreId flags
          = if decide (platform b = Some "ubereats")
            then (if truthy (storeId b) then storeId b else uberEatsStoreId old)
            else uberEatsStoreId old).
Proof.
  intros Hnew Hone Hold put known.
  subst put. unfold put_integrations. rewrite Hold. cbn [fst snd json http_status].
  pose proof (findOne_Some _ _ _ Hold) as [[k Hk] Hu].
  pose proof Hone as [Hkey Huniq].
  assert (Hs : db !! _id old = Some old) by now rewrite (Hkey _ _ Hk).
  apply by_user_spec in Hu.
  set (s := switch_platform b old).
  assert (Hids : _id s = _id old /\ userId s = userId old).
  { subst s. unfold switch_platform.
    repeat match goal with
           | |- context [match ?x with _ => _ end] => destruct x
           end; split; reflexivity. }
  destruct Hids as [Hid Huid].
  assert (Hone' : one_per_user (save s db))
    by now apply (one_per_user_update db old s).
  assert (Hfind : findOne (by_user uid) (save s db) = Some s).
  { rewrite <- Hu, <- Huid.
    apply (findOne_by_user _ (_id s)); [exact Hone'|]. apply lookup_insert_eq. }
  split; [reflexivity|]. split.
  - intros Hunknown.
    assert (Hsame : s = old).
    { subst s. unfold switch_platform.
      destruct (platform b) as [p|]; [|reflexivity].
      specialize (Hunknown p eq_refl).
      destruct (decide (p ∈ known)) as [Hin|_]; [contradiction|].
      subst known.
      repeat match goal with
             | |- context [match ?x with _ => _ end] => destruct x
             end; try reflexivity; exfalso; apply Hunknown;
        repeat (first [left; reflexivity | right]). }
    rewrite Hsame. now apply save_same.
  - intros _. exists (integrations_of s). split; [|split].
    + unfold get_integrations. now rewrite Hfind.
    + intros name flag Hin.
      repeat (apply elem_of_cons in Hin as [Hin|Hin];
              [injection Hin as -> ->;
               subst s; unfold switch_platform;
               destruct (platform b) as [p|];
               [|destruct (decide _) as [?|_]; [discriminate|reflexivity]];
               destruct (decide _) as [[= ->]|Hne]; [reflexivity|];
               repeat match goal with
                      | |- context [match ?x with _ => _ end] => destruct x
                      end; try reflexivity; exfalso; apply Hne; reflexivity|]).
      now apply elem_of_nil in Hin.
    + subst s. unfold switch_platform.
      destruct (platform b) as [p|];
        [|destruct (decide _) as [?|_]; [discriminate|reflexivity]].
      destruct (decide _) as [[= ->]|Hne].
      * cbn. destruct (storeId b) as [i|]; [|reflexivity].
        cbn [truthy]. now destruct (JsString.falsy i).
      * repeat match goal with
               | |- context [match ?x with _ => _ end] => destruct x
               end; try reflexivity; exfalso; apply Hne; reflexivity.
Qed.

Lemma put_integrations_switches_one_witness :
  (put_integrations SettingsSamples.blank SettingsSamples.stored "u1"
     {| platform := Some "UberEats"; connected := Some true; storeId := Some "42" |}
     (SettingsSamples.at_id "s2") Resolved).2
  = SettingsSamples.stored.
Proof.
  assert (Hone : one_per_user SettingsSamples.stored).
  { singleton_one_per_user. }
  apply (put_integrations_switches_one SettingsSamples.blank SettingsSamples.stored
           "u1" {| platform := Some "UberEats"; connected := Some true;
                   storeId := Some "42" |}
           (SettingsSamples.at_id "s2") (SettingsSamples.at_id "s3") Resolved
           SettingsSamples.cafe (fun id user => conj eq_refl eq_refl) Hone eq_refl).
  intros p [= <-] Hin.
  repeat (apply elem_of_cons in Hin as [Hin|Hin]; [discriminate|]).
  now apply elem_of_nil in Hin.
Defined.

End SettingsProperties.

(** * File records *)

Module FileFacts.
Import Listing Mongo MongoFacts CollectionFacts FileStore.

Lemma category_of_known m : category_of m ∈ categories.
Proof.
  unfold category_of, categories.
  repeat match goal with
         | |- context [if ?b then _ else _] => destruct b
         end;
    repeat (apply elem_of_cons; first [left; reflexivity | right]).
Qed.

Lemma owned_spec key uid f :
  owned key uid f = true <-> fileKey f = key /\ userId f = uid.
Proof.
  unfold owned. rewrite andb_true_iff, !String.eqb_eq. reflexivity.
Qed.

(* a list answers with records of the collection that belong to the user *)
Lemma list_files_within order db uid cat ql qp f :
  selects order -> f ∈ list_files order db uid cat ql qp ->
  (exists k, db !! k = Some f) /\ userId f = uid.
Proof.
  intros Hsel Hf. unfold list_files, files_of, SettingsRoutes.files_route in Hf.
  destruct (exec _ db) as [e|files] eqn:E; cbn [body json status_json] in Hf;
    [now apply elem_of_nil in Hf|].
  apply (ListingProperties.exec_subset _ _ _ _ E) in Hf.
  apply ListingProperties.result_set_matches in Hf as [Hk Hm]; [|exact Hsel].
  cbn [q_matches Mongo.limit Mongo.skip SettingsRoutes.files_sorted Mongo.sort
       Mongo.find] in Hm.
  unfold SettingsRoutes.files_filter in Hm. apply andb_true_iff in Hm as [Hu _].
  split; [exact Hk|]. now apply String.eqb_eq.
Qed.

(* a record of the sorted result set is on one of the pages *)
Lemma on_some_page order db uid cat limit_ f :
  (1 <= limit_)%Z ->
  (forall l, length (order l) = length l) ->
  f ∈ result_set (SettingsRoutes.files_sorted userId category order uid
                    (AffiliateRoutes.given cat)) db ->
  exists p, (1 <= p)%nat
            /\ f ∈ list_files order db uid cat (Some limit_) (Some (Z.of_nat p)).
Proof.
  intros Hl Hlen Hf.
  destruct (ListingProperties.files_pages File userId category order db uid cat
              limit_ Hl Hlen) as [Hcat _].
  cbn zeta in Hcat. rewrite <- Hcat in Hf.
  apply list_elem_of_In, in_concat in Hf as (page & Hpage & Hin).
  apply list_elem_of_In, list_elem_of_fmap in Hpage as (p & -> & Hp).
  apply elem_of_seq in Hp. exists p. split; [lia|].
  now apply list_elem_of_In.
Qed.

End FileFacts.

Module FileProperties.
Import Listing Mongo MongoFacts CollectionFacts FileStore FileFacts.

(** X25. An uploaded file is listed to its owner and to nobody else.  When
    POST /upload-file carries a file and the save is accepted under an _id
    not in use, the answer is 200; the new record belongs to the uploader,
    is private and has one of the five categories, chosen from the mime
    type; the records already stored stay as they are; for every limit >= 1
    the record is on some page of GET /files, GET /files/all and GET
    /files/<its category> of the uploader; and no list of another user
    carries it.  The ordering of the list is any permutation. *)
Theorem uploaded_file_is_listed (getFileUrl : string -> string)
    (order : list File -> list File) (db : gmap ObjectId File)
    (uid : ObjectId) (f : Upload) (env : Env) (limit_ : Z) :
  (forall l, order l ≡ₚ l) ->
  keyed db ->
  db !! newObjectId env = None ->
  (1 <= limit_)%Z ->
  let up := upload_file getFileUrl db uid (Some f) env Resolved in
  let record := new_File getFileUrl uid f env in
  http_status up.1 = 200
  /\ keyed up.2
  /\ up.2 !! _id record = Some record
  /\ (forall k d, db !! k = Some d -> up.2 !! k = Some d)
  /\ userId record = uid /\ accessLevel record = "private"
  /\ category record ∈ categories
  /\ (forall c, c ∈ [None; Some "all"; Some (category record)] ->
        exists p, (1 <= p)%nat
                  /\ record ∈ list_files order up.2 uid c (Some limit_)
                                (Some (Z.of_nat p)))
  /\ (forall other c ql qp, other <> uid ->
        record ∉ list_files order up.2 other c ql qp).
Proof.
  intros Hperm Hkeyed Hfresh Hl up record.
  subst up. cbn [upload_file fst snd json http_status].
  fold record. change (_id (new_File getFileUrl uid f env)) with (_id record).
  assert (Hsel : selects order) by (intros l x Hx; now rewrite Hperm in Hx).
  assert (Hlen : forall l, length (order l) = length l)
    by (intros l; now rewrite Hperm).
  assert (Hrec : (<[_id record := record]> db) !! _id record = Some record)
    by apply lookup_insert_eq.
  assert (Hcat : category record ∈ categories) by apply category_of_known.
  split; [reflexivity|]. split; [|split; [exact Hrec|split; [|split; [reflexivity|
    split; [reflexivity|split; [exact Hcat|split]]]]]].
  - intros k d Hk. destruct (decide (_id record = k)) as [<-|Hne].
    + rewrite lookup_insert_eq in Hk. congruence.
    + rewrite lookup_insert_ne in Hk by exact Hne. now apply Hkeyed.
  - intros k d Hk. rewrite lookup_insert_ne; [exact Hk|].
    intros <-. change (_id record) with (newObjectId env) in Hk. congruence.
  - intros c Hc. apply on_some_page; [exact Hl|exact Hlen|].
    unfold result_set.
    cbn [q_sort q_matches SettingsRoutes.files_sorted Mongo.sort Mongo.find].
    rewrite Hperm. apply elem_of_filter. split.
    + apply elem_of_documents. now exists (_id record).
    + unfold SettingsRoutes.files_filter.
      apply andb_true_iff. split; [apply String.eqb_refl|].
      assert (Hne : JsString.falsy (category record) = false).
      { unfold categories in Hcat.
        repeat (apply elem_of_cons in Hcat as [->|Hcat]; [reflexivity|]).
        now apply elem_of_nil in Hcat. }
      repeat (apply elem_of_cons in Hc as [->|Hc]; [|]);
        [reflexivity|reflexivity| |now apply elem_of_nil in Hc].
      cbn [AffiliateRoutes.given]. rewrite Hne.
      destruct (String.eqb (category record) "all"); [reflexivity|].
      apply String.eqb_refl.
  - intros other c ql qp Hne Hin.
    apply list_files_within in Hin as [_ Hu]; [|exact Hsel].
    apply Hne. symmetry. exact Hu.
Qed.

Lemma uploaded_file_is_listed_witness :
  exists p, (1 <= p)%nat
    /\ new_File FileSamples.cdn "u1" FileSamples.menu (FileSamples.at_id "f3")
       ∈ list_files id
           (upload_file FileSamples.cdn FileSamples.shelf "u1" (Some FileSamples.menu)
              (FileSamples.at_id "f3") Resolved).2
           "u1" (Some "documents") (Some 1%Z) (Some (Z.of_nat p)).
Proof.
  assert (Hkeyed : keyed FileSamples.shelf).
  { intros k d Hk. unfold FileSamples.shelf in Hk.
    apply lookup_insert_Some in Hk as [[<- <-]|[_ Hk]]; [reflexivity|].
    apply lookup_singleton_Some in Hk as [<- <-]. reflexivity. }
  apply (uploaded_file_is_listed FileSamples.cdn id FileSamples.shelf "u1"
           FileSamples.menu (FileSamples.at_id "f3") 1%Z
           (fun l => reflexivity l) Hkeyed eq_refl ltac:(lia)).
  right; right; left.
Defined.

(** X26. DELETE /delete-file deletes only a file of the requesting user.
    When no record has both the key and the requesting user, the answer is
    404, the collection is as it was and the storage service is not called,
    whoever else owns a record with that key.  Otherwise the storage
    service is asked to delete that key and nothing else; when storage and
    database both succeed the answer is 200 and the collection loses
    exactly one record, which has the key and belongs to the user; when
    either fails the answer is 500 and no record is removed, so after a
    storage deletion followed by a database failure the record of the
    deleted file is still there. *)
Theorem delete_file_only_own (db : gmap ObjectId File) (uid : ObjectId)
    (file_key : string) (storage_delete db_delete : Outcome) :
  keyed db ->
  let out := delete_file db uid file_key storage_delete db_delete in
  ((forall k f, db !! k = Some f -> fileKey f = file_key -> userId f <> uid) ->
     out = (status_json 404 (DeleteError "File not found or access denied"), db, []))
  /\ ((exists k f, db !! k = Some f /\ fileKey f = file_key /\ userId f = uid) ->
        out.2 = [file_key]
        /\ (storage_delete = Resolved -> db_delete = Resolved ->
              http_status out.1.1 = 200
              /\ exists k f, db !! k = Some f /\ fileKey f = file_key
                             /\ userId f = uid /\ out.1.2 = delete k db)
        /\ (storage_delete <> Resolved \/ db_delete <> Resolved ->
              http_status out.1.1 = 500 /\ out.1.2 = db)).
Proof.
  intros Hkeyed out. subst out. unfold delete_file. split.
  - intros Hnone.
    assert (E : findOne (owned file_key uid) db = None).
    { apply findOne_None_iff. intros k f Hk.
      destruct (owned file_key uid f) eqn:Ho; [|reflexivity].
      apply owned_spec in Ho as [Hkey Hu]. now destruct (Hnone k f Hk Hkey). }
    now rewrite E.
  - intros (k & f & Hk & Hkey & Hu).
    destruct (findOne_is_Some db (owned file_key uid)) as [d Hd].
    { exists k, f. split; [exact Hk|]. now apply owned_spec. }
    rewrite Hd. apply findOne_Some in Hd as [[k' Hk'] Ho].
    apply owned_spec in Ho as [Hdkey Hdu].
    destruct storage_delete as [|e1]; [destruct db_delete as [|e2]|];
      cbn [fst snd json status_json http_status];
      (split; [reflexivity|]); split;
      try (intros; discriminate);
      try (intros [H|H]; now destruct H);
      try (intros _; split; reflexivity).
    intros _ _. split; [reflexivity|].
    exists k', d. rewrite (Hkeyed _ _ Hk'). auto.
Qed.

Lemma delete_file_only_own_witness :
  delete_file FileSamples.shelf "u3" "documents/front.png" Resolved Resolved
  = (status_json 404 (DeleteError "File not found or access denied"),
     FileSamples.shelf, []).
Proof.
  assert (Hkeyed : keyed FileSamples.shelf).
  { intros k d Hk. unfold FileSamples.shelf in Hk.
    apply lookup_insert_Some in Hk as [[<- <-]|[_ Hk]]; [reflexivity|].
    apply lookup_singleton_Some in Hk as [<- <-]. reflexivity. }
  apply (delete_file_only_own FileSamples.shelf "u3" "documents/front.png"
           Resolved Resolved Hkeyed).
  intros k f Hk _. unfold FileSamples.shelf in Hk.
  apply lookup_insert_Some in Hk as [[_ <-]|[_ Hk]]; [discriminate|].
  apply lookup_singleton_Some in Hk as [_ <-]. discriminate.
Defined.

End FileProperties.

(** * Notifications *)

Module NotificationProperties.
Import Mongo MongoFacts CollectionFacts NotificationRoutes.

Lemma unread_for_mark_read uid t n : unread_for uid (mark_read t n) = false.
Proof. unfold unread_for. apply andb_false_iff. now right. Qed.

(* what read-all does to one document *)
Lemma read_all_lookup db uid env k :
  (read_all db uid env Resolved).2 !! k
  = (fun n => if unread_for uid n then mark_read (now env) n else n) <$> db !! k.
Proof.
  unfold read_all, AffiliateAdmin.updateMany. cbn [snd]. apply lookup_fmap.
Qed.

(** X27. PUT /read-all marks the unread notifications of the requesting
    user and nothing else.  After an accepted read-all of a user: the user
    has no unread notification left; each one that was unread has status
    'read' and readAt = the time of the request, its recipient, title and
    message being as before; every other notification (read or archived
    ones of the user, with the readAt they had, those of other users and
    those addressed to a role) is as it was, so the unread count of every
    other user is unchanged; no notification is added or removed; and a
    second read-all at a later time changes nothing. *)
Theorem read_all_marks_own_unread (db : gmap ObjectId Notification)
    (uid : ObjectId) (env : Env) :
  let db' := (read_all db uid env Resolved).2 in
  unread_count db' uid = 0%Z
  /\ (forall k n, db !! k = Some n -> unread_for uid n = true ->
        exists n', db' !! k = Some n'
                   /\ status n' = "read" /\ readAt n' = Some (now env)
                   /\ _id n' = _id n /\ recipient_userId n' = recipient_userId n
                   /\ title n' = title n /\ message n' = message n)
  /\ (forall k n, db !! k = Some n -> unread_for uid n = false -> db' !! k = Some n)
  /\ (forall k, db' !! k = None <-> db !! k = None)
  /\ (forall other, other <> uid -> unread_count db' other = unread_count db other)
  /\ (forall env', (read_all db' uid env' Resolved).2 = db').
Proof.
  intros db'. subst db'.
  split; [|split; [|split; [|split; [|split]]]].
  - apply countDocuments_0. intros k n' Hk. rewrite read_all_lookup in Hk.
    destruct (db !! k) as [n|]; [|discriminate]. injection Hk as <-.
    destruct (unread_for uid n) eqn:E; [apply unread_for_mark_read|exact E].
  - intros k n Hk Hu. rewrite read_all_lookup, Hk. cbn. rewrite Hu.
    eexists. split; [reflexivity|]. now repeat split.
  - intros k n Hk Hu. rewrite read_all_lookup, Hk. cbn. now rewrite Hu.
  - intros k. rewrite read_all_lookup. apply fmap_None.
  - intros other Hne. unfold unread_count, read_all, AffiliateAdmin.updateMany.
    cbn [snd]. apply countDocuments_fmap. intros n.
    destruct (unread_for uid n) eqn:E; [|reflexivity].
    unfold unread_for, for_user in *. cbn [mark_read recipient_userId status].
    destruct (recipient_userId n) as [u|]; [|discriminate].
    apply andb_true_iff in E as [Eu _]. apply String.eqb_eq in Eu. subst u.
    apply String.eqb_neq in Hne. rewrite String.eqb_sym in Hne.
    assert (Heq : String.eqb uid other = false).
    { apply String.eqb_neq. intros ->. apply String.eqb_neq in Hne. now apply Hne. }
    now rewrite Heq.
  - intros env'. apply map_eq. intros k.
    rewrite (read_all_lookup _ uid env'), read_all_lookup.
    destruct (db !! k) as [n|]; [|reflexivity]. cbn. f_equal.
    destruct (unread_for uid n) eqn:E.
    + now rewrite unread_for_mark_read.
    + now rewrite E.
Qed.

Lemma read_all_marks_own_unread_witness :
  unread_count
    (read_all NotificationSamples.inbox "u1" (NotificationSamples.at_time 700%Z)
       Resolved).2 "u1" = 0%Z
  /\ (read_all NotificationSamples.inbox "u1" (NotificationSamples.at_time 700%Z)
        Resolved).2 !! "n2" = Some NotificationSamples.invoice.
Proof.
  destruct (read_all_marks_own_unread NotificationSamples.inbox "u1"
              (NotificationSamples.at_time 700%Z)) as (H0 & _ & Hkeep & _).
  split; [exact H0|].
  apply Hkeep; reflexivity.
Defined.

(** X28. DELETE /:id removes only a notification addressed to the
    requesting user.  With the database answering: when the notification
    with that id is addressed to the user, the answer is 200, that
    notification is gone and every other one is as it was; when there is no
    such notification, or it is addressed to another user or to a role, the
    answer is 404 'Notification not found' and the collection is as it
    was. *)
Theorem delete_notification_only_own (db : gmap ObjectId Notification)
    (uid id : ObjectId) :
  let out := delete_notification db uid id Resolved in
  (forall n, db !! id = Some n -> recipient_userId n = Some uid ->
     http_status out.1 = 200
     /\ success (body out.1) = true
     /\ out.2 !! id = None
     /\ (forall k, k <> id -> out.2 !! k = db !! k))
  /\ ((forall n, db !! id = Some n -> recipient_userId n <> Some uid) ->
        http_status out.1 = 404
        /\ success (body out.1) = false
        /\ reply_message (body out.1) = "Notification not found"
        /\ out.2 = db).
Proof.
  intros out. subst out. unfold delete_notification, findById. split.
  - intros n Hn Hr. rewrite Hn. unfold for_user. rewrite Hr, String.eqb_refl.
    cbn [fst snd json http_status body success].
    split; [reflexivity|]. split; [reflexivity|].
    split; [apply lookup_delete_eq|].
    intros k Hk. now apply lookup_delete_ne.
  - intros Hother. destruct (db !! id) as [n|] eqn:Hn; [|now repeat split].
    specialize (Hother n eq_refl). unfold for_user.
    destruct (recipient_userId n) as [u|]; [|now repeat split].
    destruct (String.eqb_spec u uid) as [->|_]; [now destruct Hother|].
    now repeat split.
Qed.

Lemma delete_notification_only_own_witness :
  (delete_notification NotificationSamples.inbox "u1" "n3" Resolved).2
  = NotificationSamples.inbox
  /\ (delete_notification NotificationSamples.inbox "u1" "n4" Resolved).2
     = NotificationSamples.inbox.
Proof.
  split.
  - apply (delete_notification_only_own NotificationSamples.inbox "u1" "n3").
    intros n [= <-]. discriminate.
  - apply (delete_notification_only_own NotificationSamples.inbox "u1" "n4").
    intros n [= <-]. discriminate.
Defined.

End NotificationProperties.

(** * The user counts of GET /settings *)

Module SystemSettingsProperties.
Import Mongo MongoFacts CollectionFacts User SystemSettings.

Lemma length_filter_split {A} (p q : A -> bool) (l : list A) :
  (forall d, p d = true -> q d = false) ->
  (length (List.filter p l) + length (List.filter q l)
   + length (List.filter (fun d => negb (p d) && negb (q d)) l) = length l)%nat.
Proof.
  intros Hpq. induction l as [|d l IH]; [reflexivity|]. cbn [List.filter].
  destruct (p d) eqn:Ep.
  - rewrite (Hpq d Ep). cbn [negb andb length]. lia.
  - destruct (q d); cbn [negb andb length]; lia.
Qed.

Lemma filter_all {A} (l : list A) : List.filter (fun _ => true) l = l.
Proof.
  induction l as [|d l IH]; [reflexivity|]. cbn [List.filter]. now rewrite IH.
Qed.

Lemma admin_not_customer u : is_admin u = true -> is_customer u = false.
Proof.
  unfold is_admin, is_customer, includes. cbn [existsb].
  rewrite orb_false_r. intros H. apply orb_true_iff in H as [H|H];
    apply String.eqb_eq in H; now rewrite H.
Qed.

(** X29. The user counts of GET /settings add up: totalUsers is adminUsers
    plus customerUsers plus the number of users that are neither (the
    support and client users when every role is in the enumeration of the
    schema), so adminUsers + customerUsers never exceeds totalUsers; and
    customerUsers is the total GET /customers reports without search and
    status filters (for a page >= 1 and a limit >= 0) and an upper bound of
    the total it reports with any filter. *)
Theorem user_counts_add_up (db : gmap ObjectId User)
    (STRIPE_SECRET_KEY SMTP_USER : option string)
    (regex_i : string -> string -> bool) (newest_first : list User -> list User) :
  let s := userStats (body (settings_route db STRIPE_SECRET_KEY SMTP_USER)) in
  totalUsers s
  = (adminUsers s + customerUsers s
     + countDocuments (fun u => negb (is_admin u) && negb (is_customer u)) db)%Z
  /\ (0 <= adminUsers s /\ 0 <= customerUsers s
      /\ adminUsers s + customerUsers s <= totalUsers s)%Z
  /\ ((forall k u, db !! k = Some u -> role u ∈ role_enum) ->
        (totalUsers s - adminUsers s - customerUsers s)%Z
        = countDocuments (fun u => includes ["support"; "client"] (role u)) db)
  /\ (forall page limit,
        (1 <= default 1 page)%Z -> (0 <= default 20 limit)%Z ->
        total_of (AdminRoutes.customers_route regex_i newest_first db
                    {| AdminRoutes.cq_page := page; AdminRoutes.cq_limit := limit;
                       AdminRoutes.cq_search := None; AdminRoutes.cq_status := None |})
        = Some (customerUsers s))
  /\ (forall q t,
        total_of (AdminRoutes.customers_route regex_i newest_first db q) = Some t ->
        (t <= customerUsers s)%Z).
Proof.
  intros s. subst s. cbn [settings_route json body userStats totalUsers adminUsers
                            customerUsers].
  assert (Hsplit : countDocuments (fun _ : User => true) db
                   = (countDocuments is_admin db + countDocuments is_customer db
                      + countDocuments
                          (fun u => negb (is_admin u) && negb (is_customer u)) db)%Z).
  { unfold countDocuments.
    pose proof (length_filter_split is_admin is_customer (documents db)
                  admin_not_customer) as H.
    rewrite filter_all. lia. }
  split; [exact Hsplit|]. split; [|split; [|split]].
  - unfold countDocuments in *. lia.
  - intros Henum. rewrite Hsplit.
    replace (countDocuments (fun u => includes ["support"; "client"] (role u)) db)
      with (countDocuments (fun u => negb (is_admin u) && negb (is_customer u)) db);
      [lia|].
    unfold countDocuments. f_equal. f_equal.
    assert (Hin : forall d, d ∈ documents db -> role d ∈ role_enum).
    { intros d Hd. apply elem_of_documents in Hd as [k Hk]. eauto. }
    induction (documents db) as [|d l IH]; [reflexivity|]. cbn [List.filter].
    rewrite IH by (intros e He; apply Hin; now right).
    assert (Hd : role d ∈ role_enum) by (apply Hin; left).
    unfold is_admin, is_customer, role_enum in *.
    repeat (apply elem_of_cons in Hd as [->|Hd]; [reflexivity|]).
    now apply elem_of_nil in Hd.
  - intros page limit Hp Hlim.
    unfold total_of, AdminRoutes.customers_route, exec.
    cbn [q_skip Mongo.skip Mongo.limit AdminRoutes.cq_page AdminRoutes.cq_limit].
    destruct (Z.ltb_spec ((default 1%Z page - 1) * default 20%Z limit) 0) as [Hneg|_];
      [nia|].
    cbn [body json]. f_equal. unfold countDocuments. f_equal. f_equal.
    apply List.filter_ext. intros u. unfold AdminRoutes.customers_filter, is_customer.
    cbn [AdminRoutes.cq_search AdminRoutes.cq_status AffiliateRoutes.given].
    now rewrite !andb_true_r.
  - intros q t Ht. unfold total_of, AdminRoutes.customers_route in Ht.
    destruct (exec _ db) as [e|l]; cbn [body json status_json] in Ht; [discriminate|].
    injection Ht as <-. apply countDocuments_le.
    intros u Hu. unfold AdminRoutes.customers_filter in Hu.
    apply andb_true_iff in Hu as [Hu _]. apply andb_true_iff in Hu as [Hu _].
    exact Hu.
Qed.

Lemma user_counts_add_up_witness :
  (totalUsers (userStats (body (settings_route Examples.users None (Some "smtp"))))
   - adminUsers (userStats (body (settings_route Examples.users None (Some "smtp"))))
   - customerUsers (userStats (body (settings_route Examples.users None (Some "smtp")))))%Z
  = countDocuments (fun u => includes ["support"; "client"] (role u)) Examples.users.
Proof.
  apply (user_counts_add_up Examples.users None (Some "smtp")
           Examples.contains_i Examples.as_stored).
  intros k u Hk.
  assert (Hd : u ∈ documents Examples.users) by (apply elem_of_documents; eauto).
  vm_compute in Hd.
  repeat (apply elem_of_cons in Hd as [->|Hd];
          [vm_compute; repeat (apply elem_of_cons; first [left; reflexivity | right])|]).
  now apply elem_of_nil in Hd.
Defined.

End SystemSettingsProperties.

(** * The logo upload *)

Module LogoProperties.
Import Listing Mongo MongoFacts CollectionFacts SettingsProfile SettingsFacts LogoUpload.

(* deleting by key keeps the records that have another key *)
Lemma findOneAndDelete_key_other key files k d :
  FileStore.keyed files ->
  files !! k = Some d -> FileStore.fileKey d <> key ->
  findOneAndDelete_key key files !! k = Some d.
Proof.
  intros Hkeyed Hk Hne. unfold findOneAndDelete_key.
  destruct (findOne _ files) as [f|] eqn:E; [|exact Hk].
  apply findOne_Some in E as [[k' Hk'] Hm]. apply String.eqb_eq in Hm.
  rewrite (Hkeyed _ _ Hk'). rewrite lookup_delete_ne; [exact Hk|].
  intros ->. congruence.
Qed.

(* and removes the record that has the key, when there is only one *)
Lemma findOneAndDelete_key_unique key files k d :
  FileStore.keyed files ->
  files !! k = Some d -> FileStore.fileKey d = key ->
  (forall k' d', files !! k' = Some d' -> FileStore.fileKey d' = key -> k' = k) ->
  findOneAndDelete_key key files = delete k files.
Proof.
  intros Hkeyed Hk Hkey Huniq. unfold findOneAndDelete_key.
  destruct (findOne_is_Some files (fun f => String.eqb (FileStore.fileKey f) key))
    as [f Hf].
  { exists k, d. split; [exact Hk|]. now apply String.eqb_eq. }
  rewrite Hf. apply findOne_Some in Hf as [[k' Hk'] Hm]. apply String.eqb_eq in Hm.
  rewrite (Hkeyed _ _ Hk'). f_equal. eauto.
Qed.

Lemma delete_old_logo_other files old sd fd k d :
  FileStore.keyed files ->
  files !! k = Some d -> Some (FileStore.fileKey d) <> old ->
  (delete_old_logo files old sd fd).1 !! k = Some d.
Proof.
  intros Hkeyed Hk Hne. unfold delete_old_logo.
  destruct (truthy old) eqn:Et; [|exact Hk].
  destruct sd; [destruct fd|]; cbn [fst]; try exact Hk.
  apply findOneAndDelete_key_other; [exact Hkeyed|exact Hk|].
  intros Heq. apply Hne. destruct old as [o|]; [|discriminate].
  cbn in Heq. congruence.
Qed.

Lemma delete_old_logo_fresh files old sd fd k :
  files !! k = None -> (delete_old_logo files old sd fd).1 !! k = None.
Proof.
  intros Hk. unfold delete_old_logo, findOneAndDelete_key.
  destruct (truthy old); [|exact Hk].
  destruct sd; [destruct fd|]; cbn [fst]; try exact Hk.
  destruct (findOne _ files) as [f|]; [|exact Hk].
  destruct (decide (FileStore._id f = k)) as [->|Hne].
  - apply lookup_delete_eq.
  - now rewrite lookup_delete_ne.
Qed.

(** X30. POST /upload-logo replaces the logo of the requesting user.  With
    one settings document per user, every file record under its _id, the
    _ids of the new documents not in use and every storage and database
    call succeeding: the answer is 200; the next GET /business-profile
    answers the document the route worked on with logoUrl and logoKey set
    to the new file and everything else as before; the new file record is
    public and on some page of GET /files/logos of the user; the storage
    service is asked to delete the old logo key when the settings named
    one, and nothing else; every file record with another key stays, and
    the record of the old logo is gone when it is the only one with that
    key.  When saving the new file record fails instead, the answer is 500
    and the settings are as they were, although the storage service has
    been asked to delete the old logo. *)
Theorem upload_logo_replaces_logo (new_Settings : ObjectId -> ObjectId -> Settings)
    (getFileUrl : string -> string) (order : list FileStore.File -> list FileStore.File)
    (sdb : gmap ObjectId Settings) (fdb : gmap ObjectId FileStore.File)
    (uid : ObjectId) (f : FileStore.Upload) (env_settings env_file env' : Env)
    (write' : Mongo.Outcome) (limit_ : Z) :
  constructs new_Settings ->
  one_per_user sdb ->
  sdb !! newObjectId env_settings = None ->
  FileStore.keyed fdb ->
  fdb !! newObjectId env_file = None ->
  (forall l, order l ≡ₚ l) ->
  (1 <= limit_)%Z ->
  let before := current new_Settings sdb uid env_settings in
  let record := logo_File getFileUrl uid f env_file in
  let out := upload_logo new_Settings getFileUrl sdb fdb uid (Some f)
               env_settings env_file Resolved Resolved Resolved Resolved in
  http_status (response out) = 200
  /\ get_business_profile new_Settings (settings_db out) uid env' write'
     = (json (Document (set_logo (Some (FileStore.fileUrl record))
                          (Some (FileStore.fileKey record)) before)),
        settings_db out)
  /\ one_per_user (settings_db out)
  /\ FileStore.accessLevel record = "public"
  /\ (exists p, (1 <= p)%nat
        /\ record ∈ FileStore.list_files order (files_db out) uid (Some "logos")
                      (Some limit_) (Some (Z.of_nat p)))
  /\ deleted out
     = (if truthy (logoKey before) then [default "" (logoKey before)] else [])
  /\ (forall k d, fdb !! k = Some d -> Some (FileStore.fileKey d) <> logoKey before ->
        files_db out !! k = Some d)
  /\ (forall k d, fdb !! k = Some d ->
        logoKey before = Some (FileStore.fileKey d) -> FileStore.fileKey d <> "" ->
        (forall k' d', fdb !! k' = Some d' ->
                       FileStore.fileKey d' = FileStore.fileKey d -> k' = k) ->
        files_db out !! k = None)
  /\ (forall e,
        let failed := upload_logo new_Settings getFileUrl sdb fdb uid (Some f)
                        env_settings env_file Resolved Resolved (Rejected e)
                        Resolved in
        http_status (response failed) = 500
        /\ settings_db failed = sdb
        /\ deleted failed = deleted out).
Proof.
  intros Hnew Hone Hfresh_s Hkeyed Hfresh_f Hperm Hl before record out.
  subst out. cbn [upload_logo response settings_db files_db deleted json
                    status_json http_status].
  fold before. fold record.
  set (s' := set_logo _ _ before).
  destruct (save_current new_Settings Hnew sdb uid env_settings s' Hone Hfresh_s
              eq_refl eq_refl) as [Hone' Hfind].
  assert (Hlen : forall l, length (order l) = length l)
    by (intros l; now rewrite Hperm).
  split; [reflexivity|]. split; [|split; [exact Hone'|split; [reflexivity|
    split; [|split; [|split; [|split; [|now repeat split]]]]]]].
  - unfold get_business_profile. now rewrite Hfind.
  - apply FileFacts.on_some_page; [exact Hl|exact Hlen|].
    unfold result_set.
    cbn [q_sort q_matches SettingsRoutes.files_sorted Mongo.sort Mongo.find].
    rewrite Hperm. apply elem_of_filter. split.
    + apply elem_of_documents. exists (FileStore._id record). apply lookup_insert_eq.
    + unfold SettingsRoutes.files_filter. apply andb_true_iff.
      split; [apply String.eqb_refl|reflexivity].
  - unfold delete_old_logo. destruct (truthy (logoKey before)); reflexivity.
  - intros k d Hk Hne. rewrite lookup_insert_ne.
    + now apply delete_old_logo_other.
    + intros <-. change (FileStore._id record) with (newObjectId env_file) in Hk.
      congruence.
  - intros k d Hk Hold Hne Huniq. rewrite lookup_insert_ne.
    + unfold delete_old_logo. rewrite Hold. cbn [truthy default from_option id].
      replace (JsString.falsy (FileStore.fileKey d)) with false
        by (now destruct (FileStore.fileKey d)).
      cbn [negb fst].
      rewrite (findOneAndDelete_key_unique _ fdb k d Hkeyed Hk eq_refl Huniq).
      apply lookup_delete_eq.
    + intros <-. change (FileStore._id record) with (newObjectId env_file) in Hk.
      congruence.
Qed.

Lemma upload_logo_replaces_logo_witness :
  deleted (upload_logo SettingsSamples.blank FileSamples.cdn LogoSamples.stored
             FileSamples.shelf "u1" (Some LogoSamples.logo)
             (SettingsSamples.at_id "s2") (FileSamples.at_id "f3")
             Resolved Resolved Resolved Resolved)
  = ["documents/front.png"]
  /\ files_db (upload_logo SettingsSamples.blank FileSamples.cdn LogoSamples.stored
                 FileSamples.shelf "u1" (Some LogoSamples.logo)
                 (SettingsSamples.at_id "s2") (FileSamples.at_id "f3")
                 Resolved Resolved Resolved Resolved) !! "f9" = None.
Proof.
  assert (Hone : one_per_user LogoSamples.stored).
  { unfold LogoSamples.stored. split.
    - intros k s Hk. apply lookup_singleton_Some in Hk as [<- <-]. reflexivity.
    - intros k1 k2 s1 s2 H1 H2 _.
      apply lookup_singleton_Some in H1 as [<- _].
      apply lookup_singleton_Some in H2 as [<- _]. reflexivity. }
  assert (Hkeyed : FileStore.keyed FileSamples.shelf).
  { intros k d Hk. unfold FileSamples.shelf in Hk.
    apply lookup_insert_Some in Hk as [[<- <-]|[_ Hk]]; [reflexivity|].
    apply lookup_singleton_Some in Hk as [<- <-]. reflexivity. }
  destruct (upload_logo_replaces_logo SettingsSamples.blank FileSamples.cdn id
              LogoSamples.stored FileSamples.shelf "u1" LogoSamples.logo
              (SettingsSamples.at_id "s2") (FileSamples.at_id "f3")
              (SettingsSamples.at_id "s3") Resolved 10%Z
              (fun i u => conj eq_refl eq_refl) Hone eq_refl Hkeyed eq_refl
              (fun l => reflexivity l) ltac:(lia))
    as (_ & _ & _ & _ & _ & Hdel & _).
  split; [exact Hdel|]. vm_compute. reflexivity.
Defined.

End LogoProperties.
